(** * School fee management (sfms): fee, due and payment computations

    A shallow embedding of the fee / discount / balance logic that lives in
    the dashboard pages of the application, and of the hosted relational
    store those pages talk to through the query builder.

    Conventions of the embedding.
    - A JavaScript [number] that holds an amount is the rational it denotes,
      a [Q]; equality of amounts is [==].  The sums and differences of the
      pages are those of binary64: the exact result rounded to the nearest
      number of 53 significant bits, ties to even ([Binary64.round]).  The
      exponent is not bounded, so overflow to infinity and underflow are
      left out, as are [NaN], the infinities and the negative zero.
    - A nullable or optional field is an [option]; [a || d] on numbers is
      [jsOr], truthiness of a string is [truthyStr].
    - A JavaScript object used as a dictionary is a [gmap string _].
    - A string is the sequence of the UTF-8 bytes of its text.
    - [new Date(s).getTime()] belongs to the runtime, not to the pages: it is
      the method of the class [JsDate], [None] standing for [NaN]; so do
      [parseFloat] and [Number] ([JsParse]) and [localeCompare]
      ([JsLocale]).
    - The store carries out the requests it is sent.  The pages read fee
      types through their fee links, and payments and fee links through
      their students, which the store allows along foreign keys only; what a
      delete does to rows that still refer to the deleted one is the
      store's choice, and the properties of the deletions are stated for
      rows to which nothing refers any more. *)

From Stdlib Require Import ZArith QArith Qround Qpower Qabs Lqa Lia Bool Ascii String List.
From Stdlib Require Import Permutation.
From stdpp Require Import base option list gmap strings pretty relations.

Local Open Scope Q_scope.

(** ** Binary64 arithmetic

    A positive number [x] with [2^l <= x < 2^(l+1)] is rounded to the
    multiple of [2^(l-52)] nearest to it, the even one of two that are
    equally near. *)

Module Binary64.

Definition pow2 (e : Z) : Q := 2 ^ e.

(** The integer part of the binary logarithm of a positive number. *)
Definition ilog2 (x : Q) : Z :=
  let k := (Z.log2 (Qnum x) - Z.log2 (Zpos (Qden x)))%Z in
  if Qle_bool (pow2 k) x then k else (k - 1)%Z.

(** The nearest integer, the even one on a tie. *)
Definition rne (q : Q) : Z :=
  let f := Qfloor q in
  match Qcompare (q - inject_Z f) (1 # 2) with
  | Lt => f
  | Gt => (f + 1)%Z
  | Eq => if Z.even f then f else (f + 1)%Z
  end.

Definition roundPos (x : Q) : Q :=
  let e := (ilog2 x - 52)%Z in
  inject_Z (rne (x / pow2 e)) * pow2 e.

Definition round (x : Q) : Q :=
  let x := Qred x in
  match Qnum x with
  | Z0 => 0
  | Zpos _ => Qred (roundPos x)
  | Zneg _ => Qred (- roundPos (- x))
  end.

Definition add (x y : Q) : Q := round (x + y).
Definition sub (x y : Q) : Q := round (x - y).

End Binary64.

(** ** JavaScript values *)

Module Js.

(** Amounts: the [number]s of the pages, with their [+] and [-]. *)
Definition number := Q.

Definition add (x y : number) : number := Binary64.add x y.
Definition sub (x y : number) : number := Binary64.sub x y.

Definition Qltb (x y : Q) : bool := negb (Qle_bool y x).

(** [x || d] on an optional number: [undefined], [null] and [0] are falsy. *)
Definition jsOr (x : option number) (d : number) : number :=
  match x with
  | Some v => if Qeq_bool v 0 then d else v
  | None => d
  end.

(** Truthiness of an optional string: [null] and [''] are falsy. *)
Definition truthyStr (s : option string) : bool :=
  match s with
  | Some EmptyString => false
  | Some _ => true
  | None => false
  end.

(** [s || d] on an optional string. *)
Definition strOr (s : option string) (d : string) : string :=
  match s with
  | Some EmptyString => d
  | Some v => v
  | None => d
  end.

(** [new Date(s).getTime()]: milliseconds since the epoch, [None] for an
    invalid date ([NaN]). *)
Class JsDate := { getTime : string -> option Z }.

(** [s.localeCompare(t)]: the collation of the runtime. *)
Class JsLocale := { localeCompare : string -> string -> Z }.

(** [String.prototype.trim] strips the white space and the line terminators
    of ECMAScript.  Of one byte: tab, line feed, vertical tab, form feed,
    carriage return and space.  Beyond ASCII: U+00A0, of two bytes, and
    U+1680, U+2000 to U+200A, U+2028, U+2029, U+202F, U+205F, U+3000 and
    U+FEFF, of three bytes each. *)
Definition isSpace (c : ascii) : bool :=
  match nat_of_ascii c with
  | 9%nat | 10%nat | 11%nat | 12%nat | 13%nat | 32%nat => true
  | _ => false
  end.

Definition byte (c : ascii) (n : nat) : bool := Nat.eqb (nat_of_ascii c) n.

Definition isSpace2 (a b : ascii) : bool := byte a 194 && byte b 160.

Definition isSpace3 (a b c : ascii) : bool :=
  byte a 225 && byte b 154 && byte c 128
  || byte a 226 && byte b 128
     && (Nat.leb 128 (nat_of_ascii c) && Nat.leb (nat_of_ascii c) 138
         || byte c 168 || byte c 169 || byte c 175)
  || byte a 226 && byte b 129 && byte c 159
  || byte a 227 && byte b 128 && byte c 128
  || byte a 239 && byte b 187 && byte c 191.

(** What is left once the white space at the front is dropped; [two] and
    [three] tell the characters of two and of three bytes. *)
Fixpoint dropSpaces (two : ascii -> ascii -> bool)
    (three : ascii -> ascii -> ascii -> bool) (s : string) : string :=
  match s with
  | EmptyString => EmptyString
  | String a r =>
      if isSpace a then dropSpaces two three r
      else
        match r with
        | String b r2 =>
            if two a b then dropSpaces two three r2
            else
              match r2 with
              | String c r3 => if three a b c then dropSpaces two three r3 else s
              | EmptyString => s
              end
        | EmptyString => s
        end
  end.

Definition trimStart (s : string) : string := dropSpaces isSpace2 isSpace3 s.

Fixpoint revStr (acc s : string) : string :=
  match s with
  | EmptyString => acc
  | String c r => revStr (String c acc) r
  end.

(** The end of the string is trimmed on the reversed bytes, where the bytes
    of a character come last byte first. *)
Definition trimEnd (s : string) : string :=
  revStr EmptyString
    (dropSpaces (fun b a => isSpace2 a b) (fun c b a => isSpace3 a b c)
       (revStr EmptyString s)).

Definition trim (s : string) : string := trimEnd (trimStart s).

Definition isEmpty (s : string) : bool :=
  match s with EmptyString => true | _ => false end.

(** [Array.prototype.includes] on an array of strings. *)
Definition includes (l : list string) (x : string) : bool :=
  bool_decide (x ∈ l).

(** [Array.prototype.find]. *)
Definition find {A} (p : A -> bool) (l : list A) : option A := List.find p l.

(** A [select] that is [required], whose first option has the empty value:
    it holds the value of the state when one of its options carries it, the
    empty value otherwise, and it is valid when its value is not empty. *)
Definition selectValid (options : list string) (value : string) : bool :=
  negb (isEmpty value) && includes options value.

(** [Array.prototype.sort] with a comparator: the sort is stable, so for a
    consistent comparator the result is that of a stable insertion sort.
    [cmp a b] is the sign of the comparator's value, a [NaN] counting as
    [0] as the language prescribes. *)
Section Sort.
Context {A : Type} (cmp : A -> A -> Z).

Fixpoint insertSorted (x : A) (l : list A) : list A :=
  match l with
  | [] => [x]
  | y :: r => if (0 <? cmp x y)%Z then y :: insertSorted x r else x :: l
  end.

Definition sort (l : list A) : list A := foldr insertSorted [] l.
End Sort.

(** Sum of a list of amounts: [reduce((sum, x) => sum + x, 0)]. *)
Definition reduceSum {A} (f : A -> number) (l : list A) : number :=
  fold_left (fun sum x => add sum (f x)) l 0.

End Js.

(** ** The hosted store

    The tables the pages read and write, and the query builder calls they
    issue.  A query is a filter over the rows of a table; an embedded
    resource of a [select] is resolved through the foreign key.  The store
    carries out every request: a failure of the network is not part of the
    model, nor is what a foreign key does when a row that other rows still
    refer to is deleted (the delete is refused, or the referring rows go
    with it); the [.single()] row count is. *)

Module Db.

Record ClassRow := {
  c_id : string;
  c_school_id : option string;
  c_name : string
}.

Record FeeTypeRow := {
  ft_id : string;
  ft_school_id : option string;
  ft_name : string;
  ft_description : option string;
  ft_default_amount : option Js.number;
  ft_scheduled_date : option string;
  ft_applicable_from : option string
}.

Record FeeTypeClassRow := {
  ftc_fee_type_id : string;
  ftc_class_id : string;
  ftc_school_id : option string
}.

Record StudentRow := {
  s_id : string;
  s_school_id : option string;
  s_name : string;
  s_roll_no : string;
  s_class_id : string;
  s_academic_year : string;
  s_total_fees : option Js.number;
  s_status : option string
}.

Record StudentFeeTypeRow := {
  sft_student_id : string;
  sft_fee_type_id : string;
  sft_school_id : option string;
  sft_assigned_amount : option Js.number;
  sft_discount : option Js.number;
  sft_discount_description : option string
}.

Record PaymentRow := {
  p_student_id : string;
  p_school_id : option string;
  p_date : string;
  p_amount_paid : Js.number;
  p_mode_of_payment : string;
  p_receipt_number : string;
  p_description : option string
}.

Record Store := {
  classes : list ClassRow;
  fee_types : list FeeTypeRow;
  fee_type_classes : list FeeTypeClassRow;
  students : list StudentRow;
  student_fee_types : list StudentFeeTypeRow;
  payments : list PaymentRow
}.

(** [.eq(column, value)] on a text column and on a nullable one. *)
Definition eqStr (a b : string) : bool := bool_decide (a = b).

Definition eqOpt (a : option string) (b : string) : bool :=
  match a with Some x => eqStr x b | None => false end.

(** [.order('name')]: a stable sort on the column, the byte order of
    strings standing for the collation of the database. *)
Definition cmpStr (a b : string) : Z :=
  match String.compare a b with Lt => (-1)%Z | Eq => 0%Z | Gt => 1%Z end.

Definition orderBy {A} (col : A -> string) (l : list A) : list A :=
  Js.sort (fun x y => cmpStr (col x) (col y)) l.

(** Embedded resources. *)
Record SftJoined := {
  sft_row : StudentFeeTypeRow;
  fee_type : option FeeTypeRow
}.

Record StudentJoined := {
  s_row : StudentRow;
  j_classes : option ClassRow;
  j_payments : list PaymentRow;
  j_student_fee_types : list SftJoined
}.

Definition joinFeeType (db : Store) (r : StudentFeeTypeRow) : SftJoined :=
  {| sft_row := r;
     fee_type :=
       List.find (fun f => eqStr (ft_id f) (sft_fee_type_id r)) (fee_types db) |}.

Definition joinStudent (db : Store) (s : StudentRow) : StudentJoined :=
  {| s_row := s;
     j_classes := List.find (fun c => eqStr (c_id c) (s_class_id s)) (classes db);
     j_payments :=
       List.filter (fun p => eqStr (p_student_id p) (s_id s)) (payments db);
     j_student_fee_types :=
       List.map (joinFeeType db)
         (List.filter (fun r => eqStr (sft_student_id r) (s_id s))
            (student_fee_types db)) |}.

(** [.single()]: exactly one row, an error otherwise. *)
Definition single {A} (l : list A) : option A :=
  match l with [x] => Some x | _ => None end.

End Db.

(** ** Status classification of the master ledger *)

Inductive Status := Paid | Partially_paid | Unpaid | No_fees_due.

Inductive FeeView := ViewTotal | ViewDue.

Inductive LedgerView := ViewClass | ViewSchool.

Record FeeTypeDetail := {
  ftd_id : string;
  ftd_name : string;
  ftd_default_amount : Js.number;
  ftd_scheduled_date : option string;
  ftd_discount : Js.number
}.

(** The body shared, word for word, by the two copies of the ledger page:
    the callback of [s.student_fee_types?.map] with its side effect on
    [due_fees_this_moment], and the [reduce] over the payments. *)
Section LedgerRow.
Context `{Js.JsDate}.
Import Db.

Definition netFeeAmount (sft : SftJoined) : Js.number :=
  let fee := fee_type sft in
  let discount := Js.jsOr (sft_discount (sft_row sft)) 0 in
  Js.sub (Js.jsOr (fee ≫= ft_default_amount) 0) discount.

(** [if (fee && fee.scheduled_date) { ... !isNaN(...) ... scheduledDate <= today }] *)
Definition isDue (today : Z) (sft : SftJoined) : bool :=
  match fee_type sft with
  | Some fee =>
      if Js.truthyStr (ft_scheduled_date fee) then
        match Js.getTime (Js.strOr (ft_scheduled_date fee) EmptyString) with
        | Some scheduledDate => (scheduledDate <=? today)%Z
        | None => false
        end
      else false
  | None => false
  end.

Definition due_fees_this_moment (today : Z) (sfts : list SftJoined) : Js.number :=
  fold_left
    (fun due sft => if isDue today sft then Js.add due (netFeeAmount sft) else due)
    sfts 0.

Definition feeDetail (sft : SftJoined) : FeeTypeDetail :=
  let fee := fee_type sft in
  {| ftd_id := Js.strOr (ft_id <$> fee) EmptyString;
     ftd_name := Js.strOr (ft_name <$> fee) "Unknown Fee";
     ftd_default_amount := Js.jsOr (fee ≫= ft_default_amount) 0;
     ftd_scheduled_date :=
       if Js.truthyStr (fee ≫= ft_scheduled_date)
       then fee ≫= ft_scheduled_date else None;
     ftd_discount := Js.jsOr (sft_discount (sft_row sft)) 0 |}.

Definition totalPaidOf (ps : list PaymentRow) : Js.number :=
  Js.jsOr (Some (Js.reduceSum p_amount_paid ps)) 0.

(** The comparator of [stu.payments.sort(...)] in [handleExport]:
    [new Date(b.date).getTime() - new Date(a.date).getTime()]. *)
Definition byDateDesc (a b : PaymentRow) : Z :=
  match Js.getTime (p_date b), Js.getTime (p_date a) with
  | Some tb, Some ta => Z.sgn (tb - ta)
  | _, _ => 0%Z
  end.

Definition lastPayment (ps : list PaymentRow) : option PaymentRow :=
  match ps with
  | [] => None
  | _ => head (Js.sort byDateDesc ps)
  end.
End LedgerRow.

(** ** Master ledger, copy without tenant context
    (sfms 2/app/dashboard/master-ledger/page.tsx) *)

Module Sfms2Ledger.
Import Db.

Record StudentWithPayments := {
  id : string;
  name : string;
  roll_no : string;
  class_name : string;
  class_id : string;
  total_assigned_fees : Js.number;
  due_fees_total : Js.number;
  status_based_on_total : string;
  academic_year : string;
  payments : list PaymentRow;
  totalPaid : option Js.number;
  all_fee_details : list FeeTypeDetail
}.

Section Fetch.
Context `{Js.JsDate}.

Definition enrich (today : Z) (s : StudentJoined) : StudentWithPayments :=
  {| id := s_id (s_row s);
     name := s_name (s_row s);
     roll_no := s_roll_no (s_row s);
     class_name := Js.strOr (c_name <$> j_classes s) "Unknown";
     class_id := s_class_id (s_row s);
     total_assigned_fees := Js.jsOr (s_total_fees (s_row s)) 0;
     due_fees_total := due_fees_this_moment today (j_student_fee_types s);
     status_based_on_total := Js.strOr (s_status (s_row s)) "unpaid";
     academic_year := s_academic_year (s_row s);
     payments := j_payments s;
     totalPaid := Some (totalPaidOf (j_payments s));
     all_fee_details := List.map feeDetail (j_student_fee_types s) |}.

(** [supabase.from('students').select(...).order('name')]: no filter on
    the tenant column. *)
Definition fetchStudents (db : Store) (selectedClassId : string) (today : Z)
  : list StudentWithPayments :=
  let data := orderBy s_name (students db) in
  let enrichedStudents := List.map (fun s => enrich today (joinStudent db s)) data in
  if Js.isEmpty selectedClassId then enrichedStudents
  else List.filter (fun s => eqStr (class_id s) selectedClassId) enrichedStudents.
End Fetch.

Definition getDynamicStatus (feeViewType : FeeView) (student : StudentWithPayments)
  : Status :=
  let feesToConsider :=
    match feeViewType with
    | ViewTotal => total_assigned_fees student
    | ViewDue => due_fees_total student
    end in
  let paid := Js.jsOr (totalPaid student) 0 in
  if Qle_bool feesToConsider 0 then
    (if Js.Qltb 0 paid then Paid else No_fees_due)
  else if Qle_bool feesToConsider paid then Paid
  else if Js.Qltb 0 paid && Js.Qltb paid feesToConsider then Partially_paid
  else Unpaid.

(** The figures of one exported row ([handleExport]). *)
Definition feesForCalc (feeViewType : FeeView) (stu : StudentWithPayments) : Js.number :=
  match feeViewType with
  | ViewTotal => total_assigned_fees stu
  | ViewDue => due_fees_total stu
  end.

Definition balance (feeViewType : FeeView) (stu : StudentWithPayments) : Js.number :=
  Js.sub (feesForCalc feeViewType stu) (Js.jsOr (totalPaid stu) 0).

End Sfms2Ledger.

(** ** Master ledger, copy with tenant context
    (stackblitz-starters-uteq2bxv (2) 2/app/dashboard/master-ledger/page.tsx) *)

Module Ledger.
Import Db.

(** [StudentRow & { ... }]: the row of the student, spread, and the
    derived fields. *)
Record StudentWithDetails := {
  row : StudentRow;
  payments : list PaymentRow;
  class_name : string;
  totalPaid : option Js.number;
  all_fee_details : list FeeTypeDetail;
  due_fees_total : option Js.number
}.

(** The literal [0.009], as the binary64 value it denotes. *)
Definition zeroTolerance : Js.number :=
  5188146770730811 # 576460752303423488.

Section Fetch.
Context `{Js.JsDate}.

Definition enrich (today : Z) (s : StudentJoined) : StudentWithDetails :=
  {| row := s_row s;
     payments := j_payments s;
     class_name := Js.strOr (c_name <$> j_classes s) "N/A";
     totalPaid := Some (totalPaidOf (j_payments s));
     all_fee_details := List.map feeDetail (j_student_fee_types s);
     due_fees_total := Some (due_fees_this_moment today (j_student_fee_types s)) |}.

Definition fetchStudentsAndDetails (db : Store) (schoolId : option string)
    (view : LedgerView) (selectedClassId : string) (today : Z)
  : list StudentWithDetails :=
  if negb (Js.truthyStr schoolId) then []
  else
    let school := Js.strOr schoolId EmptyString in
    let query := List.filter (fun s => eqOpt (s_school_id s) school) (students db) in
    let query :=
      match view with
      | ViewClass =>
          if Js.isEmpty selectedClassId then query
          else List.filter (fun s => eqStr (s_class_id s) selectedClassId) query
      | ViewSchool => query
      end in
    let data := orderBy s_name query in
    List.map (fun s => enrich today (joinStudent db s)) data.

(** [fetchClassesForSchool]. *)
Definition fetchClassesForSchool (db : Store) (schoolId : option string)
  : list ClassRow :=
  if negb (Js.truthyStr schoolId) then []
  else orderBy c_name
         (List.filter (fun c => eqOpt (c_school_id c) (Js.strOr schoolId EmptyString))
            (classes db)).
End Fetch.

Definition getDynamicStatus (feeViewType : FeeView) (student : StudentWithDetails)
  : Status :=
  let feesToConsider :=
    match feeViewType with
    | ViewTotal => Js.jsOr (s_total_fees (row student)) 0
    | ViewDue => Js.jsOr (due_fees_total student) 0
    end in
  let paid := Js.jsOr (totalPaid student) 0 in
  if Qle_bool feesToConsider zeroTolerance then
    (if Js.Qltb 0 paid then Paid else No_fees_due)
  else if Qle_bool feesToConsider paid then Paid
  else if Js.Qltb 0 paid && Js.Qltb paid feesToConsider then Partially_paid
  else Unpaid.

Definition feesForCalc (feeViewType : FeeView) (stu : StudentWithDetails) : Js.number :=
  match feeViewType with
  | ViewTotal => Js.jsOr (s_total_fees (row stu)) 0
  | ViewDue => Js.jsOr (due_fees_total stu) 0
  end.

Definition balance (feeViewType : FeeView) (stu : StudentWithDetails) : Js.number :=
  Js.sub (feesForCalc feeViewType stu) (Js.jsOr (totalPaid stu) 0).

End Ledger.

(** ** What a handler reports *)

Inductive Outcome :=
| Rejected (msg : string)   (* a validation of the handler, before any write *)
| Failed (msg : string)     (* an error answered by the store *)
| Succeeded.

(** The per fee type adjustment kept in the form state. *)
Record FeeAdjustment := {
  discount : Js.number;
  description : string
}.

(** [parseFloat(s)] and [Number(s)]: runtime functions, [None] for [NaN]. *)
Class JsParse := {
  parseFloat : string -> option Js.number;
  toNumber : string -> option Js.number
}.

(** Handlers of the form state that the registration page and the student
    page share word for word. *)
Section FormHandlers.
Context `{JsParse}.

Definition toggleFeeTypeSelection (id : string) (prev : list string) : list string :=
  if Js.includes prev id
  then List.filter (fun fid => negb (Db.eqStr fid id)) prev
  else prev ++ [id].

Definition handleDiscountChange (id val : string)
    (prev : gmap string FeeAdjustment) : gmap string FeeAdjustment :=
  <[id := {| discount := Js.jsOr (parseFloat val) 0;
             description := Js.strOr (description <$> prev !! id) EmptyString |}]> prev.

Definition handleDescChange (id val : string)
    (prev : gmap string FeeAdjustment) : gmap string FeeAdjustment :=
  <[id := {| discount := Js.jsOr (discount <$> prev !! id) 0;
             description := val |}]> prev.
End FormHandlers.

(** [feeAdjustments[id]?.discount || 0] *)
Definition discountOf (feeAdjustments : gmap string FeeAdjustment) (id : string)
  : Js.number :=
  Js.jsOr (discount <$> feeAdjustments !! id) 0.

(** [feeAdjustments[id]?.description || null] *)
Definition descriptionOf (feeAdjustments : gmap string FeeAdjustment) (id : string)
  : option string :=
  match description <$> feeAdjustments !! id with
  | Some EmptyString => None
  | d => d
  end.

(** ** Student registration with tenant context (unnamed/part_000) *)

Module Registration.
Import Db.

Record State := {
  name : string;
  rollNo : string;
  selectedClassId : string;
  filteredFeeTypesForClass : list FeeTypeRow;
  selectedFeeTypeIds : list string;
  feeAdjustments : gmap string FeeAdjustment;
  academicYear : string;
  editStudentId : option string
}.

(** [fetchStudentsForSchool] *)
Definition fetchStudentsForSchool (db : Store) (schoolId : option string)
  : list StudentJoined :=
  if negb (Js.truthyStr schoolId) then []
  else List.map (joinStudent db)
         (orderBy s_name
            (List.filter (fun s => eqOpt (s_school_id s) (Js.strOr schoolId EmptyString))
               (students db))).

(** [fetchFilteredFeeTypes]: the fee types linked to the selected class. *)
Definition fetchFilteredFeeTypes (db : Store) (schoolId : option string)
    (selectedClassId : string) : list FeeTypeRow :=
  if Js.isEmpty selectedClassId || negb (Js.truthyStr schoolId) then []
  else
    omap (fun item =>
            List.find (fun f => eqStr (ft_id f) (ftc_fee_type_id item)) (fee_types db))
      (List.filter
         (fun l => eqStr (ftc_class_id l) selectedClassId
                   && eqOpt (ftc_school_id l) (Js.strOr schoolId EmptyString))
         (fee_type_classes db)).

(** A [null] amount in an arithmetic expression is [0]. *)
Definition amountOf (ft : FeeTypeRow) : Js.number := default 0 (ft_default_amount ft).

Definition totalFees (st : State) : Js.number :=
  fold_left
    (fun sum ft =>
       Js.sub (Js.add sum (amountOf ft)) (discountOf (feeAdjustments st) (ft_id ft)))
    (List.filter (fun ft => Js.includes (selectedFeeTypeIds st) (ft_id ft))
       (filteredFeeTypesForClass st))
    0.

Definition feeLinks (st : State) (schoolId studentIdForFeeLinks : string)
  : list StudentFeeTypeRow :=
  List.map
    (fun fee_type_id =>
       {| sft_student_id := studentIdForFeeLinks;
          sft_fee_type_id := fee_type_id;
          sft_school_id := Some schoolId;
          sft_assigned_amount :=
            Some (Js.jsOr
                    (Js.find (fun ft => eqStr (ft_id ft) fee_type_id)
                       (filteredFeeTypesForClass st) ≫= ft_default_amount) 0);
          sft_discount := Some (discountOf (feeAdjustments st) fee_type_id);
          sft_discount_description := descriptionOf (feeAdjustments st) fee_type_id |})
    (selectedFeeTypeIds st).

Definition insertFeeLinks (st : State) (schoolId sid : string) (db : Store) : Store :=
  match selectedFeeTypeIds st with
  | [] => db
  | _ =>
      {| classes := classes db; fee_types := fee_types db;
         fee_type_classes := fee_type_classes db; students := students db;
         student_fee_types := student_fee_types db ++ feeLinks st schoolId sid;
         payments := payments db |}
  end.

(** [studentCoreData] written over an existing row, and as a new row whose
    [id] the store generates. *)
Definition coreOver (st : State) (schoolId : string) (s : StudentRow) : StudentRow :=
  {| s_id := s_id s;
     s_school_id := Some schoolId;
     s_name := Js.trim (name st);
     s_roll_no := Js.trim (rollNo st);
     s_class_id := selectedClassId st;
     s_academic_year := Js.trim (academicYear st);
     s_total_fees := Some (totalFees st);
     s_status := s_status s |}.

Definition coreNew (st : State) (schoolId new_id : string) : StudentRow :=
  {| s_id := new_id;
     s_school_id := Some schoolId;
     s_name := Js.trim (name st);
     s_roll_no := Js.trim (rollNo st);
     s_class_id := selectedClassId st;
     s_academic_year := Js.trim (academicYear st);
     s_total_fees := Some (totalFees st);
     s_status := None |}.

Definition isTarget (schoolId id : string) (s : StudentRow) : bool :=
  eqStr (s_id s) id && eqOpt (s_school_id s) schoolId.

Definition isTargetLink (schoolId id : string) (r : StudentFeeTypeRow) : bool :=
  eqStr (sft_student_id r) id && eqOpt (sft_school_id r) schoolId.

(** [handleSubmit]; [new_id] is the identifier the store gives to an
    inserted student.  The checks come before the first request; the
    requests (the student, the old links, the new links) follow one another
    and are all carried out. *)
Definition handleSubmit (new_id : string) (schoolId : option string)
    (st : State) (db : Store) : Outcome * Store :=
  if negb (Js.truthyStr schoolId) then
    (Rejected "School information is missing. Cannot proceed.", db)
  else if Js.isEmpty (Js.trim (name st)) then (Rejected "Student name is required", db)
  else if Js.isEmpty (Js.trim (rollNo st)) then (Rejected "Roll number is required", db)
  else if Js.isEmpty (selectedClassId st) then (Rejected "Please select a class", db)
  else if Js.isEmpty (academicYear st) then (Rejected "Please select academic year", db)
  else
    let school := Js.strOr schoolId EmptyString in
    match editStudentId st with
    | Some eid =>
        match single (List.filter (isTarget school eid) (students db)) with
        | None => (Failed "Operation failed", db)
        | Some _ =>
            let db1 :=
              {| classes := classes db; fee_types := fee_types db;
                 fee_type_classes := fee_type_classes db;
                 students :=
                   List.map (fun s => if isTarget school eid s
                                      then coreOver st school s else s)
                     (students db);
                 student_fee_types :=
                   List.filter (fun r => negb (isTargetLink school eid r))
                     (student_fee_types db);
                 payments := payments db |} in
            (Succeeded, insertFeeLinks st school eid db1)
        end
    | None =>
        let db1 :=
          {| classes := classes db; fee_types := fee_types db;
             fee_type_classes := fee_type_classes db;
             students := students db ++ [coreNew st school new_id];
             student_fee_types := student_fee_types db;
             payments := payments db |} in
        (Succeeded, insertFeeLinks st school new_id db1)
    end.

(** [confirmDelete], once the typed name matches: the fee links of the
    student, then the student, both within the caller's school.  The page
    does not read the errors of the two requests. *)
Definition confirmDelete (schoolId : option string) (deleteStudent : StudentRow)
    (db : Store) : Store :=
  if negb (Js.truthyStr schoolId) then db
  else
    let school := Js.strOr schoolId EmptyString in
    {| classes := classes db; fee_types := fee_types db;
       fee_type_classes := fee_type_classes db;
       students :=
         List.filter (fun s => negb (isTarget school (s_id deleteStudent) s))
           (students db);
       student_fee_types :=
         List.filter (fun r => negb (isTargetLink school (s_id deleteStudent) r))
           (student_fee_types db);
       payments := payments db |}.

(** The handlers of the form on the state of the page, and the form as the
    effect leaves it once a class is chosen: outside edit mode the fee types
    of the class are loaded and the selection and the adjustments are
    emptied. *)
Definition setFees (st : State) (sel : list string) (adj : gmap string FeeAdjustment)
  : State :=
  {| name := name st; rollNo := rollNo st; selectedClassId := selectedClassId st;
     filteredFeeTypesForClass := filteredFeeTypesForClass st;
     selectedFeeTypeIds := sel; feeAdjustments := adj;
     academicYear := academicYear st; editStudentId := editStudentId st |}.

Definition tick (id : string) (st : State) : State :=
  setFees st (toggleFeeTypeSelection id (selectedFeeTypeIds st)) (feeAdjustments st).

Definition typeDiscount `{JsParse} (id val : string) (st : State) : State :=
  setFees st (selectedFeeTypeIds st) (handleDiscountChange id val (feeAdjustments st)).

Definition classChosen (db : Store) (schoolId : option string) (classId : string)
    (st : State) : State :=
  {| name := name st; rollNo := rollNo st; selectedClassId := classId;
     filteredFeeTypesForClass := fetchFilteredFeeTypes db schoolId classId;
     selectedFeeTypeIds := []; feeAdjustments := ∅;
     academicYear := academicYear st; editStudentId := None |}.

(** [fetchClassesForSchool]: the classes the class select offers. *)
Definition fetchClassesForSchool (db : Store) (schoolId : option string)
  : list ClassRow :=
  if negb (Js.truthyStr schoolId) then []
  else orderBy c_name
         (List.filter (fun c => eqOpt (c_school_id c) (Js.strOr schoolId EmptyString))
            (classes db)).

(** The options of the year select, [thisYear] being
    [new Date().getFullYear()]. *)
Definition yearOptions (thisYear : Z) : list string :=
  [pretty (thisYear - 1)%Z +:+ "-" +:+ pretty thisYear;
   pretty thisYear +:+ "-" +:+ pretty (thisYear + 1)%Z;
   pretty (thisYear + 1)%Z +:+ "-" +:+ pretty (thisYear + 2)%Z].

(** What the browser checks before it calls [handleSubmit]: the form has
    no [noValidate], so it is submitted only while every input it renders is
    valid.  The text inputs and the selects are [required]; the class select
    is disabled, and so not checked, in edit mode and when there is no
    class.  The inputs of the fee types are rendered once a class is
    chosen.  The discount input of a fee type that is listed and ticked is
    [type="number"] with [min={0}], [max={ft.default_amount}] and no [step],
    and it shows [feeAdjustments[ft.id]?.discount || '']: the empty value is
    valid, a number is valid when it is whole (the default step is 1), not
    below 0 and, if the fee type has a [default_amount], not above it. *)
Definition isWhole (v : Js.number) : bool := (Z.pos (Qden (Qred v)) =? 1)%Z.

Definition discountInputValid (adj : gmap string FeeAdjustment) (ft : FeeTypeRow)
  : bool :=
  let value := discountOf adj (ft_id ft) in
  if Qeq_bool value 0 then true
  else isWhole value && Qle_bool 0 value
       && match ft_default_amount ft with
          | Some max => Qle_bool value max
          | None => true
          end.

Definition formValid (thisYear : Z) (classes : list ClassRow) (st : State) : bool :=
  negb (Js.isEmpty (name st)) && negb (Js.isEmpty (rollNo st))
  && (Js.truthyStr (editStudentId st) || (length classes =? 0)%nat
      || Js.selectValid (List.map c_id classes) (selectedClassId st))
  && Js.selectValid (yearOptions thisYear) (academicYear st)
  && (Js.isEmpty (selectedClassId st)
      || forallb
           (fun ft => negb (Js.includes (selectedFeeTypeIds st) (ft_id ft))
                      || discountInputValid (feeAdjustments st) ft)
           (filteredFeeTypesForClass st)).

(** The submit button: [None] when the browser holds the form back. *)
Definition submit (thisYear : Z) (new_id : string) (schoolId : option string)
    (st : State) (db : Store) : option (Outcome * Store) :=
  if formValid thisYear (fetchClassesForSchool db schoolId) st
  then Some (handleSubmit new_id schoolId st db) else None.

(** The form as the page first renders it, [year] being
    [new Date().getFullYear().toString()]; the text inputs and the year
    select; the note of a fee type. *)
Definition blankForm (year : string) : State :=
  {| name := EmptyString; rollNo := EmptyString; selectedClassId := EmptyString;
     filteredFeeTypesForClass := []; selectedFeeTypeIds := []; feeAdjustments := ∅;
     academicYear := year; editStudentId := None |}.

Definition typeText (n r y : string) (st : State) : State :=
  {| name := n; rollNo := r; selectedClassId := selectedClassId st;
     filteredFeeTypesForClass := filteredFeeTypesForClass st;
     selectedFeeTypeIds := selectedFeeTypeIds st; feeAdjustments := feeAdjustments st;
     academicYear := y; editStudentId := editStudentId st |}.




End Registration.

(** ** Student page (sfms 2/app/dashboard/student/[studentID]/page.tsx) *)

Module StudentPage.
Import Db.

(** [Partial<StudentData>]: the fields of the edit form. *)
Record EditForm := {
  name : option string;
  roll_no : option string;
  class_id : option string;
  academic_year : option string
}.

Record State := {
  editForm : EditForm;
  filteredFeeTypesForEdit : list FeeTypeRow;
  editSelectedFeeTypeIds : list string;
  editFeeAdjustments : gmap string FeeAdjustment
}.

(** [!s?.trim()] *)
Definition blank (s : option string) : bool :=
  match s with Some v => Js.isEmpty (Js.trim v) | None => true end.

Definition applicableFeeTypes (st : State) : list FeeTypeRow :=
  List.filter (fun ft => Js.includes (editSelectedFeeTypeIds st) (ft_id ft))
    (filteredFeeTypesForEdit st).

Definition total_fees (st : State) : Js.number :=
  fold_left
    (fun sum ft =>
       Js.sub (Js.add sum (Js.jsOr (ft_default_amount ft) 0))
         (discountOf (editFeeAdjustments st) (ft_id ft)))
    (applicableFeeTypes st) 0.

Definition newFeeLinks (st : State) (studentID : string) : list StudentFeeTypeRow :=
  List.map
    (fun fee_type_id =>
       {| sft_student_id := studentID;
          sft_fee_type_id := fee_type_id;
          sft_school_id := None;
          sft_assigned_amount := None;
          sft_discount := Some (discountOf (editFeeAdjustments st) fee_type_id);
          sft_discount_description :=
            descriptionOf (editFeeAdjustments st) fee_type_id |})
    (editSelectedFeeTypeIds st).

Definition updated (st : State) (s : StudentRow) : StudentRow :=
  {| s_id := s_id s;
     s_school_id := s_school_id s;
     s_name := Js.strOr (name (editForm st)) EmptyString;
     s_roll_no := Js.strOr (roll_no (editForm st)) EmptyString;
     s_class_id := Js.strOr (class_id (editForm st)) EmptyString;
     s_academic_year := Js.strOr (academic_year (editForm st)) EmptyString;
     s_total_fees := Some (total_fees st);
     s_status := s_status s |}.

Definition handleUpdateStudent (studentID : string) (st : State) (db : Store)
  : Outcome * Store :=
  if blank (name (editForm st)) || blank (roll_no (editForm st))
     || negb (Js.truthyStr (class_id (editForm st)))
     || blank (academic_year (editForm st))
  then (Rejected "Please fill all required fields.", db)
  else if (length (editSelectedFeeTypeIds st) =? 0)%nat
          && negb (length (filteredFeeTypesForEdit st) =? 0)%nat
  then (Rejected "At least one fee type must be assigned if fee types are available for the class.", db)
  else
    (Succeeded,
     {| classes := classes db; fee_types := fee_types db;
        fee_type_classes := fee_type_classes db;
        students :=
          List.map (fun s => if eqStr (s_id s) studentID then updated st s else s)
            (students db);
        student_fee_types :=
          List.filter (fun r => negb (eqStr (sft_student_id r) studentID))
            (student_fee_types db)
          ++ newFeeLinks st studentID;
        payments := payments db |}).


(** [fetchStudentData]: the student by id alone. *)
Definition fetchStudentData (db : Store) (studentID : string) : option StudentJoined :=
  joinStudent db <$> single (List.filter (fun s => eqStr (s_id s) studentID) (students db)).

(** [handleDeleteStudent], once the typed name matches.  The ledger
    entries table is not part of this model. *)
Definition handleDeleteStudent (studentID : string) (db : Store) : Store :=
  {| classes := classes db; fee_types := fee_types db;
     fee_type_classes := fee_type_classes db;
     students := List.filter (fun s => negb (eqStr (s_id s) studentID)) (students db);
     student_fee_types :=
       List.filter (fun r => negb (eqStr (sft_student_id r) studentID))
         (student_fee_types db);
     payments :=
       List.filter (fun p => negb (eqStr (p_student_id p) studentID)) (payments db) |}.

End StudentPage.

(** ** Fee type management (unnamed/part_001) *)

Module FeeTypes.
Import Db.

Record Form := {
  name : string;
  description : string;
  default_amount : string;
  applicable_from : string
}.

Definition orNull (s : string) : option string :=
  if Js.isEmpty s then None else Some s.

Section Update.
Context `{JsParse}.

Definition validateForm (form : Form) : option string :=
  if Js.isEmpty (Js.trim (name form)) then Some "Name is required"
  else if negb (Js.isEmpty (default_amount form))
          && match parseFloat (default_amount form) with
             | Some _ => false
             | None => true
             end
  then Some "Default amount must be a number"
  else None.

Definition edited (editForm : Form) (f : FeeTypeRow) : FeeTypeRow :=
  {| ft_id := ft_id f;
     ft_school_id := ft_school_id f;
     ft_name := Js.trim (name editForm);
     ft_description := orNull (description editForm);
     ft_default_amount :=
       if Js.isEmpty (default_amount editForm) then None
       else parseFloat (default_amount editForm);
     ft_scheduled_date := ft_scheduled_date f;
     ft_applicable_from := orNull (applicable_from editForm) |}.

Definition updateFeeType (editing : option FeeTypeRow) (editForm : Form)
    (editSelectedClassIds : list string) (db : Store) : Outcome * Store :=
  match editing with
  | None => (Rejected EmptyString, db)
  | Some editing =>
      match validateForm editForm with
      | Some msg => (Rejected msg, db)
      | None =>
          (Succeeded,
           {| classes := classes db;
              fee_types :=
                List.map (fun f => if eqStr (ft_id f) (ft_id editing)
                                   then edited editForm f else f)
                  (fee_types db);
              fee_type_classes :=
                List.filter
                  (fun l => negb (eqStr (ftc_fee_type_id l) (ft_id editing)))
                  (fee_type_classes db)
                ++ List.map
                     (fun class_id =>
                        {| ftc_fee_type_id := ft_id editing;
                           ftc_class_id := class_id;
                           ftc_school_id := None |})
                     editSelectedClassIds;
              students := students db;
              student_fee_types := student_fee_types db;
              payments := payments db |})
      end
  end.
End Update.

End FeeTypes.

(** ** Recording a payment (sfms 2/app/dashboard/record-payment/page.tsx) *)

Module RecordPayment.
Import Db.

(** The effect that loads the class list. *)
Definition loadClasses (db : Store) : list ClassRow := classes db.

(** The effect that loads the students when the class filter changes. *)
Definition loadStudents (db : Store) (selectedClass : string) : list StudentRow :=
  if Js.isEmpty selectedClass then students db
  else List.filter (fun s => eqStr (s_class_id s) selectedClass) (students db).

Record State := {
  selectedStudentId : option string;
  amountPaid : string;
  modeOfPayment : string;
  description : string;
  manualReceiptNumber : string
}.

Section Submit.
Context `{JsParse}.

(** [!amountPaid || isNaN(Number(amountPaid)) || Number(amountPaid) <= 0] *)
Definition invalidAmount (amountPaid : string) : bool :=
  Js.isEmpty amountPaid
  || match toNumber amountPaid with
     | None => true
     | Some n => Qle_bool n 0
     end.

(** What the browser checks before it calls [handleSubmit]: the amount input
    is [type="number" min="1" step="any" required]. *)
Definition formValid (st : State) : bool :=
  negb (Js.isEmpty (amountPaid st))
  && match toNumber (amountPaid st) with
     | Some n => Qle_bool 1 n
     | None => false
     end.

(** [handleSubmit]; [now] is [new Date().toISOString()] and [stamp] is
    [`R-${Date.now()}`]. *)
Definition handleSubmit (now stamp : string) (st : State) (db : Store)
  : Outcome * Store :=
  if negb (Js.truthyStr (selectedStudentId st)) then
    (Rejected "Please select a student.", db)
  else if invalidAmount (amountPaid st) then (Rejected "Enter a valid amount.", db)
  else
    match parseFloat (amountPaid st) with
    | None => (Failed "Failed to record payment", db)
    | Some amount =>
        let generatedReceiptNumber :=
          if Js.isEmpty (Js.trim (manualReceiptNumber st)) then stamp
          else Js.trim (manualReceiptNumber st) in
        (Succeeded,
         {| classes := classes db; fee_types := fee_types db;
            fee_type_classes := fee_type_classes db;
            students := students db;
            student_fee_types := student_fee_types db;
            payments :=
              payments db ++
              [{| p_student_id := Js.strOr (selectedStudentId st) EmptyString;
                  p_school_id := None;
                  p_date := now;
                  p_amount_paid := amount;
                  p_mode_of_payment := modeOfPayment st;
                  p_receipt_number := generatedReceiptNumber;
                  p_description := FeeTypes.orNull (description st) |}] |})
    end.
End Submit.

End RecordPayment.

(** ** A runtime for the worked examples

    Dates: the date-only form [YYYY-MM-DD] of the date time string format,
    read as midnight UTC, and the form [YYYY-MM-DDTHH:mm:ss.sssZ] that
    [toISOString] writes; every other string is an invalid date.
    Numbers: decimal literals with an optional sign, fraction and exponent,
    rounded to binary64; [parseFloat] reads the longest such prefix after
    leading white space, [Number] the whole trimmed string, the empty one as
    [0].  [Infinity] and the literals of other bases are not read. *)

Module Runtime.

Definition digit (c : ascii) : option Z :=
  let n := Z.of_nat (nat_of_ascii c) in
  if ((48 <=? n) && (n <=? 57))%Z then Some (n - 48)%Z else None.

Fixpoint digits (acc : Z) (s : string) : option Z :=
  match s with
  | EmptyString => Some acc
  | String c r =>
      match digit c with
      | Some d => digits (acc * 10 + d)%Z r
      | None => None
      end
  end.

Definition numeral (s : string) : option Z :=
  match s with EmptyString => None | _ => digits 0 s end.

(** Days between the epoch and a date of the proleptic Gregorian calendar. *)
Definition daysFromCivil (y m d : Z) : Z :=
  let y' := if (m <=? 2)%Z then (y - 1)%Z else y in
  let era := (y' / 400)%Z in
  let yoe := (y' - era * 400)%Z in
  let doy := ((153 * (if (2 <? m)%Z then m - 3 else m + 9) + 2) / 5 + d - 1)%Z in
  let doe := (yoe * 365 + yoe / 4 - yoe / 100 + doy)%Z in
  (era * 146097 + doe - 719468)%Z.

Definition dateOnly (s : string) : option Z :=
  if negb (String.length s =? 10)%nat then None
  else if negb (Db.eqStr (substring 4 1 s) "-" && Db.eqStr (substring 7 1 s) "-")
  then None
  else
    match numeral (substring 0 4 s), numeral (substring 5 2 s),
          numeral (substring 8 2 s) with
    | Some y, Some m, Some d =>
        if ((1 <=? m) && (m <=? 12) && (1 <=? d) && (d <=? 31))%Z
        then Some (daysFromCivil y m d * 86400000)%Z
        else None
    | _, _, _ => None
    end.

Definition timeOfDay (s : string) : option Z :=
  if negb (String.length s =? 14)%nat then None
  else if negb (Db.eqStr (substring 0 1 s) "T" && Db.eqStr (substring 3 1 s) ":"
                && Db.eqStr (substring 6 1 s) ":" && Db.eqStr (substring 9 1 s) "."
                && Db.eqStr (substring 13 1 s) "Z")
  then None
  else
    match numeral (substring 1 2 s), numeral (substring 4 2 s),
          numeral (substring 7 2 s), numeral (substring 10 3 s) with
    | Some h, Some m, Some sec, Some ms =>
        if ((h <=? 23) && (m <=? 59) && (sec <=? 59))%Z
        then Some (((h * 60 + m) * 60 + sec) * 1000 + ms)%Z
        else None
    | _, _, _, _ => None
    end.

Definition isoDate (s : string) : option Z :=
  if (String.length s =? 10)%nat then dateOnly s
  else
    match dateOnly (substring 0 10 s), timeOfDay (substring 10 14 s) with
    | Some day, Some time =>
        if (String.length s =? 24)%nat then Some (day + time)%Z else None
    | _, _ => None
    end.

(** A run of digits: its value, its length and what follows it. *)
Fixpoint digitRun (acc : Z) (n : nat) (s : string) : Z * nat * string :=
  match s with
  | EmptyString => (acc, n, s)
  | String c r =>
      match digit c with
      | Some d => digitRun (acc * 10 + d)%Z (S n) r
      | None => (acc, n, s)
      end
  end.

Definition readSign (s : string) : bool * string :=
  match s with
  | String c r =>
      if Ascii.eqb c "-"%char then (true, r)
      else if Ascii.eqb c "+"%char then (false, r)
      else (false, s)
  | EmptyString => (false, s)
  end.

Definition readExponent (s : string) : Z * string :=
  match s with
  | String c r =>
      if Ascii.eqb c "e"%char || Ascii.eqb c "E"%char then
        let '(neg, r1) := readSign r in
        let '(e, n, r2) := digitRun 0 0 r1 in
        if (n =? 0)%nat then (0%Z, s) else ((if neg then - e else e)%Z, r2)
      else (0%Z, s)
  | EmptyString => (0%Z, s)
  end.

(** The longest decimal literal a string starts with, as the exact number
    it denotes, and what follows it. *)
Definition readDecimal (s : string) : option (Q * string) :=
  let '(neg, s1) := readSign s in
  let '(i, ni, s2) := digitRun 0 0 s1 in
  let '(f, nf, s3) :=
    match s2 with
    | String c r => if Ascii.eqb c "."%char then digitRun 0 0 r else (0%Z, 0%nat, s2)
    | EmptyString => (0%Z, 0%nat, s2)
    end in
  if (ni + nf =? 0)%nat then None
  else
    let '(e, s4) := readExponent s3 in
    let mantissa := inject_Z i + inject_Z f / inject_Z (10 ^ Z.of_nat nf) in
    Some ((if neg then - mantissa else mantissa) * 10 ^ e, s4).

Definition decimalPrefix (s : string) : option Js.number :=
  match readDecimal (Js.trimStart s) with
  | Some (v, _) => Some (Binary64.round v)
  | None => None
  end.

Definition decimalWhole (s : string) : option Js.number :=
  if Js.isEmpty (Js.trim s) then Some 0
  else
    match readDecimal (Js.trim s) with
    | Some (v, EmptyString) => Some (Binary64.round v)
    | _ => None
    end.

#[export] Instance dates : Js.JsDate := {| Js.getTime := isoDate |}.
#[export] Instance numbers : JsParse :=
  {| parseFloat := decimalPrefix; toNumber := decimalWhole |}.

End Runtime.

(** ** The contracts of the specification, in its own words

    [classify] with its tolerance of 0.01, and the net amount and the due sum
    of assignments taken on the stored snapshot [assigned_amount]. *)

Module Spec.
Import Db.

Definition epsilon : Q := 1 # 100.

Definition classify (basis totalPaid : Q) : Status :=
  if Qle_bool basis epsilon then
    (if Js.Qltb 0 totalPaid then Paid else No_fees_due)
  else if Qle_bool (basis - epsilon) totalPaid then Paid
  else if Js.Qltb epsilon totalPaid then Partially_paid
  else Unpaid.

(** Net amount of a stored assignment: [assigned_amount - discount]. *)
Definition netAmount (r : StudentFeeTypeRow) : Q :=
  default 0 (sft_assigned_amount r) - default 0 (sft_discount r).

Fixpoint sumQ (l : list Q) : Q :=
  match l with
  | [] => 0
  | x :: r => x + sumQ r
  end.
End Spec.

(** ** Notions used in the statements *)

(** The rules the ledger applies, as a relation between the basis, the
    amount paid and the status, for a tolerance [tol] on the basis only. *)
Inductive StatusRule (tol basis paid : Q) : Status -> Prop :=
| rule_nothing_due_paid : basis <= tol -> 0 < paid -> StatusRule tol basis paid Paid
| rule_nothing_due : basis <= tol -> paid <= 0 -> StatusRule tol basis paid No_fees_due
| rule_paid : tol < basis -> basis <= paid -> StatusRule tol basis paid Paid
| rule_partially_paid :
    tol < basis -> 0 < paid -> paid < basis -> StatusRule tol basis paid Partially_paid
| rule_unpaid : tol < basis -> paid <= 0 -> StatusRule tol basis paid Unpaid.

(** Ledger rows that carry a given basis and a given amount paid. *)
Definition sfms2Row (fees paid : Q) : Sfms2Ledger.StudentWithPayments :=
  {| Sfms2Ledger.id := "s"; Sfms2Ledger.name := "n"; Sfms2Ledger.roll_no := "1";
     Sfms2Ledger.class_name := "c"; Sfms2Ledger.class_id := "c";
     Sfms2Ledger.total_assigned_fees := fees; Sfms2Ledger.due_fees_total := fees;
     Sfms2Ledger.status_based_on_total := "unpaid"; Sfms2Ledger.academic_year := "2025";
     Sfms2Ledger.payments := []; Sfms2Ledger.totalPaid := Some paid;
     Sfms2Ledger.all_fee_details := [] |}.

Definition ledgerRow (fees paid : Q) : Ledger.StudentWithDetails :=
  {| Ledger.row :=
       {| Db.s_id := "s"; Db.s_school_id := Some "school"; Db.s_name := "n";
          Db.s_roll_no := "1"; Db.s_class_id := "c"; Db.s_academic_year := "2025";
          Db.s_total_fees := Some fees; Db.s_status := None |};
     Ledger.payments := []; Ledger.class_name := "c";
     Ledger.totalPaid := Some paid; Ledger.all_fee_details := [];
     Ledger.due_fees_total := Some fees |}.


(** The due sum of the specification: the stored net amounts
    [assigned_amount - discount] of the assignments that are due. *)
Definition spec_computeDue `{Js.JsDate} (today : Z) (sfts : list Db.SftJoined) : Q :=
  Spec.sumQ
    (List.map (fun sft => Spec.netAmount (Db.sft_row sft))
       (List.filter (isDue today) sfts)).

(** ** Data of the worked examples *)

(** Two payments on different days; the later one is the last payment. *)
Definition samplePayments : list Db.PaymentRow :=
  [ {| Db.p_student_id := "s1"; Db.p_school_id := None; Db.p_date := "2024-03-01";
       Db.p_amount_paid := 3000; Db.p_mode_of_payment := "cash";
       Db.p_receipt_number := "R-1"; Db.p_description := None |};
    {| Db.p_student_id := "s1"; Db.p_school_id := None; Db.p_date := "2024-05-01";
       Db.p_amount_paid := 2000; Db.p_mode_of_payment := "upi";
       Db.p_receipt_number := "R-2"; Db.p_description := None |} ].

(** A fee type of the catalog and an assignment of it to a student. *)
Definition catalogFee (id : string) (amount : Q) (scheduled : option string)
  : Db.FeeTypeRow :=
  {| Db.ft_id := id; Db.ft_school_id := Some "school-1"; Db.ft_name := id;
     Db.ft_description := None; Db.ft_default_amount := Some amount;
     Db.ft_scheduled_date := scheduled; Db.ft_applicable_from := None |}.

Definition assignment (student fee : string) (assigned : option Q) (disc : option Q)
  : Db.StudentFeeTypeRow :=
  {| Db.sft_student_id := student; Db.sft_fee_type_id := fee;
     Db.sft_school_id := Some "school-1"; Db.sft_assigned_amount := assigned;
     Db.sft_discount := disc; Db.sft_discount_description := None |}.

(** Midnight of 2023-01-01 and of 2025-01-01, in milliseconds (UTC). *)
Definition day_2023_01_01 : Z := 1672531200000.
Definition day_2025_01_01 : Z := 1735689600000.

(** A fee scheduled for 2025-01-01. *)
Definition feeOfTheDay : Db.SftJoined :=
  {| Db.sft_row := assignment "s1" "A" (Some 5000) None;
     Db.fee_type := Some (catalogFee "A" 5000 (Some "2025-01-01")) |}.

(** Fee A is scheduled for 2024-01-01 and fee B for 2099-01-01; A carries a
    discount of 500. *)
Definition feesAB : list Db.SftJoined :=
  [ {| Db.sft_row := assignment "s1" "A" (Some 5000) (Some 500);
       Db.fee_type := Some (catalogFee "A" 5000 (Some "2024-01-01")) |};
    {| Db.sft_row := assignment "s1" "B" (Some 2000) None;
       Db.fee_type := Some (catalogFee "B" 2000 (Some "2099-01-01")) |} ].

(** An assignment made at 5000 whose fee type now stands at 6000 in the
    catalog. *)
Definition raisedFee : Db.SftJoined :=
  {| Db.sft_row := assignment "s1" "A" (Some 5000) None;
     Db.fee_type := Some (catalogFee "A" 6000 (Some "2024-01-01")) |}.

(** An assignment made at 5000 with a discount of 4000, whose fee type now
    stands at 3000 in the catalog. *)
Definition loweredFee : Db.SftJoined :=
  {| Db.sft_row := assignment "s1" "A" (Some 5000) (Some 4000);
     Db.fee_type := Some (catalogFee "A" 3000 (Some "2024-01-01")) |}.

(** The registration of the specification's scenario: fee types A (5000) and
    B (2000) are linked to the class, both are selected, A with a discount of
    500. *)
Definition classAB : list Db.FeeTypeRow :=
  [catalogFee "A" 5000 (Some "2024-01-01"); catalogFee "B" 2000 (Some "2099-01-01")].

Definition discount500 : gmap string FeeAdjustment :=
  {[ "A" := {| discount := 500; description := "sibling" |} ]}.

Definition regState : Registration.State :=
  {| Registration.name := "Asha"; Registration.rollNo := "12";
     Registration.selectedClassId := "class-1";
     Registration.filteredFeeTypesForClass := classAB;
     Registration.selectedFeeTypeIds := ["A"; "B"];
     Registration.feeAdjustments := discount500;
     Registration.academicYear := "2025";
     Registration.editStudentId := None |}.

Definition emptyDb : Db.Store :=
  {| Db.classes := []; Db.fee_types := []; Db.fee_type_classes := [];
     Db.students := []; Db.student_fee_types := []; Db.payments := [] |}.

(** A class with the single fee type A (5000). *)
Definition classA : list Db.FeeTypeRow := [catalogFee "A" 5000 (Some "2024-01-01")].

(** A store with one class, the fee type A (5000) linked to it, and the
    student s1. *)
Definition student (id school : string) : Db.StudentRow :=
  {| Db.s_id := id; Db.s_school_id := Some school; Db.s_name := id;
     Db.s_roll_no := "1"; Db.s_class_id := "class-1"; Db.s_academic_year := "2025";
     Db.s_total_fees := Some 0; Db.s_status := None |}.

Definition schoolDb : Db.Store :=
  {| Db.classes :=
       [{| Db.c_id := "class-1"; Db.c_school_id := Some "school-1"; Db.c_name := "One" |}];
     Db.fee_types := classA;
     Db.fee_type_classes :=
       [{| Db.ftc_fee_type_id := "A"; Db.ftc_class_id := "class-1";
           Db.ftc_school_id := Some "school-1" |}];
     Db.students := [student "s1" "school-1"];
     Db.student_fee_types := [];
     Db.payments := [] |}.

(** The edit form of the student page with A selected and no discount. *)
Definition editA : StudentPage.State :=
  {| StudentPage.editForm :=
       {| StudentPage.name := Some "Asha"; StudentPage.roll_no := Some "12";
          StudentPage.class_id := Some "class-1";
          StudentPage.academic_year := Some "2025" |};
     StudentPage.filteredFeeTypesForEdit := classA;
     StudentPage.editSelectedFeeTypeIds := ["A"];
     StudentPage.editFeeAdjustments := ∅ |}.

(** The fee type form that raises A to 6000. *)
Definition raiseA : FeeTypes.Form :=
  {| FeeTypes.name := "A"; FeeTypes.description := EmptyString;
     FeeTypes.default_amount := "6000"; FeeTypes.applicable_from := EmptyString |}.


(** A store shared by two schools, each with one student. *)
Definition twoSchools : Db.Store :=
  {| Db.classes :=
       [{| Db.c_id := "class-1"; Db.c_school_id := Some "school-1"; Db.c_name := "One" |}];
     Db.fee_types := classA;
     Db.fee_type_classes := [];
     Db.students := [student "s1" "school-1"; student "s2" "school-2"];
     Db.student_fee_types :=
       [assignment "s1" "A" (Some 5000) None;
        {| Db.sft_student_id := "s2"; Db.sft_fee_type_id := "A";
           Db.sft_school_id := Some "school-2"; Db.sft_assigned_amount := Some 5000;
           Db.sft_discount := None; Db.sft_discount_description := None |}];
     Db.payments := [] |}.

(** The payment form filled in for the student of the other school. *)
Definition payS2 : RecordPayment.State :=
  {| RecordPayment.selectedStudentId := Some "s2";
     RecordPayment.amountPaid := "100";
     RecordPayment.modeOfPayment := "cash";
     RecordPayment.description := EmptyString;
     RecordPayment.manualReceiptNumber := EmptyString |}.

(** ** Further JavaScript helpers *)

Module JsStr.

(** [String.prototype.toLowerCase] on the ASCII letters; the bytes of the
    other characters are left as they are. *)
Definition lowerChar (c : ascii) : ascii :=
  let n := nat_of_ascii c in
  if ((65 <=? n) && (n <=? 90))%nat then ascii_of_nat (n + 32) else c.

Fixpoint toLowerCase (s : string) : string :=
  match s with
  | EmptyString => EmptyString
  | String c r => String (lowerChar c) (toLowerCase r)
  end.

(** [s.startsWith(p)] and [s.includes(sub)]. *)
Fixpoint startsWith (p s : string) : bool :=
  match p, s with
  | EmptyString, _ => true
  | String a p', String b s' => Ascii.eqb a b && startsWith p' s'
  | String _ _, EmptyString => false
  end.

Fixpoint includes (sub s : string) : bool :=
  startsWith sub s
  || match s with
     | EmptyString => false
     | String _ r => includes sub r
     end.

(** [Array.from(new Set(l))]: the distinct elements, in the order of their
    first occurrence. *)
Fixpoint distinctFrom (seen l : list string) : list string :=
  match l with
  | [] => []
  | x :: r =>
      if Js.includes seen x then distinctFrom seen r
      else x :: distinctFrom (x :: seen) r
  end.

Definition distinct (l : list string) : list string := distinctFrom [] l.

End JsStr.

#[global] Instance Status_eq_dec : EqDecision Status.
Proof. solve_decision. Defined.

(** ** The table of the master ledger

    The search filter and the overview by class, whose bodies the two copies
    of the ledger page share up to the names of the fields and to the
    order of the class names: the default order of [.sort()] in one copy,
    taken as the byte order of strings, and that of [localeCompare] in the
    other. *)

Section LedgerTable.
Context {S : Type}.
Variable name roll_no class_name : S -> string.
Variable basis paid : S -> Js.number.
Variable status : S -> Status.
Variable order : string -> string -> Z.

(** The rows that match the search term, case folded. *)
Definition matchesTerm (searchTerm : string) (stu : S) : bool :=
  let term := JsStr.toLowerCase searchTerm in
  JsStr.includes term (JsStr.toLowerCase (name stu))
  || JsStr.includes term (JsStr.toLowerCase (roll_no stu))
  || (negb (Js.isEmpty (class_name stu))
      && JsStr.includes term (JsStr.toLowerCase (class_name stu)))
  || Js.isEmpty term.

Definition filteredStudents (students : list S) (searchTerm : string) : list S :=
  List.filter (matchesTerm searchTerm) students.

(** One line of the school overview. *)
Record ClassSummary := {
  className : string;
  groupSize : nat;
  totalFeesForClass : Js.number;
  totalPaidForClass : Js.number;
  studentsUnpaid : nat;
  studentsPartial : nat;
  studentsPaid : nat;
  studentsNoFeesDue : nat
}.

Definition groupOf (students : list S) (c : string) : list S :=
  List.filter (fun s => Db.eqStr (class_name s) c) students.

Definition countStatus (group : list S) (st : Status) : nat :=
  length (List.filter (fun s => bool_decide (status s = st)) group).

Definition classSummary (students : list S) (c : string) : ClassSummary :=
  let group := groupOf students c in
  {| className := c;
     groupSize := length group;
     totalFeesForClass := Js.reduceSum basis group;
     totalPaidForClass := Js.reduceSum paid group;
     studentsUnpaid := countStatus group Unpaid;
     studentsPartial := countStatus group Partially_paid;
     studentsPaid := countStatus group Paid;
     studentsNoFeesDue := countStatus group No_fees_due |}.

Definition classNames (students : list S) : list string :=
  Js.sort order (JsStr.distinct (List.map class_name students)).

Definition schoolOverview (students : list S) : list ClassSummary :=
  List.map (classSummary students) (classNames students).
End LedgerTable.

(** The table of the copy without tenant context. *)
Definition sfms2Filtered (students : list Sfms2Ledger.StudentWithPayments)
    (searchTerm : string) : list Sfms2Ledger.StudentWithPayments :=
  filteredStudents Sfms2Ledger.name Sfms2Ledger.roll_no Sfms2Ledger.class_name
    students searchTerm.

Definition sfms2Overview (feeViewType : FeeView)
    (students : list Sfms2Ledger.StudentWithPayments) : list ClassSummary :=
  schoolOverview Sfms2Ledger.class_name (Sfms2Ledger.feesForCalc feeViewType)
    (fun s => Js.jsOr (Sfms2Ledger.totalPaid s) 0)
    (Sfms2Ledger.getDynamicStatus feeViewType) Db.cmpStr students.

(** The table of the copy with tenant context: [roll_no] is tested for
    truthiness too, and an empty term matches before any field is read. *)
Definition ledgerMatches (searchTerm : string) (stu : Ledger.StudentWithDetails) : bool :=
  let term := JsStr.toLowerCase searchTerm in
  if Js.isEmpty term then true
  else
    JsStr.includes term (JsStr.toLowerCase (Db.s_name (Ledger.row stu)))
    || (negb (Js.isEmpty (Db.s_roll_no (Ledger.row stu)))
        && JsStr.includes term (JsStr.toLowerCase (Db.s_roll_no (Ledger.row stu))))
    || (negb (Js.isEmpty (Ledger.class_name stu))
        && JsStr.includes term (JsStr.toLowerCase (Ledger.class_name stu))).

Definition filteredStudentsForDisplay (students : list Ledger.StudentWithDetails)
    (searchTerm : string) : list Ledger.StudentWithDetails :=
  List.filter (ledgerMatches searchTerm) students.

Definition ledgerOverview `{Js.JsLocale} (feeViewType : FeeView)
    (students : list Ledger.StudentWithDetails) : list ClassSummary :=
  schoolOverview Ledger.class_name (Ledger.feesForCalc feeViewType)
    (fun s => Js.jsOr (Ledger.totalPaid s) 0)
    (Ledger.getDynamicStatus feeViewType)
    (fun a b => Js.localeCompare a b) students.

(** ** Student page: status, summary and the edit modal *)

Module StudentView.
Import Db.

(** [getPaymentStatus] *)
Definition getPaymentStatus (totalAssignedFees totalActuallyPaid : Js.number) : string :=
  if Qle_bool totalAssignedFees 0 && Qle_bool totalActuallyPaid 0
  then "No Fees Assigned"
  else if Qle_bool totalAssignedFees totalActuallyPaid then "Fees Paid"
  else if Js.Qltb 0 totalActuallyPaid && Js.Qltb totalActuallyPaid totalAssignedFees
  then "Fees Partially Paid"
  else if Qle_bool totalActuallyPaid 0 && Js.Qltb 0 totalAssignedFees
  then "Fees Unpaid"
  else "Status Unknown".

(** The figures [fetchStudentData] derives from the fetched student. *)
Definition calculatedTotalPaid (s : StudentJoined) : Js.number :=
  fold_left (fun sum p => Js.add sum (Js.jsOr (Some (p_amount_paid p)) 0))
    (j_payments s) 0.

Definition totalAssignedFees (s : StudentJoined) : Js.number :=
  Js.jsOr (s_total_fees (s_row s)) 0.

Definition calculatedBalance (s : StudentJoined) : Js.number :=
  Js.sub (totalAssignedFees s) (calculatedTotalPaid s).

Definition displayStatus (s : StudentJoined) : string :=
  getPaymentStatus (totalAssignedFees s) (calculatedTotalPaid s).

(** The links the page receives: the select joins the fee type with
    [!inner], which leaves out a link whose fee type is gone. *)
Definition listedLinks (s : StudentJoined) : list SftJoined :=
  List.filter (fun j => match fee_type j with Some _ => true | None => false end)
    (j_student_fee_types s).

(** The adjustments [handleOpenEditModal] collects with [forEach]: a later
    link of the same fee type overwrites an earlier one. *)
Definition adjustmentsOf (links : list SftJoined) : gmap string FeeAdjustment :=
  fold_left
    (fun adjustments sft =>
       <[sft_fee_type_id (sft_row sft) :=
           {| discount := Js.jsOr (sft_discount (sft_row sft)) 0;
              description :=
                Js.strOr (sft_discount_description (sft_row sft)) EmptyString |}]>
         adjustments)
    links ∅.

(** [handleOpenEditModal]; the list of fee types of the class is loaded by
    an effect of its own and is left as it is. *)
Definition handleOpenEditModal (student : StudentJoined) (st : StudentPage.State)
  : StudentPage.State :=
  {| StudentPage.editForm :=
       {| StudentPage.name := Some (s_name (s_row student));
          StudentPage.roll_no := Some (s_roll_no (s_row student));
          StudentPage.class_id := Some (s_class_id (s_row student));
          StudentPage.academic_year := Some (s_academic_year (s_row student)) |};
     StudentPage.filteredFeeTypesForEdit := StudentPage.filteredFeeTypesForEdit st;
     StudentPage.editSelectedFeeTypeIds :=
       List.map (fun sft => sft_fee_type_id (sft_row sft)) (listedLinks student);
     StudentPage.editFeeAdjustments := adjustmentsOf (listedLinks student) |}.

(** [handleEditFormChange] on the class field: the selection and the
    adjustments are dropped. *)
Definition changeClass (value : string) (st : StudentPage.State) : StudentPage.State :=
  {| StudentPage.editForm :=
       {| StudentPage.name := StudentPage.name (StudentPage.editForm st);
          StudentPage.roll_no := StudentPage.roll_no (StudentPage.editForm st);
          StudentPage.class_id := Some value;
          StudentPage.academic_year :=
            StudentPage.academic_year (StudentPage.editForm st) |};
     StudentPage.filteredFeeTypesForEdit := StudentPage.filteredFeeTypesForEdit st;
     StudentPage.editSelectedFeeTypeIds := [];
     StudentPage.editFeeAdjustments := ∅ |}.

(** [fetchFilteredFeeTypesForEditModal]: the fee types linked to the class,
    whatever the school. *)
Definition fetchFilteredFeeTypesForEdit (db : Store) (class_id : string)
  : list FeeTypeRow :=
  omap (fun item =>
          List.find (fun f => eqStr (ft_id f) (ftc_fee_type_id item)) (fee_types db))
    (List.filter (fun l => eqStr (ftc_class_id l) class_id) (fee_type_classes db)).

(** The effect around it, what it hands to [setFilteredFeeTypesForEdit]:
    nothing without a class on the form, without classes or without fee
    types loaded for the page. *)
Definition filteredFeeTypesForEditEffect (db : Store) (class_id : option string)
  : list FeeTypeRow :=
  if negb (Js.truthyStr class_id)
     || (length (classes db) =? 0)%nat
     || (length (fee_types db) =? 0)%nat
  then []
  else fetchFilteredFeeTypesForEdit db (Js.strOr class_id EmptyString).

(** The edit form once the modal is opened on the fetched student and the
    effect has loaded the fee types of the student's class. *)
Definition openedForm (db : Store) (student : StudentJoined) : StudentPage.State :=
  handleOpenEditModal student
    {| StudentPage.editForm :=
         {| StudentPage.name := None; StudentPage.roll_no := None;
            StudentPage.class_id := None; StudentPage.academic_year := None |};
       StudentPage.filteredFeeTypesForEdit :=
         filteredFeeTypesForEditEffect db (Some (s_class_id (s_row student)));
       StudentPage.editSelectedFeeTypeIds := [];
       StudentPage.editFeeAdjustments := ∅ |}.

(** [toggleEditFeeTypeSelection] and [handleEditDiscountChange] on the state
    of the page; their bodies are those of the registration page. *)
Definition setFees (st : StudentPage.State) (sel : list string)
    (adj : gmap string FeeAdjustment) : StudentPage.State :=
  {| StudentPage.editForm := StudentPage.editForm st;
     StudentPage.filteredFeeTypesForEdit := StudentPage.filteredFeeTypesForEdit st;
     StudentPage.editSelectedFeeTypeIds := sel;
     StudentPage.editFeeAdjustments := adj |}.

Definition tick (id : string) (st : StudentPage.State) : StudentPage.State :=
  setFees st (toggleFeeTypeSelection id (StudentPage.editSelectedFeeTypeIds st))
    (StudentPage.editFeeAdjustments st).

Definition typeDiscount `{JsParse} (id val : string) (st : StudentPage.State)
  : StudentPage.State :=
  setFees st (StudentPage.editSelectedFeeTypeIds st)
    (handleDiscountChange id val (StudentPage.editFeeAdjustments st)).

(** What the browser checks before it calls [handleUpdateStudent]: the two
    text inputs and the two selects are [required], the class select offers
    the classes of the store and the year select three fixed years.  Once a
    class is chosen the fee types of the list are rendered, each with
    [ft.default_amount.toFixed(2)] in its label, which throws for a fee type
    without amount; the discount input of a listed and ticked fee type is
    [type="number" min="0" max={ft.default_amount}]. *)
Definition yearOptions : list string := ["2023-2024"; "2024-2025"; "2025-2026"].

Definition formValid (allClasses : list ClassRow) (st : StudentPage.State) : bool :=
  Js.truthyStr (StudentPage.name (StudentPage.editForm st))
  && Js.truthyStr (StudentPage.roll_no (StudentPage.editForm st))
  && Js.selectValid (List.map c_id allClasses)
       (Js.strOr (StudentPage.class_id (StudentPage.editForm st)) EmptyString)
  && Js.selectValid yearOptions
       (Js.strOr (StudentPage.academic_year (StudentPage.editForm st)) EmptyString)
  && (negb (Js.truthyStr (StudentPage.class_id (StudentPage.editForm st)))
      || forallb
           (fun ft =>
              match ft_default_amount ft with Some _ => true | None => false end
              && (negb (Js.includes (StudentPage.editSelectedFeeTypeIds st) (ft_id ft))
                  || Registration.discountInputValid
                       (StudentPage.editFeeAdjustments st) ft))
           (StudentPage.filteredFeeTypesForEdit st)).

Definition submit (studentID : string) (st : StudentPage.State) (db : Store)
  : option (Outcome * Store) :=
  if formValid (classes db) st
  then Some (StudentPage.handleUpdateStudent studentID st db) else None.

End StudentView.

(** ** Registration page: the list of students and its actions
    (unnamed/part_000) *)

Module RegistrationList.
Import Db.

(** An entry of [assigned_fee_details]: the joined fee type, spread, with
    the discount of the link.  Without a fee type the entry has no [id]. *)
Record FeeDetail := {
  fd_id : option string;
  fd_name : option string;
  fd_default_amount : option Js.number;
  fd_discount : option Js.number;
  fd_description : option string
}.

(** A student as the list holds it.  The select names the columns it reads,
    and [school_id] is not among them: the field is [undefined]. *)
Record StudentType := {
  id : string;
  name : string;
  roll_no : string;
  class_id : string;
  total_fees : option Js.number;
  academic_year : string;
  status : option string;
  school_id : option string;
  class_name : string;
  assigned_fee_details : list FeeDetail
}.

Definition feeDetailOf (sft : SftJoined) : FeeDetail :=
  {| fd_id := ft_id <$> fee_type sft;
     fd_name := ft_name <$> fee_type sft;
     fd_default_amount := fee_type sft ≫= ft_default_amount;
     fd_discount := sft_discount (sft_row sft);
     fd_description := sft_discount_description (sft_row sft) |}.

Definition listed (student : StudentJoined) : StudentType :=
  {| id := s_id (s_row student);
     name := s_name (s_row student);
     roll_no := s_roll_no (s_row student);
     class_id := s_class_id (s_row student);
     total_fees := s_total_fees (s_row student);
     academic_year := s_academic_year (s_row student);
     status := s_status (s_row student);
     school_id := None;
     class_name := Js.strOr (c_name <$> j_classes student) "N/A";
     assigned_fee_details := List.map feeDetailOf (j_student_fee_types student) |}.

(** [studentsData], the value [fetchStudentsForSchool] hands to [setStudents]. *)
Definition studentsData (db : Store) (schoolId : option string) : list StudentType :=
  List.map listed (Registration.fetchStudentsForSchool db schoolId).

(** [a !== b] between a possibly [undefined] field and the possibly [null]
    tenant: [undefined] differs from every tenant value. *)
Definition differs (field : option string) (schoolId : option string) : bool :=
  match field, schoolId with
  | Some a, Some b => negb (eqStr a b)
  | _, _ => true
  end.

(** What [startEditStudent] passes to the setters of the form. *)
Record EditSeed := {
  seedStudentId : string;
  seedName : string;
  seedRollNo : string;
  seedClassId : string;
  seedAcademicYear : string;
  seedFeeIds : list (option string);
  seedAdjustments : gmap string FeeAdjustment
}.

(** The key a possibly [undefined] id makes in an object. *)
Definition keyOf (id : option string) : string := default "undefined" id.

Definition startEditStudent (schoolId : option string) (student : StudentType)
  : Outcome * option EditSeed :=
  if differs (school_id student) schoolId
  then (Rejected "You can only edit students from your own school.", None)
  else
    (Succeeded,
     Some {| seedStudentId := id student;
             seedName := name student;
             seedRollNo := roll_no student;
             seedClassId := class_id student;
             seedAcademicYear := academic_year student;
             seedFeeIds := List.map fd_id (assigned_fee_details student);
             seedAdjustments :=
               fold_left
                 (fun adjustments ft =>
                    <[keyOf (fd_id ft) :=
                        {| discount := Js.jsOr (fd_discount ft) 0;
                           description := Js.strOr (fd_description ft) EmptyString |}]>
                      adjustments)
                 (assigned_fee_details student) ∅ |}).

(** [openDeleteModal]: the student put up for deletion, if any. *)
Definition openDeleteModal (schoolId : option string) (student : StudentType)
  : Outcome * option StudentType :=
  if differs (school_id student) schoolId
  then (Rejected "You can only delete students from your own school.", None)
  else (Succeeded, Some student).

End RegistrationList.

(** ** Fee type management: creating and deleting (unnamed/part_001) *)

Module FeeTypeAdmin.
Import Db.

Section Admin.
Context `{JsParse}.

(** [submitFeeType]; [new_id] is the identifier the store gives to the
    inserted fee type. *)
Definition submitFeeType (new_id : string) (form : FeeTypes.Form)
    (selectedClassIds : list string) (db : Store) : Outcome * Store :=
  match FeeTypes.validateForm form with
  | Some msg => (Rejected msg, db)
  | None =>
      (Succeeded,
       {| classes := classes db;
          fee_types :=
            fee_types db ++
            [{| ft_id := new_id;
                ft_school_id := None;
                ft_name := Js.trim (FeeTypes.name form);
                ft_description := FeeTypes.orNull (FeeTypes.description form);
                ft_default_amount :=
                  if Js.isEmpty (FeeTypes.default_amount form) then None
                  else parseFloat (FeeTypes.default_amount form);
                ft_scheduled_date := None;
                ft_applicable_from := FeeTypes.orNull (FeeTypes.applicable_from form) |}];
          fee_type_classes :=
            fee_type_classes db ++
            List.map
              (fun class_id =>
                 {| ftc_fee_type_id := new_id; ftc_class_id := class_id;
                    ftc_school_id := None |})
              selectedClassIds;
          students := students db;
          student_fee_types := student_fee_types db;
          payments := payments db |})
  end.
End Admin.

(** [deleteFeeType]; [confirmation] is what the prompt returns, [None] when
    it is dismissed.  The class links of the fee type are deleted first,
    then the fee type. *)
Definition deleteFeeType (confirmation : option string) (feeType : FeeTypeRow)
    (db : Store) : Outcome * Store :=
  match confirmation with
  | Some typed =>
      if eqStr typed (ft_name feeType) then
        (Succeeded,
         {| classes := classes db;
            fee_types :=
              List.filter (fun f => negb (eqStr (ft_id f) (ft_id feeType))) (fee_types db);
            fee_type_classes :=
              List.filter (fun l => negb (eqStr (ftc_fee_type_id l) (ft_id feeType)))
                (fee_type_classes db);
            students := students db;
            student_fee_types := student_fee_types db;
            payments := payments db |})
      else (Rejected "Name did not match. Deletion aborted.", db)
  | None => (Rejected EmptyString, db)
  end.

End FeeTypeAdmin.

(** ** The tenant of the session (sfms 2/components/AuthContext.tsx)

    [useAuth] spreads the context and adds [schoolId: null]. *)
Module AuthContext.
Definition schoolId : option string := None.
End AuthContext.

(** Three payments, the last two of the same day. *)
Definition paymentOn (day receipt : string) (amount : Q) : Db.PaymentRow :=
  {| Db.p_student_id := "s1"; Db.p_school_id := None; Db.p_date := day;
     Db.p_amount_paid := amount; Db.p_mode_of_payment := "cash";
     Db.p_receipt_number := receipt; Db.p_description := None |}.

Definition paymentsWithTie : list Db.PaymentRow :=
  [paymentOn "2024-03-01" "R-1" 3000; paymentOn "2024-05-01" "R-2" 2000;
   paymentOn "2024-05-01" "R-3" 500].

(** The student s1 of the shared store, as the pages fetch it. *)
Definition fetchedS1 : Db.StudentJoined :=
  Db.joinStudent twoSchools (student "s1" "school-1").

(** The label the student page gives to a status of the ledger. *)
Definition statusLabel (st : Status) : string :=
  match st with
  | Paid => "Fees Paid"
  | Partially_paid => "Fees Partially Paid"
  | Unpaid => "Fees Unpaid"
  | No_fees_due => "No Fees Assigned"
  end.

(** What a link becomes when the edit modal is opened and saved as it is:
    an absent discount is written as 0, an empty note as none. *)
Definition resaved (sft : Db.SftJoined) : string * option Q * option string :=
  (Db.sft_fee_type_id (Db.sft_row sft),
   Some (Js.jsOr (Db.sft_discount (Db.sft_row sft)) 0),
   match Db.sft_discount_description (Db.sft_row sft) with
   | Some EmptyString => None
   | d => d
   end).

(** One step of the [forEach] that collects the adjustments of the links. *)
Definition putAdjustment (adjustments : gmap string FeeAdjustment) (sft : Db.SftJoined)
  : gmap string FeeAdjustment :=
  <[Db.sft_fee_type_id (Db.sft_row sft) :=
      {| discount := Js.jsOr (Db.sft_discount (Db.sft_row sft)) 0;
         description :=
           Js.strOr (Db.sft_discount_description (Db.sft_row sft)) EmptyString |}]>
    adjustments.

(** Rows that do not belong to a given school. *)
Definition foreignStudent (school : string) (s : Db.StudentRow) : bool :=
  negb (Db.eqOpt (Db.s_school_id s) school).

Definition foreignLink (school : string) (r : Db.StudentFeeTypeRow) : bool :=
  negb (Db.eqOpt (Db.sft_school_id r) school).

(** The links of a class within a school, and the links of a fee type. *)
Definition classLinks (db : Db.Store) (school classId : string)
  : list Db.FeeTypeClassRow :=
  List.filter
    (fun l => Db.eqStr (Db.ftc_class_id l) classId
              && Db.eqOpt (Db.ftc_school_id l) school)
    (Db.fee_type_classes db).

Definition linksOfFeeType (db : Db.Store) (feeTypeId : string)
  : list Db.FeeTypeClassRow :=
  List.filter (fun l => Db.eqStr (Db.ftc_fee_type_id l) feeTypeId)
    (Db.fee_type_classes db).

Definition otherLinks (db : Db.Store) (feeTypeId : string)
  : list Db.FeeTypeClassRow :=
  List.filter (fun l => negb (Db.eqStr (Db.ftc_fee_type_id l) feeTypeId))
    (Db.fee_type_classes db).

(** The students a tenant-aware ledger query selects. *)
Definition selectedBy (school : string) (view : LedgerView) (selectedClassId : string)
    (s : Db.StudentRow) : bool :=
  Db.eqOpt (Db.s_school_id s) school
  && match view with
     | ViewClass => Js.isEmpty selectedClassId || Db.eqStr (Db.s_class_id s) selectedClassId
     | ViewSchool => true
     end.

(** ** The export of the ledger: serialisation ([handleExport])

    The cells of the header and of the rows are strings.  A cell that holds
    a comma is put between double quotes, the cells of a line are joined by
    commas and the lines by line feeds. *)

Module CsvExport.

Definition comma : ascii := ascii_of_nat 44.
Definition dquote : ascii := ascii_of_nat 34.
Definition lineFeed : ascii := ascii_of_nat 10.

Definition csvCell (c : string) : string :=
  if JsStr.includes (String comma EmptyString) c
  then String dquote (String.append c (String dquote EmptyString))
  else c.

Definition csvLine (r : list string) : string :=
  String.concat (String comma EmptyString) (List.map csvCell r).

Definition csv (header : list string) (rows : list (list string)) : string :=
  String.concat (String lineFeed EmptyString) (List.map csvLine (header :: rows)).

(** A reader of one line: a double quote opens or closes a quoted stretch
    and is not part of the cell, a comma outside quotes ends the cell. *)
Fixpoint readFrom (s : string) (inQuote : bool) (cur : string) : list string :=
  match s with
  | EmptyString => [Js.revStr EmptyString cur]
  | String c r =>
      if Ascii.eqb c dquote then readFrom r (negb inQuote) cur
      else if negb inQuote && Ascii.eqb c comma
      then Js.revStr EmptyString cur :: readFrom r false EmptyString
      else readFrom r inQuote (String c cur)
  end.

Definition readLine (s : string) : list string := readFrom s false EmptyString.

End CsvExport.

(** A cell free of double quotes. *)
Fixpoint plain (s : string) : bool :=
  match s with
  | EmptyString => true
  | String c r => negb (Ascii.eqb c CsvExport.dquote) && plain r
  end.

(** ** Notions on rounding *)

(** A number that rounding leaves as it is: a binary64 number. *)
Definition unrounded (x : Q) : Prop := Binary64.round x == x.

(** No step of [reduce((sum, x) => sum + x, acc)] rounds: every partial sum
    is a binary64 number. *)
Fixpoint sumsExact (acc : Q) (l : list Q) : Prop :=
  match l with
  | [] => True
  | x :: r => unrounded (acc + x) /\ sumsExact (acc + x) r
  end.

(** Whole numbers, and the sum of the absolute values of a list. *)
Definition whole (x : Q) : Prop := exists z : Z, x == inject_Z z.

Definition magnitude (l : list Q) : Q := fold_right (fun x t => Qabs x + t) 0 l.







(** The length of a day in milliseconds.  A date-only string is read as
    midnight UTC of its day; today at midnight on a clock [offset]
    milliseconds ahead of UTC is that much before midnight UTC. *)
Definition msPerDay : Z := 86400000.

Definition localMidnight (day offset : Z) : Z := (day * msPerDay - offset)%Z.

(** ** Stores and forms of the worked examples *)

Definition classOne : Db.ClassRow :=
  {| Db.c_id := "class-1"; Db.c_school_id := Some "school-1"; Db.c_name := "One" |}.

Definition linkTo (fee : string) : Db.FeeTypeClassRow :=
  {| Db.ftc_fee_type_id := fee; Db.ftc_class_id := "class-1";
     Db.ftc_school_id := Some "school-1" |}.

Definition pupil : Db.StudentRow :=
  {| Db.s_id := "s1"; Db.s_school_id := Some "school-1"; Db.s_name := "Asha";
     Db.s_roll_no := "12"; Db.s_class_id := "class-1";
     Db.s_academic_year := "2024-2025"; Db.s_total_fees := Some 0;
     Db.s_status := None |}.

Definition storeOf (types : list Db.FeeTypeRow) : Db.Store :=
  {| Db.classes := [classOne]; Db.fee_types := types;
     Db.fee_type_classes := List.map (fun f => linkTo (Db.ft_id f)) types;
     Db.students := [pupil]; Db.student_fee_types := []; Db.payments := [] |}.

(** The class of s1 with the fee types A (5000) and B (2000); with fee
    types of 1000.1, 2000.2 and 500.3; with the fee type N, which has no
    default amount. *)
Definition abDb : Db.Store := storeOf classAB.


Definition noAmountDb : Db.Store :=
  storeOf [{| Db.ft_id := "N"; Db.ft_school_id := Some "school-1"; Db.ft_name := "N";
              Db.ft_description := None; Db.ft_default_amount := None;
              Db.ft_scheduled_date := None; Db.ft_applicable_from := None |}].

(** The registration form filled in for a new student, once class-1 is
    chosen. *)
Definition newForm (db : Db.Store) : Registration.State :=
  Registration.classChosen db (Some "school-1") "class-1"
    (Registration.typeText "Asha" "12" "2024-2025" (Registration.blankForm "2025")).

(** A and B ticked, 500 typed as the discount of A. *)
Definition regAB : Registration.State :=
  @Registration.typeDiscount Runtime.numbers "A" "500"
    (Registration.tick "B" (Registration.tick "A" (newForm abDb))).


(** N ticked, 100 typed as its discount. *)
Definition regNoAmount : Registration.State :=
  @Registration.typeDiscount Runtime.numbers "N" "100"
    (Registration.tick "N" (newForm noAmountDb)).

(** The edit form of the student page opened on a student of the store. *)
Definition openOn (db : Db.Store) (studentID : string) : option StudentPage.State :=
  StudentView.openedForm db <$> StudentPage.fetchStudentData db studentID.

(** On the student page: A and B ticked for s1, 500 typed as the discount of
    A. *)
Definition editAB : option StudentPage.State :=
  (fun st => @StudentView.typeDiscount Runtime.numbers "A" "500"
               (StudentView.tick "B" (StudentView.tick "A" st)))
  <$> openOn abDb "s1".

(** The fee type form that keeps B at 2000, and the edit form of s1 after
    these steps: A and B are assigned to s1 on the student page, B is taken
    off every class on the fee type page, and the edit form is opened on s1
    again. *)
Definition formB : FeeTypes.Form :=
  {| FeeTypes.name := "B"; FeeTypes.description := EmptyString;
     FeeTypes.default_amount := "2000"; FeeTypes.applicable_from := EmptyString |}.

Definition unlinkedB : option (StudentPage.State * Db.Store) :=
  st1 ← openOn abDb "s1";
  r1 ← StudentView.submit "s1" (StudentView.tick "B" (StudentView.tick "A" st1)) abDb;
  let db2 :=
    snd (@FeeTypes.updateFeeType Runtime.numbers
           (Some (catalogFee "B" 2000 (Some "2099-01-01"))) formB [] (snd r1)) in
  st2 ← openOn db2 "s1";
  Some (st2, db2).

(** The store once s2 is registered in class-1 with the fee type A alone. *)
Definition onlyA : Db.Store :=
  snd (Registration.handleSubmit "s2" (Some "school-1")
         (Registration.tick "A" (newForm abDb)) abDb).

(** The store once A, with a discount of 500, and B are assigned to s1 on
    the student page. *)
Definition assignedAB : Db.Store :=
  match editAB ≫= fun st => StudentView.submit "s1" st abDb with
  | Some (_, db) => db
  | None => abDb
  end.

(** * Properties *)

(** ** Binary64 rounding *)

Section Rounding.
Import Binary64.

Lemma pow2_pos (e : Z) : 0 < pow2 e.
Proof. apply Qpower_0_lt. reflexivity. Qed.

Lemma pow2_plus (a b : Z) : pow2 (a + b) == pow2 a * pow2 b.
Proof. apply Qpower_plus. discriminate. Qed.

Lemma pow2_le (a b : Z) : (a <= b)%Z -> pow2 a <= pow2 b.
Proof. intros Hab. apply Qpower_le_compat_l; [exact Hab|discriminate]. Qed.

Lemma pow2_lt (a b : Z) : (a < b)%Z -> pow2 a < pow2 b.
Proof. intros Hab. apply Qpower_lt_compat_l; [exact Hab|reflexivity]. Qed.

Lemma pow2_lt_inv (a b : Z) : pow2 a < pow2 b -> (a < b)%Z.
Proof. intros Hab. apply (Qpower_lt_compat_l_inv 2); [exact Hab|reflexivity]. Qed.

Lemma pow2_Z (n : Z) : (0 <= n)%Z -> pow2 n == inject_Z (2 ^ n).
Proof. intros Hn. unfold pow2. rewrite (Zpower_Qpower 2 n Hn). reflexivity. Qed.

Lemma pow2_succ (a : Z) : pow2 (a + 1) == 2 * pow2 a.
Proof. rewrite pow2_plus. unfold pow2 at 2. rewrite Qpower_1_r. ring. Qed.

(** [ilog2 x] is the integer part of the binary logarithm of [x]. *)
Lemma ilog2_spec (x : Q) : 0 < x -> pow2 (ilog2 x) <= x /\ x < pow2 (ilog2 x + 1).
Proof.
  intros Hx. destruct x as [n d]. unfold ilog2. cbn [Qnum Qden].
  assert (Hn : (0 < n)%Z).
  { unfold Qlt in Hx. cbn in Hx. lia. }
  set (a := Z.log2 n). set (b := Z.log2 (Z.pos d)).
  assert (Ha : (0 <= a)%Z) by apply Z.log2_nonneg.
  assert (Hb : (0 <= b)%Z) by apply Z.log2_nonneg.
  destruct (Z.log2_spec n Hn) as [Ha1 Ha2]. fold a in Ha1, Ha2.
  destruct (Z.log2_spec (Z.pos d) eq_refl) as [Hb1 Hb2]. fold b in Hb1, Hb2.
  assert (HA : pow2 a == inject_Z (2 ^ a)) by (apply pow2_Z; exact Ha).
  assert (HB : pow2 b == inject_Z (2 ^ b)) by (apply pow2_Z; exact Hb).
  assert (Hk : pow2 (a - b) * pow2 b == pow2 a).
  { rewrite <- pow2_plus. replace (a - b + b)%Z with a by lia. reflexivity. }
  assert (Hx' : (n # d) * inject_Z (Z.pos d) == inject_Z n).
  { unfold Qeq, Qmult, inject_Z. cbn. lia. }
  assert (HdQ : 0 < inject_Z (Z.pos d)) by reflexivity.
  assert (Hpb : 0 < pow2 b) by apply pow2_pos.
  assert (Hpk : 0 < pow2 (a - b)) by apply pow2_pos.
  assert (Hn1 : inject_Z (2 ^ a) <= inject_Z n) by (rewrite <- Zle_Qle; exact Ha1).
  assert (Hn2 : inject_Z n < 2 * inject_Z (2 ^ a)).
  { change 2 with (inject_Z 2). rewrite <- inject_Z_mult, <- Zlt_Qlt.
    rewrite Z.pow_succ_r in Ha2 by exact Ha. exact Ha2. }
  assert (Hd1 : inject_Z (2 ^ b) <= inject_Z (Z.pos d)) by (rewrite <- Zle_Qle; exact Hb1).
  assert (Hd2 : inject_Z (Z.pos d) < 2 * inject_Z (2 ^ b)).
  { change 2 with (inject_Z 2). rewrite <- inject_Z_mult, <- Zlt_Qlt.
    rewrite Z.pow_succ_r in Hb2 by exact Hb. exact Hb2. }
  rewrite <- HA in Hn1, Hn2. rewrite <- HB in Hd1, Hd2.
  set (X := n # d) in *. set (D := inject_Z (Z.pos d)) in *.
  set (N := inject_Z n) in *. set (K := pow2 (a - b)) in *.
  set (A := pow2 a) in *. set (B := pow2 b) in *.
  assert (Hupper : X < 2 * K).
  { apply Qnot_le_lt. intros Hc.
    assert (2 * K * D <= X * D) by (apply Qmult_le_compat_r; [exact Hc|lra]).
    assert (2 * K * B <= 2 * K * D) by (apply Qmult_le_l; lra).
    lra. }
  assert (Hlower : K < 2 * X).
  { apply Qnot_le_lt. intros Hc.
    assert (2 * X * D <= K * D) by (apply Qmult_le_compat_r; [exact Hc|lra]).
    assert (K * D < K * (2 * B)) by (apply Qmult_lt_l; lra).
    lra. }
  destruct (Qle_bool K X) eqn:E.
  - apply Qle_bool_iff in E. split; [exact E|].
    rewrite pow2_succ. exact Hupper.
  - assert (HKX : X < K).
    { apply Qnot_le_lt. intros Hc. apply Qle_bool_iff in Hc. congruence. }
    replace (a - b - 1 + 1)%Z with (a - b)%Z by lia. split; [|exact HKX].
    assert (Hhalf : 2 * pow2 (a - b - 1) == K).
    { unfold K. rewrite <- pow2_succ. replace (a - b - 1 + 1)%Z with (a - b)%Z by lia.
      reflexivity. }
    lra.
Qed.

Lemma ilog2_unique (x : Q) (a : Z) :
  pow2 a <= x -> x < pow2 (a + 1) -> ilog2 x = a.
Proof.
  intros H1 H2.
  assert (Hx : 0 < x) by (pose proof (pow2_pos a); lra).
  destruct (ilog2_spec x Hx) as [H3 H4].
  assert ((a < ilog2 x + 1)%Z) by (apply pow2_lt_inv; lra).
  assert ((ilog2 x < a + 1)%Z) by (apply pow2_lt_inv; lra).
  lia.
Qed.

Lemma ilog2_mono (x y : Q) : 0 < x -> x <= y -> (ilog2 x <= ilog2 y)%Z.
Proof.
  intros Hx Hxy.
  destruct (ilog2_spec x Hx) as [H1 _].
  destruct (ilog2_spec y) as [_ H2]; [lra|].
  assert ((ilog2 x < ilog2 y + 1)%Z) by (apply pow2_lt_inv; lra).
  lia.
Qed.

Ltac compare_facts :=
  repeat match goal with
         | H : Qcompare _ _ = Eq |- _ => apply (proj2 (Qeq_alt _ _)) in H
         | H : Qcompare _ _ = Lt |- _ => apply (proj2 (Qlt_alt _ _)) in H
         | H : Qcompare _ _ = Gt |- _ => apply (proj2 (Qgt_alt _ _)) in H
         end.

(** Rounding to the nearest integer. *)
Lemma rne_Z (z : Z) : rne (inject_Z z) = z.
Proof.
  unfold rne. rewrite Qfloor_Z.
  assert (E : Qcompare (inject_Z z - inject_Z z) (1 # 2) = Lt).
  { apply (proj1 (Qlt_alt _ _)). lra. }
  rewrite E. reflexivity.
Qed.

Lemma rne_comp (p q : Q) : p == q -> rne p = rne q.
Proof.
  intros Hpq. unfold rne. rewrite (Qfloor_comp p q Hpq).
  assert (E : Qcompare (p - inject_Z (Qfloor q)) (1 # 2)
              = Qcompare (q - inject_Z (Qfloor q)) (1 # 2)).
  { apply Qcompare_comp; [rewrite Hpq; reflexivity|reflexivity]. }
  rewrite E. reflexivity.
Qed.

Lemma rne_mono (p q : Q) : p <= q -> (rne p <= rne q)%Z.
Proof.
  intros Hpq. unfold rne.
  pose proof (Qfloor_resp_le p q Hpq) as Hf.
  pose proof (Qfloor_le p) as Hp1. pose proof (Qlt_floor p) as Hp2.
  pose proof (Qfloor_le q) as Hq1. pose proof (Qlt_floor q) as Hq2.
  rewrite inject_Z_plus in Hp2, Hq2.
  destruct (Z.eq_dec (Qfloor p) (Qfloor q)) as [E|E].
  - rewrite <- E in *.
    destruct (Qcompare (p - inject_Z (Qfloor p)) (1 # 2)) eqn:Ep;
      destruct (Qcompare (q - inject_Z (Qfloor p)) (1 # 2)) eqn:Eq;
      try (destruct (Z.even (Qfloor p))); try lia;
      compare_facts; exfalso; lra.
  - assert ((Qfloor p + 1 <= Qfloor q)%Z) by lia.
    destruct (Qcompare (p - inject_Z (Qfloor p)) (1 # 2));
      destruct (Qcompare (q - inject_Z (Qfloor q)) (1 # 2));
      try (destruct (Z.even (Qfloor p))); try (destruct (Z.even (Qfloor q))); lia.
Qed.

Lemma rne_ge (z : Z) (q : Q) : inject_Z z <= q -> (z <= rne q)%Z.
Proof. intros Hq. rewrite <- (rne_Z z). apply rne_mono. exact Hq. Qed.

Lemma rne_le (z : Z) (q : Q) : q <= inject_Z z -> (rne q <= z)%Z.
Proof. intros Hq. rewrite <- (rne_Z z). apply rne_mono. exact Hq. Qed.

(** The significand of a positive number lies between 2^52 and 2^53. *)
Lemma scaled_bounds (x : Q) :
  0 < x -> pow2 52 <= x / pow2 (ilog2 x - 52) /\ x / pow2 (ilog2 x - 52) < pow2 53.
Proof.
  intros Hx. destruct (ilog2_spec x Hx) as [H1 H2].
  set (l := ilog2 x) in *.
  assert (He : 0 < pow2 (l - 52)) by apply pow2_pos.
  assert (E1 : pow2 l == pow2 52 * pow2 (l - 52)).
  { rewrite <- pow2_plus. replace (52 + (l - 52))%Z with l by lia. reflexivity. }
  assert (E2 : pow2 (l + 1) == pow2 53 * pow2 (l - 52)).
  { rewrite <- pow2_plus. replace (53 + (l - 52))%Z with (l + 1)%Z by lia. reflexivity. }
  split.
  - apply Qle_shift_div_l; [exact He|]. rewrite <- E1. exact H1.
  - apply Qlt_shift_div_r; [exact He|]. rewrite <- E2. exact H2.
Qed.

Lemma significand_bounds (x : Q) :
  0 < x ->
  (2 ^ 52 <= rne (x / pow2 (ilog2 x - 52)) <= 2 ^ 53)%Z.
Proof.
  intros Hx. destruct (scaled_bounds x Hx) as [H1 H2]. split.
  - apply rne_ge. rewrite <- pow2_Z by lia. exact H1.
  - apply rne_le. rewrite <- pow2_Z by lia. lra.
Qed.

Lemma roundPos_bounds (x : Q) :
  0 < x -> pow2 (ilog2 x) <= roundPos x /\ roundPos x <= pow2 (ilog2 x + 1).
Proof.
  intros Hx. unfold roundPos.
  destruct (significand_bounds x Hx) as [H1 H2].
  set (l := ilog2 x) in *. set (m := rne (x / pow2 (l - 52))) in *.
  assert (He : 0 < pow2 (l - 52)) by apply pow2_pos.
  assert (E1 : pow2 l == pow2 52 * pow2 (l - 52)).
  { rewrite <- pow2_plus. replace (52 + (l - 52))%Z with l by lia. reflexivity. }
  assert (E2 : pow2 (l + 1) == pow2 53 * pow2 (l - 52)).
  { rewrite <- pow2_plus. replace (53 + (l - 52))%Z with (l + 1)%Z by lia. reflexivity. }
  rewrite E1, E2. rewrite (pow2_Z 52), (pow2_Z 53) by lia. split.
  - apply Qmult_le_compat_r; [|lra]. rewrite <- Zle_Qle. exact H1.
  - apply Qmult_le_compat_r; [|lra]. rewrite <- Zle_Qle. exact H2.
Qed.

Lemma roundPos_pos (x : Q) : 0 < x -> 0 < roundPos x.
Proof.
  intros Hx. destruct (roundPos_bounds x Hx) as [H1 _].
  pose proof (pow2_pos (ilog2 x)). lra.
Qed.

Lemma roundPos_comp (x y : Q) : 0 < x -> x == y -> roundPos x == roundPos y.
Proof.
  intros Hx Hxy. unfold roundPos.
  assert (El : ilog2 y = ilog2 x).
  { destruct (ilog2_spec x Hx) as [H1 H2]. apply ilog2_unique; lra. }
  rewrite El.
  rewrite (rne_comp (x / pow2 (ilog2 x - 52)) (y / pow2 (ilog2 x - 52)))
    by (unfold Qdiv; apply Qmult_comp; [exact Hxy|reflexivity]).
  reflexivity.
Qed.

Lemma roundPos_mono (x y : Q) : 0 < x -> x <= y -> roundPos x <= roundPos y.
Proof.
  intros Hx Hxy. assert (Hy : 0 < y) by lra.
  pose proof (ilog2_mono x y Hx Hxy) as Hl.
  destruct (Z.eq_dec (ilog2 x) (ilog2 y)) as [E|E].
  - unfold roundPos. rewrite E.
    assert (He : 0 < pow2 (ilog2 y - 52)) by apply pow2_pos.
    apply Qmult_le_compat_r; [|lra]. rewrite <- Zle_Qle. apply rne_mono.
    apply Qmult_le_compat_r; [exact Hxy|]. apply Qinv_le_0_compat. lra.
  - destruct (roundPos_bounds x Hx) as [_ H1].
    destruct (roundPos_bounds y Hy) as [H2 _].
    assert (pow2 (ilog2 x + 1) <= pow2 (ilog2 y)) by (apply pow2_le; lia).
    lra.
Qed.

(** A positive integer of at most 53 bits times a power of two is not
    changed. *)
Lemma roundPos_exact (z e : Z) :
  (0 < z <= 2 ^ 53)%Z -> roundPos (inject_Z z * pow2 e) == inject_Z z * pow2 e.
Proof.
  intros [Hz1 Hz2].
  set (x := inject_Z z * pow2 e).
  assert (Hpe : 0 < pow2 e) by apply pow2_pos.
  assert (HzQ : 0 < inject_Z z) by (change 0 with (inject_Z 0); rewrite <- Zlt_Qlt; exact Hz1).
  assert (Hx : 0 < x) by (unfold x; apply Qmult_lt_0_compat; assumption).
  set (lz := Z.log2 z).
  destruct (Z.log2_spec z Hz1) as [Hl1 Hl2]. fold lz in Hl1, Hl2.
  assert (Hlz0 : (0 <= lz)%Z) by apply Z.log2_nonneg.
  assert (Hlz : (lz <= 53)%Z).
  { unfold lz. rewrite <- (Z.log2_pow2 53) by lia. apply Z.log2_le_mono. exact Hz2. }
  assert (El : ilog2 x = (lz + e)%Z).
  { apply ilog2_unique; unfold x.
    - rewrite pow2_plus, (pow2_Z lz) by exact Hlz0.
      apply Qmult_le_compat_r; [|lra]. rewrite <- Zle_Qle. exact Hl1.
    - replace (lz + e + 1)%Z with ((lz + 1) + e)%Z by lia.
      rewrite pow2_plus, (pow2_Z (lz + 1)) by lia.
      apply Qmult_lt_compat_r; [exact Hpe|]. rewrite <- Zlt_Qlt.
      replace (lz + 1)%Z with (Z.succ lz) by lia. exact Hl2. }
  unfold roundPos. rewrite El.
  replace (lz + e - 52)%Z with (e - (52 - lz))%Z by lia.
  set (k := (52 - lz)%Z).
  assert (Hsplit : pow2 e == pow2 k * pow2 (e - k)).
  { rewrite <- pow2_plus. replace (k + (e - k))%Z with e by lia. reflexivity. }
  assert (Hpk : 0 < pow2 (e - k)) by apply pow2_pos.
  assert (Hscaled : x / pow2 (e - k) == inject_Z z * pow2 k).
  { unfold x. rewrite Hsplit. field. lra. }
  destruct (Z_le_gt_dec 0 k) as [Hk|Hk].
  - rewrite (rne_comp _ (inject_Z (z * 2 ^ k))).
    + rewrite rne_Z. rewrite inject_Z_mult, <- pow2_Z by exact Hk.
      unfold x. rewrite Hsplit. ring.
    + rewrite Hscaled, inject_Z_mult, <- pow2_Z by exact Hk. reflexivity.
  - assert (Ek : k = (-1)%Z) by lia.
    assert (Ez : z = (2 ^ 53)%Z).
    { assert (lz = 53%Z) by lia. subst lz. rewrite H in Hl1. lia. }
    assert (Hh : inject_Z z * pow2 k == inject_Z (2 ^ 52)).
    { rewrite Ek, Ez. reflexivity. }
    rewrite (rne_comp _ (inject_Z (2 ^ 52))).
    + rewrite rne_Z. rewrite <- Hh. unfold x. rewrite Hsplit. ring.
    + rewrite Hscaled. exact Hh.
Qed.

Lemma roundPos_idem (x : Q) : 0 < x -> roundPos (roundPos x) == roundPos x.
Proof.
  intros Hx. unfold roundPos at 2 3.
  apply roundPos_exact.
  destruct (significand_bounds x Hx) as [H1 H2]. lia.
Qed.

(** Rounding, by the sign of the number. *)
Lemma round_comp (x y : Q) : x == y -> round x = round y.
Proof. intros Hxy. unfold round. rewrite (Qred_complete x y Hxy). reflexivity. Qed.

Lemma round_zero (x : Q) : x == 0 -> round x = 0.
Proof. intros Hx. rewrite (round_comp x 0 Hx). reflexivity. Qed.

Lemma round_pos (x : Q) : 0 < x -> round x == roundPos x.
Proof.
  intros Hx. unfold round.
  pose proof (Qred_correct x) as Hr.
  assert (Hr0 : 0 < Qred x) by (rewrite Hr; exact Hx).
  destruct (Qred x) as [n d] eqn:E. cbn [Qnum].
  destruct n as [|p|p]; try (exfalso; unfold Qlt in Hr0; cbn in Hr0; lia).
  rewrite Qred_correct. apply roundPos_comp; [exact Hr0|exact Hr].
Qed.

Lemma round_neg (x : Q) : x < 0 -> round x == - roundPos (- x).
Proof.
  intros Hx. unfold round.
  pose proof (Qred_correct x) as Hr.
  assert (Hr0 : Qred x < 0) by (rewrite Hr; exact Hx).
  destruct (Qred x) as [n d] eqn:E. cbn [Qnum].
  destruct n as [|p|p]; try (exfalso; unfold Qlt in Hr0; cbn in Hr0; lia).
  rewrite Qred_correct. apply Qopp_comp. apply roundPos_comp; [lra|].
  rewrite Hr. reflexivity.
Qed.

Lemma round_opp (x : Q) : round (- x) == - round x.
Proof.
  destruct (Q_dec x 0) as [[Hx|Hx]|Hx].
  - rewrite (round_pos (- x)) by lra. rewrite (round_neg x Hx). ring.
  - rewrite (round_neg (- x)) by lra. rewrite (round_pos x Hx).
    apply Qopp_comp. apply roundPos_comp; [lra|ring].
  - rewrite (round_zero x Hx). rewrite round_zero by lra. reflexivity.
Qed.

Lemma round_gt_0 (x : Q) : 0 < x -> 0 < round x.
Proof. intros Hx. rewrite (round_pos x Hx). apply roundPos_pos. exact Hx. Qed.

Lemma round_lt_0 (x : Q) : x < 0 -> round x < 0.
Proof.
  intros Hx. rewrite (round_neg x Hx).
  assert (0 < roundPos (- x)) by (apply roundPos_pos; lra). lra.
Qed.

(** Rounding keeps the sign. *)
Lemma round_sign (x : Q) : (0 < round x <-> 0 < x) /\ (round x < 0 <-> x < 0).
Proof.
  destruct (Q_dec x 0) as [[Hx|Hx]|Hx].
  - pose proof (round_lt_0 x Hx). split; split; intros; lra.
  - pose proof (round_gt_0 x Hx). split; split; intros; lra.
  - rewrite (round_zero x Hx). split; split; intros; lra.
Qed.

(** Rounding is monotone. *)
Lemma round_mono (x y : Q) : x <= y -> round x <= round y.
Proof.
  intros Hxy.
  destruct (Q_dec x 0) as [[Hx|Hx]|Hx]; destruct (Q_dec y 0) as [[Hy|Hy]|Hy];
    try (exfalso; lra).
  - rewrite (round_neg x Hx), (round_neg y Hy).
    assert (roundPos (- y) <= roundPos (- x)) by (apply roundPos_mono; lra). lra.
  - pose proof (round_lt_0 x Hx). pose proof (round_gt_0 y Hy). lra.
  - pose proof (round_lt_0 x Hx). rewrite (round_zero y Hy). lra.
  - rewrite (round_pos x Hx), (round_pos y Hy). apply roundPos_mono; assumption.
  - pose proof (round_gt_0 y Hy). rewrite (round_zero x Hx). lra.
  - rewrite (round_zero x Hx), (round_zero y Hy). lra.
Qed.

(** A rounded number is not changed by rounding it again. *)
Lemma round_idem (x : Q) : round (round x) == round x.
Proof.
  destruct (Q_dec x 0) as [[Hx|Hx]|Hx].
  - pose proof (round_lt_0 x Hx) as Hr.
    pose proof (round_neg x Hx) as Hn.
    pose proof (round_neg (round x) Hr) as Hnn.
    assert (Hc : roundPos (- round x) == roundPos (roundPos (- x))).
    { apply roundPos_comp; lra. }
    pose proof (roundPos_idem (- x)) as Hi.
    lra.
  - pose proof (round_gt_0 x Hx) as Hr.
    pose proof (round_pos x Hx) as Hp.
    pose proof (round_pos (round x) Hr) as Hpp.
    assert (Hc : roundPos (round x) == roundPos (roundPos x)).
    { apply roundPos_comp; lra. }
    pose proof (roundPos_idem x Hx) as Hi.
    lra.
  - rewrite (round_zero x Hx). reflexivity.
Qed.

(** Whole numbers up to 2^53 are binary64 numbers. *)
Lemma round_int (z : Z) : (Z.abs z <= 2 ^ 53)%Z -> round (inject_Z z) == inject_Z z.
Proof.
  intros Hz.
  assert (Hone : forall p : Z, (0 < p <= 2 ^ 53)%Z -> roundPos (inject_Z p) == inject_Z p).
  { intros p Hp. pose proof (roundPos_exact p 0 Hp) as E.
    assert (E1 : inject_Z p * pow2 0 == inject_Z p) by (unfold pow2; simpl; ring).
    rewrite <- E1 at 2. rewrite <- E. apply roundPos_comp.
    - change 0 with (inject_Z 0). rewrite <- Zlt_Qlt. lia.
    - rewrite E1. reflexivity. }
  destruct (Z_dec z 0) as [[Hneg|Hpos]|Hzero].
  - assert (Hq : inject_Z z < 0) by (change 0 with (inject_Z 0); rewrite <- Zlt_Qlt; lia).
    rewrite (round_neg _ Hq).
    rewrite (roundPos_comp (- inject_Z z) (inject_Z (- z))).
    + rewrite Hone by lia. rewrite inject_Z_opp. ring.
    + lra.
    + rewrite inject_Z_opp. reflexivity.
  - assert (Hq : 0 < inject_Z z) by (change 0 with (inject_Z 0); rewrite <- Zlt_Qlt; lia).
    rewrite (round_pos _ Hq). apply Hone. lia.
  - subst z. reflexivity.
Qed.


End Rounding.


(** ** Comparisons and sums of amounts *)

Lemma Qltb_lt (x y : Q) : Js.Qltb x y = true <-> x < y.
Proof.
  unfold Js.Qltb. rewrite negb_true_iff. split.
  - intros Hb. apply Qnot_le_lt. intros Hle.
    apply Qle_bool_iff in Hle. congruence.
  - intros Hlt. destruct (Qle_bool y x) eqn:E; [|reflexivity].
    apply Qle_bool_iff in E. exfalso. exact (Qlt_not_le _ _ Hlt E).
Qed.

Lemma Qltb_ge (x y : Q) : Js.Qltb x y = false <-> y <= x.
Proof.
  unfold Js.Qltb. rewrite negb_false_iff. apply Qle_bool_iff.
Qed.

Lemma Qle_bool_gt (x y : Q) : Qle_bool x y = false <-> y < x.
Proof.
  split.
  - intros Hb. apply Qnot_le_lt. intros Hle. apply Qle_bool_iff in Hle. congruence.
  - intros Hlt. destruct (Qle_bool x y) eqn:E; [|reflexivity].
    apply Qle_bool_iff in E. exfalso. exact (Qlt_not_le _ _ Hlt E).
Qed.

Lemma jsOr_eq (x : option Q) : Js.jsOr x 0 == default 0 x.
Proof.
  destruct x as [v|]; simpl; [|reflexivity].
  destruct (Qeq_bool v 0) eqn:E; [|reflexivity].
  apply Qeq_bool_iff in E. symmetry. exact E.
Qed.

(** ** The status of a ledger row *)

Ltac by_status_rule :=
  repeat match goal with
         | H : Qle_bool _ _ = true |- _ => apply Qle_bool_iff in H
         | H : Qle_bool _ _ = false |- _ => apply Qle_bool_gt in H
         | H : Js.Qltb _ _ = true |- _ => apply Qltb_lt in H
         | H : Js.Qltb _ _ = false |- _ => apply Qltb_ge in H
         end;
  first [ apply rule_nothing_due_paid; assumption
        | apply rule_nothing_due; assumption
        | apply rule_paid; assumption
        | apply rule_partially_paid; assumption
        | apply rule_unpaid; first [assumption | lra] ].

Lemma sfms2_status_rule (view : FeeView) (s : Sfms2Ledger.StudentWithPayments) :
  StatusRule 0 (Sfms2Ledger.feesForCalc view s) (Js.jsOr (Sfms2Ledger.totalPaid s) 0)
    (Sfms2Ledger.getDynamicStatus view s).
Proof.
  unfold Sfms2Ledger.getDynamicStatus.
  change (match view with
          | ViewTotal => Sfms2Ledger.total_assigned_fees s
          | ViewDue => Sfms2Ledger.due_fees_total s
          end) with (Sfms2Ledger.feesForCalc view s).
  set (basis := Sfms2Ledger.feesForCalc view s).
  set (paid := Js.jsOr (Sfms2Ledger.totalPaid s) 0).
  cbv zeta.
  destruct (Qle_bool basis 0) eqn:E1.
  - destruct (Js.Qltb 0 paid) eqn:E2; by_status_rule.
  - destruct (Qle_bool basis paid) eqn:E2; [by_status_rule|].
    destruct (Js.Qltb 0 paid) eqn:E3; simpl.
    + destruct (Js.Qltb paid basis) eqn:E4; [by_status_rule|].
      apply Qltb_ge in E4. apply Qle_bool_gt in E2. lra.
    + by_status_rule.
Qed.

Lemma ledger_status_rule (view : FeeView) (s : Ledger.StudentWithDetails) :
  StatusRule Ledger.zeroTolerance (Ledger.feesForCalc view s)
    (Js.jsOr (Ledger.totalPaid s) 0) (Ledger.getDynamicStatus view s).
Proof.
  unfold Ledger.getDynamicStatus.
  change (match view with
          | ViewTotal => Js.jsOr (Db.s_total_fees (Ledger.row s)) 0
          | ViewDue => Js.jsOr (Ledger.due_fees_total s) 0
          end) with (Ledger.feesForCalc view s).
  set (basis := Ledger.feesForCalc view s).
  set (paid := Js.jsOr (Ledger.totalPaid s) 0).
  cbv zeta.
  destruct (Qle_bool basis Ledger.zeroTolerance) eqn:E1.
  - destruct (Js.Qltb 0 paid) eqn:E2; by_status_rule.
  - destruct (Qle_bool basis paid) eqn:E2; [by_status_rule|].
    destruct (Js.Qltb 0 paid) eqn:E3; simpl.
    + destruct (Js.Qltb paid basis) eqn:E4; [by_status_rule|].
      apply Qltb_ge in E4. apply Qle_bool_gt in E2. lra.
    + by_status_rule.
Qed.

(** C2, as the pages have it.  [getDynamicStatus] applies its rules in order
    with no tolerance on the amount paid: when the basis is at most the
    threshold ([0] in one copy of the ledger, the literal [0.009] in the
    other) the status is paid if anything was paid and no_fees_due otherwise;
    above the threshold it is paid when [paid >= basis], partially_paid when
    [0 < paid < basis], and unpaid otherwise.  The five sample
    classifications of the specification hold in both copies. *)
Theorem getDynamicStatus_rules :
  (forall view s,
     StatusRule 0 (Sfms2Ledger.feesForCalc view s)
       (Js.jsOr (Sfms2Ledger.totalPaid s) 0) (Sfms2Ledger.getDynamicStatus view s))
  /\ (forall view s,
        StatusRule Ledger.zeroTolerance (Ledger.feesForCalc view s)
          (Js.jsOr (Ledger.totalPaid s) 0) (Ledger.getDynamicStatus view s))
  /\ (forall view,
        Sfms2Ledger.getDynamicStatus view (sfms2Row 0 0) = No_fees_due
        /\ Sfms2Ledger.getDynamicStatus view (sfms2Row 0 50) = Paid
        /\ Sfms2Ledger.getDynamicStatus view (sfms2Row 1000 1000) = Paid
        /\ Sfms2Ledger.getDynamicStatus view (sfms2Row 1000 400) = Partially_paid
        /\ Sfms2Ledger.getDynamicStatus view (sfms2Row 1000 0) = Unpaid)
  /\ (forall view,
        Ledger.getDynamicStatus view (ledgerRow 0 0) = No_fees_due
        /\ Ledger.getDynamicStatus view (ledgerRow 0 50) = Paid
        /\ Ledger.getDynamicStatus view (ledgerRow 1000 1000) = Paid
        /\ Ledger.getDynamicStatus view (ledgerRow 1000 400) = Partially_paid
        /\ Ledger.getDynamicStatus view (ledgerRow 1000 0) = Unpaid).
Proof.
  split; [exact sfms2_status_rule|].
  split; [exact ledger_status_rule|].
  split; intros []; repeat split; reflexivity.
Qed.

(** C2 does not hold as stated: a payment of 999.9921875 against a basis of
    1000 is within 0.01 of the basis, so the stated rule 2 gives paid, while
    both copies of the ledger answer partially_paid. *)
Lemma classify_tolerance_counterexample :
  Spec.classify 1000 (127999 # 128) = Paid
  /\ Sfms2Ledger.getDynamicStatus ViewTotal (sfms2Row 1000 (127999 # 128)) = Partially_paid
  /\ Ledger.getDynamicStatus ViewTotal (ledgerRow 1000 (127999 # 128)) = Partially_paid.
Proof. repeat split; reflexivity. Qed.

(** ** Sums written as folds *)

Lemma sumQ_app (l1 l2 : list Q) :
  Spec.sumQ (l1 ++ l2) == Spec.sumQ l1 + Spec.sumQ l2.
Proof.
  induction l1 as [|x l1 IH]; simpl.
  - ring.
  - rewrite IH. ring.
Qed.

(** The sums and differences of the pages respect the equality of amounts,
    and are exact on whole numbers up to 2^53. *)
Lemma add_comp (x x' y y' : Q) : x == x' -> y == y' -> Js.add x y = Js.add x' y'.
Proof.
  intros Hx Hy. unfold Js.add, Binary64.add. apply round_comp.
  rewrite Hx, Hy. reflexivity.
Qed.

Lemma sub_comp (x x' y y' : Q) : x == x' -> y == y' -> Js.sub x y = Js.sub x' y'.
Proof.
  intros Hx Hy. unfold Js.sub, Binary64.sub. apply round_comp.
  rewrite Hx, Hy. reflexivity.
Qed.

Lemma unrounded_comp (x y : Q) : x == y -> unrounded x -> unrounded y.
Proof.
  unfold unrounded. intros Hxy Hx. rewrite <- (round_comp x y Hxy), Hx. exact Hxy.
Qed.

Lemma unrounded_round (x : Q) : unrounded (Binary64.round x).
Proof. apply round_idem. Qed.

Lemma unrounded_whole (z : Z) : (Z.abs z <= 2 ^ 53)%Z -> unrounded (inject_Z z).
Proof. apply round_int. Qed.

Lemma sumsExact_comp (l : list Q) (acc acc' : Q) :
  acc == acc' -> sumsExact acc l -> sumsExact acc' l.
Proof.
  revert acc acc'. induction l as [|x l IH]; intros acc acc' Hacc; simpl; [trivial|].
  intros [H1 H2]. assert (E : acc + x == acc' + x) by (rewrite Hacc; reflexivity).
  split; [exact (unrounded_comp _ _ E H1)|exact (IH _ _ E H2)].
Qed.

(** A reduce that never rounds gives the sum. *)
Lemma sum_exact (l : list Q) (a acc : Q) :
  a == acc -> sumsExact acc l -> fold_left Js.add l a == acc + Spec.sumQ l.
Proof.
  revert a acc. induction l as [|x l IH]; intros a acc Ha; simpl.
  - intros _. rewrite Ha. ring.
  - intros [H1 H2].
    assert (E : Js.add a x == acc + x).
    { rewrite (add_comp a acc x x Ha) by reflexivity. exact H1. }
    rewrite (IH _ _ E H2). ring.
Qed.

Lemma fold_add_map {A} (f : A -> Q) (l : list A) (a : Q) :
  fold_left (fun sum x => Js.add sum (f x)) l a = fold_left Js.add (List.map f l) a.
Proof. revert a. induction l as [|x l IH]; intros a; simpl; [reflexivity|apply IH]. Qed.

Lemma reduceSum_exact {A} (f : A -> Q) (l : list A) :
  sumsExact 0 (List.map f l) -> Js.reduceSum f l == Spec.sumQ (List.map f l).
Proof.
  intros Hex. unfold Js.reduceSum. rewrite fold_add_map.
  rewrite (sum_exact _ 0 0) by (reflexivity || exact Hex). ring.
Qed.

(** Whole amounts whose absolute values add up to at most 2^53 are summed
    without rounding. *)
Lemma whole_add (x y : Q) : whole x -> whole y -> whole (x + y).
Proof.
  intros [a Ha] [b Hb]. exists (a + b)%Z. rewrite inject_Z_plus, Ha, Hb. reflexivity.
Qed.

Lemma whole_opp (x : Q) : whole x -> whole (- x).
Proof. intros [a Ha]. exists (- a)%Z. rewrite inject_Z_opp, Ha. reflexivity. Qed.

Lemma whole_unrounded (x : Q) : whole x -> Qabs x <= inject_Z (2 ^ 53) -> unrounded x.
Proof.
  intros [z Hz] Hb. apply (unrounded_comp (inject_Z z) x); [symmetry; exact Hz|].
  apply unrounded_whole. rewrite Hz in Hb.
  assert (E : Qabs (inject_Z z) = inject_Z (Z.abs z)) by reflexivity.
  rewrite E in Hb. rewrite Zle_Qle. exact Hb.
Qed.

Lemma magnitude_nonneg (l : list Q) : 0 <= magnitude l.
Proof.
  induction l as [|x l IH]; simpl; [lra|]. pose proof (Qabs_nonneg x). lra.
Qed.

Lemma sumsExact_whole (l : list Q) (acc : Q) :
  whole acc -> Forall whole l ->
  Qabs acc + magnitude l <= inject_Z (2 ^ 53) ->
  sumsExact acc l.
Proof.
  revert acc. induction l as [|x l IH]; intros acc Hacc Hl Hb; simpl; [trivial|].
  inversion Hl as [|? ? Hx Hl']; subst. simpl in Hb.
  pose proof (Qabs_triangle acc x) as Htri.
  pose proof (magnitude_nonneg l) as Hm.
  assert (Hw : whole (acc + x)) by (apply whole_add; assumption).
  split.
  - apply whole_unrounded; [exact Hw|lra].
  - apply IH; [exact Hw|exact Hl'|lra].
Qed.






(** ** Payments of a student: total and last payment *)

Section Payments.
Context `{Js.JsDate}.
Import Db.

Lemma totalPaidOf_fold (ps : list PaymentRow) :
  totalPaidOf ps == Js.reduceSum p_amount_paid ps.
Proof. unfold totalPaidOf. rewrite jsOr_eq. reflexivity. Qed.

Lemma head_insertSorted {A} (cmp : A -> A -> Z) (x : A) (l : list A) :
  head (Js.insertSorted cmp x l) =
  match head l with
  | None => Some x
  | Some y => if (0 <? cmp x y)%Z then Some y else Some x
  end.
Proof. destruct l as [|y r]; simpl; [reflexivity|]. destruct (0 <? cmp x y)%Z; reflexivity. Qed.

(** With valid dates the comparator orders by time, latest first. *)
Lemma byDateDesc_pos (a b : PaymentRow) (ta tb : Z) :
  Js.getTime (p_date a) = Some ta -> Js.getTime (p_date b) = Some tb ->
  ((0 <? byDateDesc a b) = true <-> ta < tb)%Z.
Proof.
  intros Ha Hb. unfold byDateDesc. rewrite Ha, Hb.
  rewrite Z.ltb_lt. pose proof (Z.sgn_spec (tb - ta)) as Hsgn. lia.
Qed.


End Payments.




(** ** Fees currently due *)

Section Due.
Context `{Js.JsDate}.
Import Db.

Lemma isDue_spec (today : Z) (sft : SftJoined) :
  isDue today sft = true <->
  exists fee s t,
    fee_type sft = Some fee /\ ft_scheduled_date fee = Some s /\ s <> EmptyString
    /\ Js.getTime s = Some t /\ (t <= today)%Z.
Proof.
  unfold isDue. split.
  - destruct (fee_type sft) as [fee|]; [|discriminate].
    destruct (ft_scheduled_date fee) as [[|c r]|] eqn:Es; simpl; try discriminate.
    destruct (Js.getTime (String c r)) as [t|] eqn:Et; [|discriminate].
    intros Hle. apply Z.leb_le in Hle.
    exists fee, (String c r), t. repeat split; try assumption. discriminate.
  - intros (fee & s & t & -> & Hs & Hne & Ht & Hle).
    rewrite Hs. destruct s as [|c r]; [contradiction|]. simpl.
    rewrite Ht. apply Z.leb_le. exact Hle.
Qed.

Lemma isDue_later (d1 d2 : Z) (sft : SftJoined) :
  (d1 <= d2)%Z -> isDue d1 sft = true -> isDue d2 sft = true.
Proof.
  intros Hle Hdue. apply isDue_spec in Hdue.
  destruct Hdue as (fee & s & t & Hf & Hs & Hne & Ht & Ht1).
  apply isDue_spec. exists fee, s, t. repeat split; try assumption. lia.
Qed.

(** C4.  The date test of the ledger compares instants: the scheduled date,
    a date-only string read as midnight UTC, against today at midnight on
    the local clock.  On a clock at or behind UTC this is the comparison of
    the two calendar days; on a clock ahead of UTC a fee becomes due only
    the day after its scheduled date, and on the scheduled day itself it
    adds nothing to the due amount. *)
Theorem due_date_comparison (sft : SftJoined) (fee : FeeTypeRow) (s : string)
    (scheduledDay referenceDay offset : Z) :
  fee_type sft = Some fee ->
  ft_scheduled_date fee = Some s -> s <> EmptyString ->
  Js.getTime s = Some (scheduledDay * msPerDay)%Z ->
  (- msPerDay < offset < msPerDay)%Z ->
  ((offset <= 0)%Z ->
   (isDue (localMidnight referenceDay offset) sft = true
    <-> (scheduledDay <= referenceDay)%Z))
  /\ ((0 < offset)%Z ->
      (isDue (localMidnight referenceDay offset) sft = true
       <-> (scheduledDay < referenceDay)%Z))
  /\ ((0 < offset)%Z -> scheduledDay = referenceDay ->
      due_fees_this_moment (localMidnight referenceDay offset) [sft] = 0).
Proof.
  intros Hfee Hs Hne Ht Hoff.
  assert (Hdue : forall today,
            isDue today sft = true <-> (scheduledDay * msPerDay <= today)%Z).
  { intros today. rewrite isDue_spec. split.
    - intros (fee' & s' & t & Hf' & Hs' & _ & Ht' & Hle).
      rewrite Hfee in Hf'. injection Hf' as <-.
      rewrite Hs in Hs'. injection Hs' as <-.
      rewrite Ht in Ht'. injection Ht' as <-. exact Hle.
    - intros Hle. exists fee, s, (scheduledDay * msPerDay)%Z.
      repeat split; assumption. }
  unfold localMidnight, msPerDay in *.
  split; [|split].
  - intros Hwest. rewrite Hdue. split; intros Hle; nia.
  - intros Heast. rewrite Hdue. split; intros Hle; nia.
  - intros Heast ->. unfold due_fees_this_moment. cbn [fold_left].
    destruct (isDue (referenceDay * 86400000 - offset) sft) eqn:E; [|reflexivity].
    apply Hdue in E. lia.
Qed.

(** The rounded reduce of the due amounts grows with the accumulator and
    with the set of the assignments that are due. *)
Lemma due_fold_mono (d1 d2 : Z) (sfts : list SftJoined) (a1 a2 : Q) :
  (d1 <= d2)%Z ->
  (forall sft, In sft sfts -> isDue d1 sft = false -> isDue d2 sft = true ->
               0 <= netFeeAmount sft) ->
  unrounded a1 -> a1 <= a2 ->
  fold_left (fun due sft => if isDue d1 sft then Js.add due (netFeeAmount sft) else due)
    sfts a1
  <= fold_left (fun due sft => if isDue d2 sft then Js.add due (netFeeAmount sft) else due)
       sfts a2.
Proof.
  intros Hle. revert a1 a2.
  induction sfts as [|x l IH]; intros a1 a2 Hnet Hu Ha; simpl; [exact Ha|].
  assert (Hl : forall sft, In sft l -> isDue d1 sft = false -> isDue d2 sft = true ->
                           0 <= netFeeAmount sft).
  { intros sft Hin. apply Hnet. right. exact Hin. }
  destruct (isDue d1 x) eqn:E1.
  - rewrite (isDue_later d1 d2 x Hle E1).
    apply IH; [exact Hl|apply unrounded_round|].
    unfold Js.add, Binary64.add. apply round_mono. lra.
  - destruct (isDue d2 x) eqn:E2.
    + apply IH; [exact Hl|exact Hu|].
      assert (Hn : 0 <= netFeeAmount x) by (apply Hnet; [left; reflexivity|exact E1|exact E2]).
      unfold unrounded in Hu. rewrite <- Hu.
      unfold Js.add, Binary64.add. apply round_mono. lra.
    + apply IH; assumption.
Qed.

(** C5, as the pages have it.  For a fixed list of assignments and reference
    instants [d1 <= d2], the due amount at [d1] is at most the due amount at
    [d2], provided the assignments that become due in between have a
    non-negative net amount (discount at most the current default amount). *)
Theorem due_fees_monotone (sfts : list SftJoined) (d1 d2 : Z) :
  (d1 <= d2)%Z ->
  (forall sft, In sft sfts -> isDue d1 sft = false -> isDue d2 sft = true ->
               0 <= netFeeAmount sft) ->
  due_fees_this_moment d1 sfts <= due_fees_this_moment d2 sfts.
Proof.
  intros Hle Hnet. unfold due_fees_this_moment.
  apply due_fold_mono; [exact Hle|exact Hnet|reflexivity|lra].
Qed.
End Due.

(** The scenario of the specification: with A scheduled for 2024-01-01 and B
    for 2099-01-01, only the net amount of A is due on 2025-01-01. *)
Lemma due_scenario :
  @due_fees_this_moment Runtime.dates day_2025_01_01 feesAB == 4500.
Proof. vm_compute. reflexivity. Qed.

(** Five and a half hours ahead of UTC, a fee of 5000 scheduled for
    2025-01-01 is not due at midnight of that day. *)
Lemma due_date_comparison_witness :
  @due_fees_this_moment Runtime.dates (localMidnight 20089 19800000) [feeOfTheDay] = 0
  /\ @due_fees_this_moment Runtime.dates (localMidnight 20089 0) [feeOfTheDay] == 5000.
Proof.
  split; [|vm_compute; reflexivity].
  refine (proj2 (proj2 (@due_date_comparison Runtime.dates feeOfTheDay
                          (catalogFee "A" 5000 (Some "2025-01-01")) "2025-01-01"
                          20089 20089 19800000 eq_refl eq_refl _ _ _)) _ eq_refl).
  - discriminate.
  - vm_compute. reflexivity.
  - unfold msPerDay. lia.
  - lia.
Defined.

(** The amount counted as due is the current amount of the catalog: for an
    assignment made at 5000 whose fee type was raised to 6000 afterwards, the
    ledger counts 6000, not the stored net amount of 5000. *)
Lemma due_uses_catalog_amount :
  @due_fees_this_moment Runtime.dates day_2025_01_01 [raisedFee] == 6000
  /\ @spec_computeDue Runtime.dates day_2025_01_01 [raisedFee] == 5000.
Proof. split; vm_compute; reflexivity. Qed.

(** C5 does not hold as stated: an assignment made at 5000 with a discount of
    4000, whose fee type was lowered to 3000, brings the due amount from 0
    down to -1000 when its date passes. *)
Lemma due_not_monotone_counterexample :
  (day_2023_01_01 <= day_2025_01_01)%Z
  /\ @due_fees_this_moment Runtime.dates day_2023_01_01 [loweredFee] == 0
  /\ @due_fees_this_moment Runtime.dates day_2025_01_01 [loweredFee] == -1000
  /\ ~ (@due_fees_this_moment Runtime.dates day_2023_01_01 [loweredFee]
        <= @due_fees_this_moment Runtime.dates day_2025_01_01 [loweredFee]).
Proof.
  split; [vm_compute; discriminate|]. split; [vm_compute; reflexivity|].
  split; [vm_compute; reflexivity|].
  intros Hle. apply Qle_bool_iff in Hle. vm_compute in Hle. discriminate Hle.
Qed.

Lemma due_fees_monotone_witness :
  (day_2023_01_01 <= day_2025_01_01)%Z
  /\ @due_fees_this_moment Runtime.dates day_2023_01_01 feesAB
     <= @due_fees_this_moment Runtime.dates day_2025_01_01 feesAB.
Proof.
  assert (Hle : (day_2023_01_01 <= day_2025_01_01)%Z) by (vm_compute; discriminate).
  split; [exact Hle|].
  apply (@due_fees_monotone Runtime.dates feesAB day_2023_01_01 day_2025_01_01 Hle).
  intros sft [<-|[<-|[]]] _ _; vm_compute; discriminate.
Defined.

(** ** The total of a form and the assignments it resolves *)


Lemma sumQ_map_ext {A} (f g : A -> Q) (l : list A) :
  (forall x, In x l -> f x == g x) ->
  Spec.sumQ (List.map f l) == Spec.sumQ (List.map g l).
Proof.
  induction l as [|x l IH]; intros Hfg; simpl; [reflexivity|].
  rewrite (Hfg x (or_introl eq_refl)).
  rewrite IH; [reflexivity|]. intros y Hy. apply Hfg. right. exact Hy.
Qed.

Lemma eqStr_true (a b : string) : Db.eqStr a b = true <-> a = b.
Proof. unfold Db.eqStr. apply bool_decide_eq_true. Qed.

Lemma eqStr_false (a b : string) : Db.eqStr a b = false <-> a <> b.
Proof. unfold Db.eqStr. apply bool_decide_eq_false. Qed.

Lemma includes_In (l : list string) (x : string) : Js.includes l x = true <-> In x l.
Proof.
  unfold Js.includes. rewrite bool_decide_eq_true. apply list_elem_of_In.
Qed.

Lemma filter_none {A} (p : A -> bool) (l : list A) :
  (forall x, In x l -> p x = false) -> List.filter p l = [].
Proof.
  induction l as [|x l IH]; intros Hp; simpl; [reflexivity|].
  rewrite (Hp x (or_introl eq_refl)). apply IH. intros y Hy. apply Hp. right. exact Hy.
Qed.

Lemma filter_all {A} (p : A -> bool) (l : list A) :
  (forall x, In x l -> p x = true) -> List.filter p l = l.
Proof.
  induction l as [|x l IH]; intros Hp; simpl; [reflexivity|].
  rewrite (Hp x (or_introl eq_refl)). f_equal. apply IH.
  intros y Hy. apply Hp. right. exact Hy.
Qed.

Lemma filter_idem {A} (p : A -> bool) (l : list A) :
  List.filter p (List.filter p l) = List.filter p l.
Proof.
  apply filter_all. intros x Hx. apply filter_In in Hx. exact (proj2 Hx).
Qed.

Lemma filter_of_rest {A} (p : A -> bool) (l : list A) :
  List.filter p (List.filter (fun x => negb (p x)) l) = [].
Proof.
  apply filter_none. intros x Hx. apply filter_In in Hx.
  destruct Hx as [_ Hx]. apply negb_true_iff in Hx. exact Hx.
Qed.

Section Resolved.
Import Db.
Variable types : list FeeTypeRow.
Variable sel : list string.
Variable adj : gmap string FeeAdjustment.
Hypothesis types_distinct : List.NoDup (List.map ft_id types).
Hypothesis sel_distinct : List.NoDup sel.
Hypothesis sel_listed : forall id, In id sel -> In id (List.map ft_id types).



End Resolved.








(** The scenario of the specification: A at 5000 less 500 and B at 2000 give a
    total of 6500; payments of 3000 and 2000 leave the student partially paid
    with a balance of 1500. *)
Lemma registration_scenario :
  Registration.totalFees regState == 6500
  /\ totalPaidOf samplePayments == 5000
  /\ Ledger.getDynamicStatus ViewTotal (ledgerRow 6500 5000) = Partially_paid
  /\ Ledger.balance ViewTotal (ledgerRow 6500 5000) == 1500.
Proof. repeat split; vm_compute; reflexivity. Qed.






(** ** What a successful submission writes *)

Section Submission.
Import Db.
Import Registration.

Lemma insertFeeLinks_links (st : State) (school sid : string) (db : Store) :
  student_fee_types (insertFeeLinks st school sid db)
  = student_fee_types db ++ feeLinks st school sid.
Proof.
  unfold insertFeeLinks, feeLinks.
  destruct (selectedFeeTypeIds st); simpl; [rewrite app_nil_r|]; reflexivity.
Qed.

Lemma insertFeeLinks_students (st : State) (school sid : string) (db : Store) :
  students (insertFeeLinks st school sid db) = students db.
Proof. unfold insertFeeLinks. destruct (selectedFeeTypeIds st); reflexivity. Qed.

(** The tables after a submission that succeeded. *)
Lemma handleSubmit_inv (new_id : string) (schoolId : option string)
    (st : State) (db db' : Store) :
  handleSubmit new_id schoolId st db = (Succeeded, db') ->
  let school := Js.strOr schoolId EmptyString in
  match editStudentId st with
  | Some eid =>
      (exists s0, In s0 (students db) /\ isTarget school eid s0 = true)
      /\ students db'
         = List.map (fun s => if isTarget school eid s then coreOver st school s else s)
             (students db)
      /\ student_fee_types db'
         = List.filter (fun r => negb (isTargetLink school eid r)) (student_fee_types db)
           ++ feeLinks st school eid
  | None =>
      students db' = students db ++ [coreNew st school new_id]
      /\ student_fee_types db' = student_fee_types db ++ feeLinks st school new_id
  end.
Proof.
  unfold handleSubmit.
  destruct (negb (Js.truthyStr schoolId)); [discriminate|].
  destruct (Js.isEmpty (Js.trim (name st))); [discriminate|].
  destruct (Js.isEmpty (Js.trim (rollNo st))); [discriminate|].
  destruct (Js.isEmpty (selectedClassId st)); [discriminate|].
  destruct (Js.isEmpty (academicYear st)); [discriminate|].
  cbv zeta. destruct (editStudentId st) as [eid|].
  - destruct (single (List.filter (isTarget (Js.strOr schoolId EmptyString) eid) (students db)))
      as [s0|] eqn:Es; [|discriminate].
    intros Heq. injection Heq as <-.
    rewrite insertFeeLinks_links, insertFeeLinks_students. simpl.
    split; [|split; reflexivity].
    exists s0. apply filter_In.
    unfold single in Es.
    destruct (List.filter (isTarget (Js.strOr schoolId EmptyString) eid) (students db))
      as [|x [|y l]] eqn:Ef; try discriminate.
    injection Es as ->. left. reflexivity.
  - intros Heq. injection Heq as <-.
    rewrite insertFeeLinks_links, insertFeeLinks_students. simpl.
    split; reflexivity.
Qed.

(** The outcome of a submission does not depend on the selected fee types
    nor on the discounts entered. *)
Lemma outcome_ignores_fees (new_id : string) (schoolId : option string)
    (st : State) (sel : list string) (adj : gmap string FeeAdjustment) (db : Store) :
  fst (handleSubmit new_id schoolId (setFees st sel adj) db)
  = fst (handleSubmit new_id schoolId st db).
Proof.
  unfold handleSubmit, setFees. simpl.
  destruct (negb (Js.truthyStr schoolId)); [reflexivity|].
  destruct (Js.isEmpty (Js.trim (name st))); [reflexivity|].
  destruct (Js.isEmpty (Js.trim (rollNo st))); [reflexivity|].
  destruct (Js.isEmpty (selectedClassId st)); [reflexivity|].
  destruct (Js.isEmpty (academicYear st)); [reflexivity|].
  destruct (editStudentId st) as [eid|]; [|reflexivity].
  destruct (single (List.filter (isTarget (Js.strOr schoolId EmptyString) eid) (students db)));
    reflexivity.
Qed.

(** Every selected id gets its row. *)
(** A submission goes through with a class chosen only. *)
Lemma handleSubmit_class (new_id : string) (schoolId : option string)
    (st : State) (db db' : Store) :
  handleSubmit new_id schoolId st db = (Succeeded, db') ->
  Js.isEmpty (selectedClassId st) = false.
Proof.
  unfold handleSubmit.
  destruct (negb (Js.truthyStr schoolId)); [discriminate|].
  destruct (Js.isEmpty (Js.trim (name st))); [discriminate|].
  destruct (Js.isEmpty (Js.trim (rollNo st))); [discriminate|].
  destruct (Js.isEmpty (selectedClassId st)); [discriminate|]. reflexivity.
Qed.

Lemma handleSubmit_stores_link (new_id : string) (schoolId : option string)
    (st : State) (db db' : Store) (id : string) :
  handleSubmit new_id schoolId st db = (Succeeded, db') ->
  In id (selectedFeeTypeIds st) ->
  exists r,
    In r (student_fee_types db')
    /\ sft_student_id r = default new_id (editStudentId st)
    /\ sft_fee_type_id r = id
    /\ sft_assigned_amount r
       = Some (Js.jsOr (Js.find (fun ft => eqStr (ft_id ft) id)
                          (filteredFeeTypesForClass st) ≫= ft_default_amount) 0)
    /\ sft_discount r = Some (discountOf (feeAdjustments st) id).
Proof.
  intros Hok Hin. apply handleSubmit_inv in Hok. cbv zeta in Hok.
  assert (Hrow : forall sid,
            In {| sft_student_id := sid;
                  sft_fee_type_id := id;
                  sft_school_id := Some (Js.strOr schoolId EmptyString);
                  sft_assigned_amount :=
                    Some (Js.jsOr (Js.find (fun ft => eqStr (ft_id ft) id)
                                     (filteredFeeTypesForClass st)
                                   ≫= ft_default_amount) 0);
                  sft_discount := Some (discountOf (feeAdjustments st) id);
                  sft_discount_description := descriptionOf (feeAdjustments st) id |}
               (feeLinks st (Js.strOr schoolId EmptyString) sid)).
  { intros sid. unfold feeLinks. apply in_map_iff. exists id.
    split; [reflexivity|exact Hin]. }
  destruct (editStudentId st) as [eid|]; simpl.
  - destruct Hok as (_ & _ & ->). eexists. split.
    + apply in_or_app. right. exact (Hrow eid).
    + repeat split.
  - destruct Hok as (_ & ->). eexists. split.
    + apply in_or_app. right. exact (Hrow new_id).
    + repeat split.
Qed.
End Submission.

(** ** Selections outside the list of the class *)

Section Unlisted.
Import Db.
Import StudentPage.

(** The tables after an update that succeeded, and when an update
    succeeds. *)
Lemma handleUpdateStudent_inv (studentID : string) (st : State) (db db' : Store) :
  handleUpdateStudent studentID st db = (Succeeded, db') ->
  students db'
  = List.map (fun s => if eqStr (s_id s) studentID then updated st s else s) (students db)
  /\ student_fee_types db'
     = List.filter (fun r => negb (eqStr (sft_student_id r) studentID))
         (student_fee_types db)
       ++ newFeeLinks st studentID.
Proof.
  unfold handleUpdateStudent.
  destruct (_ || _ || _ || _); [discriminate|].
  destruct (_ && _); [discriminate|].
  intros Heq. injection Heq as <-. split; reflexivity.
Qed.

Lemma update_succeeds (studentID : string) (st : State) (db : Store) :
  fst (handleUpdateStudent studentID st db) = Succeeded <->
  blank (name (editForm st)) = false /\ blank (roll_no (editForm st)) = false
  /\ Js.truthyStr (class_id (editForm st)) = true
  /\ blank (academic_year (editForm st)) = false
  /\ (editSelectedFeeTypeIds st = [] -> filteredFeeTypesForEdit st = []).
Proof.
  unfold handleUpdateStudent.
  destruct (blank (name (editForm st))); simpl; [split; [discriminate|intuition discriminate]|].
  destruct (blank (roll_no (editForm st))); simpl;
    [split; [discriminate|intuition discriminate]|].
  destruct (Js.truthyStr (class_id (editForm st))); simpl;
    [|split; [discriminate|intuition discriminate]].
  destruct (blank (academic_year (editForm st))); simpl;
    [split; [discriminate|intuition discriminate]|].
  destruct (editSelectedFeeTypeIds st) as [|i sel];
    destruct (filteredFeeTypesForEdit st) as [|f types]; simpl; split;
    try discriminate; try (intros _; repeat split; congruence).
  intros (_ & _ & _ & _ & Hempty). specialize (Hempty eq_refl). discriminate.
Qed.

Lemma total_fees_skips_unlisted (st : State) (id : string) :
  ~ In id (List.map ft_id (filteredFeeTypesForEdit st)) ->
  total_fees st
  = total_fees (StudentView.setFees st
                  (List.filter (fun fid => negb (eqStr fid id)) (editSelectedFeeTypeIds st))
                  (editFeeAdjustments st)).
Proof.
  intros Hnot. unfold total_fees, applicableFeeTypes, StudentView.setFees. simpl. f_equal.
  apply filter_ext_in. intros ft Hft.
  assert (Hne : ft_id ft <> id).
  { intros Heq. apply Hnot. rewrite <- Heq. apply in_map. exact Hft. }
  destruct (Js.includes (editSelectedFeeTypeIds st) (ft_id ft)) eqn:E1.
  - symmetry. apply includes_In. apply filter_In. split.
    + apply includes_In. exact E1.
    + apply negb_true_iff. apply eqStr_false. exact Hne.
  - symmetry. apply not_true_is_false. intros E2.
    apply includes_In in E2. apply filter_In in E2.
    destruct E2 as [E2 _]. apply includes_In in E2. congruence.
Qed.

(** C6, as the student page has it.  Opening the edit form ticks every fee
    type the student is linked to, listed for the class or not.  A ticked id
    that is not among the fee types listed for the class is not refused:
    when the update succeeds the id gets its row again, without an
    [assigned_amount] and with the discount kept for it, it adds nothing to
    the total, and the update succeeds with any other non-empty selection
    as well. *)
Theorem unlisted_selection_is_stored (studentID : string) (st : State)
    (db db' : Store) (id : string) :
  In id (editSelectedFeeTypeIds st) ->
  ~ In id (List.map ft_id (filteredFeeTypesForEdit st)) ->
  handleUpdateStudent studentID st db = (Succeeded, db') ->
  (exists r,
     In r (student_fee_types db')
     /\ sft_student_id r = studentID
     /\ sft_fee_type_id r = id
     /\ sft_assigned_amount r = None
     /\ sft_discount r = Some (discountOf (editFeeAdjustments st) id))
  /\ (forall s, In s (students db') -> s_id s = studentID ->
        s_total_fees s
        = Some (total_fees
                  (StudentView.setFees st
                     (List.filter (fun fid => negb (eqStr fid id))
                        (editSelectedFeeTypeIds st))
                     (editFeeAdjustments st))))
  /\ (forall sel adj, sel <> [] ->
        fst (handleUpdateStudent studentID (StudentView.setFees st sel adj) db)
        = Succeeded)
  /\ (forall db0 student,
        In id (List.map (fun j => sft_fee_type_id (sft_row j))
                 (StudentView.listedLinks student)) ->
        In id (editSelectedFeeTypeIds (StudentView.openedForm db0 student))).
Proof.
  intros Hin Hnot Hok.
  destruct (handleUpdateStudent_inv studentID st db db' Hok) as [Hst Hlinks].
  split; [|split; [|split]].
  - exists {| sft_student_id := studentID; sft_fee_type_id := id;
              sft_school_id := None; sft_assigned_amount := None;
              sft_discount := Some (discountOf (editFeeAdjustments st) id);
              sft_discount_description := descriptionOf (editFeeAdjustments st) id |}.
    split; [|repeat split].
    rewrite Hlinks. apply in_or_app. right. unfold newFeeLinks.
    apply in_map_iff. exists id. split; [reflexivity|exact Hin].
  - intros s Hs Hid. rewrite Hst in Hs. apply in_map_iff in Hs.
    destruct Hs as (s0 & Heq & _).
    destruct (eqStr (s_id s0) studentID) eqn:E.
    + subst s. cbn [updated s_total_fees]. f_equal.
      apply total_fees_skips_unlisted. exact Hnot.
    + subst s. apply eqStr_false in E. contradiction.
  - intros sel adj Hsel.
    assert (Hfst : fst (handleUpdateStudent studentID st db) = Succeeded)
      by (rewrite Hok; reflexivity).
    apply update_succeeds in Hfst. destruct Hfst as (H1 & H2 & H3 & H4 & _).
    apply update_succeeds. unfold StudentView.setFees. simpl.
    repeat split; try assumption. intros Hempty. contradiction.
  - intros db0 student Hlinked. exact Hlinked.
Qed.
End Unlisted.

(** C6 does not hold as stated.  A and B are assigned to s1 while both are
    listed for its class; B is then taken off the class on the fee type page.
    When the edit form of s1 is opened again, only A is listed and A and B
    are ticked; saving succeeds, B is assigned again, and the total holds A
    alone. *)
Lemma unlisted_selection_counterexample :
  (fun '(st2, db2) =>
     (List.map Db.ft_id (StudentPage.filteredFeeTypesForEdit st2),
      StudentPage.editSelectedFeeTypeIds st2,
      (fun r => (fst r,
                 List.map Db.sft_fee_type_id (Db.student_fee_types (snd r)),
                 List.map Db.s_total_fees (Db.students (snd r))))
      <$> StudentView.submit "s1" st2 db2))
  <$> unlinkedB
  = Some (["A"], ["A"; "B"], Some (Succeeded, ["A"; "B"], [Some 5000])).
Proof. vm_compute. reflexivity. Qed.

Lemma unlisted_selection_is_stored_witness :
  match unlinkedB with
  | Some (st2, db2) =>
      exists r,
        In r (Db.student_fee_types (snd (StudentPage.handleUpdateStudent "s1" st2 db2)))
        /\ Db.sft_student_id r = "s1"
        /\ Db.sft_fee_type_id r = "B"
        /\ Db.sft_assigned_amount r = None
        /\ Db.sft_discount r = Some (discountOf (StudentPage.editFeeAdjustments st2) "B")
  | None => False
  end.
Proof.
  destruct unlinkedB as [[st2 db2]|] eqn:E; [|vm_compute in E; discriminate E].
  vm_compute in E. injection E as Hst Hdb.
  refine (proj1 (unlisted_selection_is_stored "s1" st2 db2 _ "B" _ _ _)); subst st2 db2.
  - simpl. auto.
  - simpl. intuition discriminate.
  - vm_compute. reflexivity.
Defined.

(** ** The bounds of a discount *)

Section Discounts.
Import Db.
Import Registration.

Lemma find_some_listed (types : list FeeTypeRow) (id : string) (ft : FeeTypeRow) :
  Js.find (fun f => eqStr (ft_id f) id) types = Some ft -> In ft types /\ ft_id ft = id.
Proof.
  unfold Js.find. intros Hfind. apply List.find_some in Hfind.
  destruct Hfind as [Hin Hid]. apply eqStr_true in Hid. split; assumption.
Qed.

Lemma jsOr_nonneg (m : Q) : 0 <= m -> 0 <= Js.jsOr (Some m) 0.
Proof. intros Hm. unfold Js.jsOr. destruct (Qeq_bool m 0); lra. Qed.

(** What the browser lets through for a ticked fee type of the list. *)
Lemma discountInputValid_bounds (adj : gmap string FeeAdjustment) (ft : FeeTypeRow) :
  discountInputValid adj ft = true ->
  0 <= discountOf adj (ft_id ft)
  /\ (forall m, ft_default_amount ft = Some m -> 0 <= m ->
                discountOf adj (ft_id ft) <= Js.jsOr (Some m) 0).
Proof.
  unfold discountInputValid. cbv zeta.
  destruct (Qeq_bool (discountOf adj (ft_id ft)) 0) eqn:E0.
  - apply Qeq_bool_iff in E0. intros _. split; [lra|].
    intros m _ Hm. apply (Qle_trans _ 0); [|exact (jsOr_nonneg m Hm)].
    rewrite E0. apply Qle_refl.
  - intros Hv. apply andb_true_iff in Hv. destruct Hv as [Hv Hmax].
    apply andb_true_iff in Hv. destruct Hv as [_ Hmin].
    apply Qle_bool_iff in Hmin. split; [exact Hmin|].
    intros m Hm _. rewrite Hm in Hmax. apply Qle_bool_iff in Hmax.
    unfold Js.jsOr. destruct (Qeq_bool m 0) eqn:Em; [|exact Hmax].
    apply Qeq_bool_iff in Em.
    assert (Hz : discountOf adj (ft_id ft) == 0) by lra.
    apply Qeq_bool_iff in Hz. congruence.
Qed.

(** C7, as the registration page has it.  [handleSubmit] compares no
    discount with an amount: no adjustment changes its outcome.  The bound
    is that of the discount input, which the browser checks before the
    handler runs: for a ticked fee type of the list the stored discount is
    the one entered, 0 when none was entered, it is not negative, and it is
    at most the stored [assigned_amount] when the fee type has a
    [default_amount] that is not negative; a discount equal to the amount
    passes. *)
Theorem discount_checked_by_input_only (thisYear : Z) (new_id : string)
    (schoolId : option string)
    (st : State) (db db' : Store) (id : string) (ft : FeeTypeRow) :
  In id (selectedFeeTypeIds st) ->
  Js.find (fun f => eqStr (ft_id f) id) (filteredFeeTypesForClass st) = Some ft ->
  submit thisYear new_id schoolId st db = Some (Succeeded, db') ->
  (exists r,
     In r (student_fee_types db')
     /\ sft_student_id r = default new_id (editStudentId st)
     /\ sft_fee_type_id r = id
     /\ sft_assigned_amount r = Some (Js.jsOr (ft_default_amount ft) 0)
     /\ sft_discount r = Some (discountOf (feeAdjustments st) id))
  /\ 0 <= discountOf (feeAdjustments st) id
  /\ (forall m, ft_default_amount ft = Some m -> 0 <= m ->
                discountOf (feeAdjustments st) id <= Js.jsOr (Some m) 0)
  /\ (feeAdjustments st !! id = None -> discountOf (feeAdjustments st) id = 0)
  /\ (forall adj, fst (handleSubmit new_id schoolId
                         (setFees st (selectedFeeTypeIds st) adj) db) = Succeeded).
Proof.
  intros Hin Hfind. unfold submit.
  destruct (formValid thisYear (fetchClassesForSchool db schoolId) st) eqn:Hvalid;
    [|discriminate].
  intros Hok. injection Hok as Hok.
  destruct (find_some_listed _ _ _ Hfind) as [Hft Hid].
  assert (Hinput : discountInputValid (feeAdjustments st) ft = true).
  { unfold formValid in Hvalid. apply andb_true_iff in Hvalid.
    destruct Hvalid as [_ Hall].
    rewrite (handleSubmit_class _ _ _ _ _ Hok) in Hall. cbn [orb] in Hall.
    rewrite forallb_forall in Hall.
    specialize (Hall ft Hft). rewrite Hid in Hall.
    rewrite (proj2 (includes_In _ _) Hin) in Hall. exact Hall. }
  destruct (discountInputValid_bounds _ _ Hinput) as [Hmin Hmax]. rewrite Hid in Hmin, Hmax.
  split; [|split; [exact Hmin|split; [exact Hmax|split]]].
  - destruct (handleSubmit_stores_link new_id schoolId st db db' id Hok Hin)
      as (r & Hr & Hsid & Hfid & Hamt & Hdisc).
    exists r. repeat split; try assumption. rewrite Hamt, Hfind. reflexivity.
  - intros Hnone. unfold discountOf. rewrite Hnone. reflexivity.
  - intros adj. rewrite outcome_ignores_fees, Hok. reflexivity.
Qed.
End Discounts.

(** C7 does not hold as stated: for the fee type N, which has no default
    amount, the discount input has no upper bound; a discount of 100 is
    submitted and stored next to an assigned amount of 0, and the student's
    total becomes -100. *)
Lemma over_discount_counterexample :
  (fun r => (fst r,
             List.map (fun l => (Db.sft_fee_type_id l, Db.sft_assigned_amount l,
                                 Db.sft_discount l))
               (Db.student_fee_types (snd r)),
             List.map (fun s => (Db.s_id s, Db.s_total_fees s)) (Db.students (snd r))))
  <$> Registration.submit 2025 "s2" (Some "school-1") regNoAmount noAmountDb
  = Some (Succeeded, [("N", Some 0, Some 100)],
          [("s1", Some 0); ("s2", Some (- (100))%Q)]).
Proof. vm_compute. reflexivity. Qed.

Lemma discount_checked_by_input_only_witness :
  exists r,
    In r (Db.student_fee_types
            (snd (Registration.handleSubmit "s2" (Some "school-1") regAB abDb)))
    /\ Db.sft_student_id r = "s2"
    /\ Db.sft_fee_type_id r = "A"
    /\ Db.sft_assigned_amount r = Some (Js.jsOr (Some 5000) 0)
    /\ Db.sft_discount r = Some (discountOf (Registration.feeAdjustments regAB) "A").
Proof.
  refine (proj1 (discount_checked_by_input_only 2025 "s2" (Some "school-1") regAB abDb _
                   "A" (catalogFee "A" 5000 (Some "2024-01-01")) _ _ _)).
  - vm_compute. auto.
  - vm_compute. reflexivity.
  - vm_compute. reflexivity.
Defined.

(** ** The cached total and the stored links *)

Section CachedTotal.
Import Db.

Lemma feeLinks_target (st : Registration.State) (school sid : string) :
  forall r, In r (Registration.feeLinks st school sid) ->
            Registration.isTargetLink school sid r = true.
Proof.
  intros r Hr. unfold Registration.feeLinks in Hr. apply in_map_iff in Hr.
  destruct Hr as (id & <- & _). unfold Registration.isTargetLink. simpl.
  rewrite (proj2 (eqStr_true sid sid) eq_refl). apply eqStr_true. reflexivity.
Qed.

Lemma newFeeLinks_target (st : StudentPage.State) (sid : string) :
  forall r, In r (StudentPage.newFeeLinks st sid) -> eqStr (sft_student_id r) sid = true.
Proof.
  intros r Hr. unfold StudentPage.newFeeLinks in Hr. apply in_map_iff in Hr.
  destruct Hr as (id & <- & _). simpl. apply eqStr_true. reflexivity.
Qed.


(** The student page: after a successful update every row of the student
    carries the total of the form, and the student's links are those of the
    form. *)
Lemma student_page_writes (studentID : string) (st : StudentPage.State)
    (db db' : Store) :
  StudentPage.handleUpdateStudent studentID st db = (Succeeded, db') ->
  (forall s, In s (students db') -> s_id s = studentID ->
             s_total_fees s = Some (StudentPage.total_fees st))
  /\ List.filter (fun r => eqStr (sft_student_id r) studentID) (student_fee_types db')
     = StudentPage.newFeeLinks st studentID.
Proof.
  unfold StudentPage.handleUpdateStudent.
  destruct (_ || _ || _ || _); [discriminate|].
  destruct (_ && _); [discriminate|].
  intros Heq. injection Heq as <-. simpl. split.
  - intros s Hs Hid. apply in_map_iff in Hs. destruct Hs as (s1 & Heq & _).
    destruct (eqStr (s_id s1) studentID) eqn:E; subst s; [reflexivity|].
    apply eqStr_false in E. contradiction.
  - rewrite List.filter_app.
    rewrite (filter_of_rest (fun r => eqStr (sft_student_id r) studentID)). simpl.
    apply filter_all. apply newFeeLinks_target.
Qed.
End CachedTotal.





(** ** Assigned amounts and later changes to the catalog *)

Section Snapshot.
Context `{JsParse}.
Import Db.


End Snapshot.



(** ** Tenant scoping of the reads and writes *)

Lemma sort_perm {A} (cmp : A -> A -> Z) (l : list A) : Permutation (Js.sort cmp l) l.
Proof.
  assert (Hins : forall x s, Permutation (Js.insertSorted cmp x s) (x :: s)).
  { intros x s. induction s as [|y s IH]; simpl; [reflexivity|].
    destruct (0 <? cmp x y)%Z; [|reflexivity].
    rewrite IH. apply perm_swap. }
  induction l as [|x l IH]; simpl; [reflexivity|].
  rewrite Hins. constructor. exact IH.
Qed.

(** The pages that carry the tenant context read students of the caller's
    school only. *)
Lemma scoped_reads_own_school `{Js.JsDate} (db : Db.Store) (schoolId : option string)
    (view : LedgerView) (selectedClassId : string) (today : Z) :
  (forall s, In s (Registration.fetchStudentsForSchool db schoolId) ->
             Db.s_school_id (Db.s_row s) = Some (Js.strOr schoolId EmptyString)
             /\ In (Db.s_row s) (Db.students db))
  /\ (forall s, In s (Ledger.fetchStudentsAndDetails db schoolId view selectedClassId today) ->
                Db.s_school_id (Ledger.row s) = Some (Js.strOr schoolId EmptyString)
                /\ In (Ledger.row s) (Db.students db)).
Proof.
  assert (Hopt : forall (o : option string) (b : string),
            Db.eqOpt o b = true -> o = Some b).
  { intros [x|] b Hb; simpl in Hb; [|discriminate].
    apply eqStr_true in Hb. congruence. }
  split.
  - intros s Hs. unfold Registration.fetchStudentsForSchool in Hs.
    destruct (negb (Js.truthyStr schoolId)); [contradiction|].
    apply in_map_iff in Hs. destruct Hs as (r & <- & Hr). simpl.
    unfold Db.orderBy in Hr.
    apply (Permutation_in _ (sort_perm _ _)) in Hr. apply filter_In in Hr.
    destruct Hr as [Hr Hschool]. split; [exact (Hopt _ _ Hschool)|exact Hr].
  - intros s Hs. unfold Ledger.fetchStudentsAndDetails in Hs.
    destruct (negb (Js.truthyStr schoolId)); [contradiction|].
    cbv zeta in Hs. apply in_map_iff in Hs. destruct Hs as (r & <- & Hr). simpl.
    unfold Db.orderBy in Hr.
    apply (Permutation_in _ (sort_perm _ _)) in Hr.
    assert (Hbase : In r (List.filter
                            (fun s => Db.eqOpt (Db.s_school_id s) (Js.strOr schoolId EmptyString))
                            (Db.students db))).
    { destruct view; [|exact Hr].
      destruct (Js.isEmpty selectedClassId); [exact Hr|].
      apply filter_In in Hr. exact (proj1 Hr). }
    apply filter_In in Hbase. destruct Hbase as [Hin Hschool].
    split; [exact (Hopt _ _ Hschool)|exact Hin].
Qed.

(** C1 at a store shared by two schools.  The pages with the tenant context
    list the student of school-1 only; the payment page and the ledger
    without tenant context list the students of both schools, the payment
    page records a payment for the student of the other school, and the
    student page deletes the other school's student together with its fee
    links. *)
Theorem unscoped_pages_cross_tenants :
  List.map (fun s => Db.s_id (Db.s_row s))
    (Registration.fetchStudentsForSchool twoSchools (Some "school-1")) = ["s1"]
  /\ List.map (fun s => Db.s_id (Ledger.row s))
       (@Ledger.fetchStudentsAndDetails Runtime.dates twoSchools (Some "school-1")
          ViewSchool EmptyString day_2025_01_01) = ["s1"]
  /\ List.map (fun s => (Db.s_id s, Db.s_school_id s))
       (RecordPayment.loadStudents twoSchools EmptyString)
     = [("s1", Some "school-1"); ("s2", Some "school-2")]
  /\ List.map Sfms2Ledger.id
       (@Sfms2Ledger.fetchStudents Runtime.dates twoSchools EmptyString day_2025_01_01)
     = ["s1"; "s2"]
  /\ List.map (fun p => (Db.p_student_id p, Db.p_school_id p))
       (Db.payments
          (snd (@RecordPayment.handleSubmit Runtime.numbers "2025-01-01T00:00:00.000Z"
                  "R-1" payS2 twoSchools)))
     = [("s2", None)]
  /\ List.map Db.s_id (Db.students (StudentPage.handleDeleteStudent "s2" twoSchools))
     = ["s1"]
  /\ List.map Db.sft_student_id
       (Db.student_fee_types (StudentPage.handleDeleteStudent "s2" twoSchools))
     = ["s1"].
Proof. repeat split; vm_compute; reflexivity. Qed.

(** * Further properties of the pages *)

(** ** The school overview of the ledger *)

Lemma distinctFrom_In (seen l : list string) (x : string) :
  In x (JsStr.distinctFrom seen l) <-> In x l /\ ~ In x seen.
Proof.
  revert seen. induction l as [|y l IH]; intros seen; simpl.
  - tauto.
  - destruct (Js.includes seen y) eqn:E.
    + apply includes_In in E. rewrite IH. split.
      * intros [Hin Hns]. split; [right; exact Hin|exact Hns].
      * intros [[->|Hin] Hns]; [contradiction|]. split; assumption.
    + assert (Hy : ~ In y seen).
      { intros Hin. apply includes_In in Hin. congruence. }
      simpl. rewrite IH. simpl. split.
      * intros [->|[Hin Hns]]; [split; [left; reflexivity|exact Hy]|].
        split; [right; exact Hin|]. intros Hs. apply Hns. right. exact Hs.
      * intros [[->|Hin] Hns]; [left; reflexivity|].
        destruct (string_dec y x) as [->|Hne]; [left; reflexivity|].
        right. split; [exact Hin|]. intros [Heq|Hs]; [contradiction|contradiction].
Qed.

Lemma distinctFrom_NoDup (seen l : list string) : List.NoDup (JsStr.distinctFrom seen l).
Proof.
  revert seen. induction l as [|y l IH]; intros seen; simpl; [constructor|].
  destruct (Js.includes seen y); [apply IH|].
  constructor; [|apply IH].
  intros Hin. apply distinctFrom_In in Hin. destruct Hin as [_ Hns].
  apply Hns. left. reflexivity.
Qed.

Section Overview.
Context {S : Type}.
Variable class_name : S -> string.
Variable basis paid : S -> Js.number.
Variable status : S -> Status.
Variable order : string -> string -> Z.

Lemma classNames_NoDup (students : list S) :
  List.NoDup (classNames class_name order students).
Proof.
  unfold classNames.
  apply (Permutation_NoDup (Permutation_sym (sort_perm _ _))).
  apply distinctFrom_NoDup.
Qed.

Lemma classNames_cover (students : list S) (s : S) :
  In s students -> In (class_name s) (classNames class_name order students).
Proof.
  intros Hin. unfold classNames.
  apply (Permutation_in _ (Permutation_sym (sort_perm _ _))).
  apply distinctFrom_In. split; [apply in_map; exact Hin|intros []].
Qed.

Lemma includes_false (l : list string) (x : string) :
  Js.includes l x = false <-> ~ In x l.
Proof.
  split.
  - intros E Hin. apply includes_In in Hin. congruence.
  - intros Hn. destruct (Js.includes l x) eqn:E; [|reflexivity].
    apply includes_In in E. contradiction.
Qed.

(** What the head of the list adds to the sum taken class by class. *)
Lemma sum_by_class_head (w : S -> Q) (x : S) (l : list S) (ns : list string) :
  List.NoDup ns ->
  Spec.sumQ (List.map
               (fun c => Spec.sumQ (List.map w (groupOf class_name (x :: l) c))) ns)
  == (if Js.includes ns (class_name x) then w x else 0)
     + Spec.sumQ (List.map
                    (fun c => Spec.sumQ (List.map w (groupOf class_name l c))) ns).
Proof.
  induction ns as [|c ns IHn]; intros Hns.
  - cbn [List.map Spec.sumQ]. rewrite (proj2 (includes_false [] _)) by tauto. ring.
  - inversion Hns as [|? ? Hnotin Hns']; subst.
    cbn [List.map Spec.sumQ]. rewrite (IHn Hns').
    unfold groupOf at 1. cbn [List.filter].
    destruct (Db.eqStr (class_name x) c) eqn:E.
    + apply eqStr_true in E. subst c. cbn [List.map Spec.sumQ].
      rewrite (proj2 (includes_false ns _) Hnotin).
      rewrite (proj2 (includes_In (class_name x :: ns) _)) by (left; reflexivity).
      fold (groupOf class_name l (class_name x)). ring.
    + apply eqStr_false in E. fold (groupOf class_name l c).
      destruct (Js.includes ns (class_name x)) eqn:E2.
      * apply includes_In in E2.
        rewrite (proj2 (includes_In (c :: ns) _)) by (right; exact E2). ring.
      * apply includes_false in E2.
        rewrite (proj2 (includes_false (c :: ns) _)); [ring|].
        intros [Heq|Hin]; [apply E; symmetry; exact Heq|contradiction].
Qed.

(** A weight summed class by class is the weight summed over the list. *)
Lemma sum_by_class (w : S -> Q) (names : list string) (students : list S) :
  List.NoDup names ->
  (forall s, In s students -> In (class_name s) names) ->
  Spec.sumQ (List.map (fun c => Spec.sumQ (List.map w (groupOf class_name students c)))
               names)
  == Spec.sumQ (List.map w students).
Proof.
  intros Hnd. induction students as [|x l IH]; intros Hcover.
  - clear Hnd Hcover. induction names as [|c names IHn]; [reflexivity|].
    cbn [List.map Spec.sumQ groupOf List.filter] in *. rewrite IHn. ring.
  - rewrite (sum_by_class_head w x l names Hnd).
    rewrite (proj2 (includes_In _ _)) by (apply Hcover; left; reflexivity).
    rewrite IH by (intros s Hs; apply Hcover; right; exact Hs).
    cbn [List.map Spec.sumQ]. ring.
Qed.

Lemma size_by_class_head (x : S) (l : list S) (ns : list string) :
  List.NoDup ns ->
  list_sum (List.map (fun c => length (groupOf class_name (x :: l) c)) ns)
  = ((if Js.includes ns (class_name x) then 1 else 0)
     + list_sum (List.map (fun c => length (groupOf class_name l c)) ns))%nat.
Proof.
  induction ns as [|c ns IHn]; intros Hns.
  - cbn [List.map list_sum]. rewrite (proj2 (includes_false [] _)) by tauto. reflexivity.
  - inversion Hns as [|? ? Hnotin Hns']; subst.
    cbn [List.map list_sum fold_right]. 
    change (fold_right Nat.add 0%nat
              (List.map (fun c0 => length (groupOf class_name (x :: l) c0)) ns))
      with (list_sum (List.map (fun c0 => length (groupOf class_name (x :: l) c0)) ns)).
    rewrite (IHn Hns').
    unfold groupOf at 1. cbn [List.filter].
    destruct (Db.eqStr (class_name x) c) eqn:E.
    + apply eqStr_true in E. subst c. cbn [length].
      rewrite (proj2 (includes_false ns _) Hnotin).
      rewrite (proj2 (includes_In (class_name x :: ns) _)) by (left; reflexivity).
      fold (groupOf class_name l (class_name x)). unfold list_sum. simpl. lia.
    + apply eqStr_false in E. fold (groupOf class_name l c).
      destruct (Js.includes ns (class_name x)) eqn:E2.
      * apply includes_In in E2.
        rewrite (proj2 (includes_In (c :: ns) _)) by (right; exact E2).
        unfold list_sum. simpl. lia.
      * apply includes_false in E2.
        rewrite (proj2 (includes_false (c :: ns) _)).
        { unfold list_sum. simpl. lia. }
        intros [Heq|Hin]; [apply E; symmetry; exact Heq|contradiction].
Qed.

Lemma size_by_class (names : list string) (students : list S) :
  List.NoDup names ->
  (forall s, In s students -> In (class_name s) names) ->
  list_sum (List.map (fun c => length (groupOf class_name students c)) names)
  = length students.
Proof.
  intros Hnd. induction students as [|x l IH]; intros Hcover.
  - clear Hnd Hcover. induction names as [|c names IHn]; [reflexivity|].
    simpl. exact IHn.
  - rewrite (size_by_class_head x l names Hnd).
    rewrite (proj2 (includes_In _ _)) by (apply Hcover; left; reflexivity).
    rewrite IH by (intros s Hs; apply Hcover; right; exact Hs).
    reflexivity.
Qed.

Lemma status_counts (group : list S) :
  (countStatus status group Unpaid + countStatus status group Partially_paid
   + countStatus status group Paid + countStatus status group No_fees_due)%nat
  = length group.
Proof.
  unfold countStatus. induction group as [|x g IH]; [reflexivity|].
  simpl. destruct (status x); simpl; lia.
Qed.

Lemma magnitude_group (w : S -> Q) (l : list S) (c : string) :
  magnitude (List.map w (groupOf class_name l c)) <= magnitude (List.map w l).
Proof.
  induction l as [|x l IH]; [apply Qle_refl|].
  unfold groupOf in *. cbn [List.filter List.map magnitude fold_right].
  pose proof (Qabs_nonneg (w x)) as Hx.
  destruct (Db.eqStr (class_name x) c); cbn [List.map magnitude fold_right];
    unfold magnitude in IH; lra.
Qed.

Lemma whole_group (w : S -> Q) (l : list S) (c : string) :
  Forall whole (List.map w l) -> Forall whole (List.map w (groupOf class_name l c)).
Proof.
  intros Hw. apply List.Forall_forall. intros y Hy. apply in_map_iff in Hy.
  destruct Hy as (x & <- & Hx). apply filter_In in Hx.
  apply (proj1 (List.Forall_forall _ _) Hw). apply in_map. exact (proj1 Hx).
Qed.

(** The total of a group of whole amounts is their sum. *)
Lemma group_total (w : S -> Q) (l : list S) (c : string) :
  Forall whole (List.map w l) -> magnitude (List.map w l) <= inject_Z (2 ^ 53) ->
  Js.reduceSum w (groupOf class_name l c)
  == Spec.sumQ (List.map w (groupOf class_name l c)).
Proof.
  intros Hw Hb. apply reduceSum_exact. apply sumsExact_whole.
  - exists 0%Z. reflexivity.
  - apply whole_group. exact Hw.
  - pose proof (magnitude_group w l c). assert (E : Qabs 0 == 0) by reflexivity.
    rewrite E. lra.
Qed.

Lemma schoolOverview_sound (students : list S) :
  let rows := schoolOverview class_name basis paid status order students in
  list_sum (List.map groupSize rows) = length students
  /\ (Forall whole (List.map basis students) ->
      magnitude (List.map basis students) <= inject_Z (2 ^ 53) ->
      Spec.sumQ (List.map totalFeesForClass rows) == Spec.sumQ (List.map basis students))
  /\ (Forall whole (List.map paid students) ->
      magnitude (List.map paid students) <= inject_Z (2 ^ 53) ->
      Spec.sumQ (List.map totalPaidForClass rows) == Spec.sumQ (List.map paid students))
  /\ (forall r, In r rows ->
        (studentsUnpaid r + studentsPartial r + studentsPaid r + studentsNoFeesDue r)%nat
        = groupSize r)
  /\ List.NoDup (List.map className rows)
  /\ (forall s, In s students -> In (class_name s) (List.map className rows)).
Proof.
  cbv zeta. unfold schoolOverview. rewrite !List.map_map. simpl.
  pose proof (classNames_NoDup students) as Hnd.
  pose proof (classNames_cover students) as Hcover.
  split; [apply size_by_class; assumption|].
  split.
  { intros Hw Hb. rewrite <- (sum_by_class basis _ students Hnd Hcover).
    apply sumQ_map_ext. intros c _. apply group_total; assumption. }
  split.
  { intros Hw Hb. rewrite <- (sum_by_class paid _ students Hnd Hcover).
    apply sumQ_map_ext. intros c _. apply group_total; assumption. }
  split.
  { intros r Hr. apply in_map_iff in Hr. destruct Hr as (c & <- & _). simpl.
    apply status_counts. }
  rewrite List.map_id. split; [exact Hnd|exact Hcover].
Qed.
End Overview.

(** X1.  The school overview of the ledger, in both copies: every listed
    student falls in exactly one class line, so the group sizes add up to the
    number of students; in each line the four status counts add up to the
    size of the group; no class has two lines and every student's class has
    one.  The class totals of fees and of payments are binary64 sums taken
    group by group: they add up to the totals over the students when the
    amounts are whole and their absolute values add up to at most 2^53. *)
Theorem overview_partitions_students `{Js.JsLocale} (feeViewType : FeeView)
    (students : list Sfms2Ledger.StudentWithPayments)
    (students' : list Ledger.StudentWithDetails) :
  (list_sum (List.map groupSize (sfms2Overview feeViewType students)) = length students
   /\ (forall r, In r (sfms2Overview feeViewType students) ->
         (studentsUnpaid r + studentsPartial r + studentsPaid r + studentsNoFeesDue r)%nat
         = groupSize r)
   /\ List.NoDup (List.map className (sfms2Overview feeViewType students))
   /\ (forall s, In s students ->
         In (Sfms2Ledger.class_name s)
           (List.map className (sfms2Overview feeViewType students)))
   /\ (Forall whole (List.map (Sfms2Ledger.feesForCalc feeViewType) students) ->
       magnitude (List.map (Sfms2Ledger.feesForCalc feeViewType) students)
       <= inject_Z (2 ^ 53) ->
       Spec.sumQ (List.map totalFeesForClass (sfms2Overview feeViewType students))
       == Spec.sumQ (List.map (Sfms2Ledger.feesForCalc feeViewType) students))
   /\ (Forall whole (List.map (fun s => Js.jsOr (Sfms2Ledger.totalPaid s) 0) students) ->
       magnitude (List.map (fun s => Js.jsOr (Sfms2Ledger.totalPaid s) 0) students)
       <= inject_Z (2 ^ 53) ->
       Spec.sumQ (List.map totalPaidForClass (sfms2Overview feeViewType students))
       == Spec.sumQ (List.map (fun s => Js.jsOr (Sfms2Ledger.totalPaid s) 0) students)))
  /\ (list_sum (List.map groupSize (ledgerOverview feeViewType students'))
      = length students'
      /\ (forall r, In r (ledgerOverview feeViewType students') ->
            (studentsUnpaid r + studentsPartial r + studentsPaid r
             + studentsNoFeesDue r)%nat = groupSize r)
      /\ List.NoDup (List.map className (ledgerOverview feeViewType students'))
      /\ (forall s, In s students' ->
            In (Ledger.class_name s)
              (List.map className (ledgerOverview feeViewType students')))
      /\ (Forall whole (List.map (Ledger.feesForCalc feeViewType) students') ->
          magnitude (List.map (Ledger.feesForCalc feeViewType) students')
          <= inject_Z (2 ^ 53) ->
          Spec.sumQ (List.map totalFeesForClass (ledgerOverview feeViewType students'))
          == Spec.sumQ (List.map (Ledger.feesForCalc feeViewType) students'))
      /\ (Forall whole (List.map (fun s => Js.jsOr (Ledger.totalPaid s) 0) students') ->
          magnitude (List.map (fun s => Js.jsOr (Ledger.totalPaid s) 0) students')
          <= inject_Z (2 ^ 53) ->
          Spec.sumQ (List.map totalPaidForClass (ledgerOverview feeViewType students'))
          == Spec.sumQ (List.map (fun s => Js.jsOr (Ledger.totalPaid s) 0) students'))).
Proof.
  split.
  - destruct (schoolOverview_sound Sfms2Ledger.class_name
                (Sfms2Ledger.feesForCalc feeViewType)
                (fun s => Js.jsOr (Sfms2Ledger.totalPaid s) 0)
                (Sfms2Ledger.getDynamicStatus feeViewType) Db.cmpStr students)
      as (H1 & H2 & H3 & H4 & H5 & H6).
    repeat split; assumption.
  - destruct (schoolOverview_sound Ledger.class_name
                (Ledger.feesForCalc feeViewType)
                (fun s => Js.jsOr (Ledger.totalPaid s) 0)
                (Ledger.getDynamicStatus feeViewType)
                (fun a b => Js.localeCompare a b) students')
      as (H1 & H2 & H3 & H4 & H5 & H6).
    repeat split; assumption.
Qed.

(** ** The search box of the ledger *)

Lemma lowerChar_idem (c : ascii) : JsStr.lowerChar (JsStr.lowerChar c) = JsStr.lowerChar c.
Proof. destruct c as [[] [] [] [] [] [] [] []]; reflexivity. Qed.

Lemma toLowerCase_idem (s : string) :
  JsStr.toLowerCase (JsStr.toLowerCase s) = JsStr.toLowerCase s.
Proof.
  induction s as [|c r IH]; simpl; [reflexivity|]. rewrite lowerChar_idem, IH. reflexivity.
Qed.

Lemma includes_empty_term (s : string) : JsStr.includes EmptyString s = true.
Proof. destruct s; reflexivity. Qed.

Lemma empty_includes_nothing (term : string) :
  Js.isEmpty term = false -> JsStr.includes term EmptyString = false.
Proof. destruct term; [discriminate|reflexivity]. Qed.

(** X2.  The search of the ledger, in both copies.  An empty term lists every
    student; folding the case of the term does not change what is listed; a
    student whose name contains the term, case apart, is listed; and the copy
    that guards [roll_no] lists exactly what the unguarded test would. *)
Theorem search_ignores_case (term : string)
    (students : list Sfms2Ledger.StudentWithPayments)
    (students' : list Ledger.StudentWithDetails) :
  sfms2Filtered students EmptyString = students
  /\ filteredStudentsForDisplay students' EmptyString = students'
  /\ sfms2Filtered students (JsStr.toLowerCase term) = sfms2Filtered students term
  /\ filteredStudentsForDisplay students' (JsStr.toLowerCase term)
     = filteredStudentsForDisplay students' term
  /\ (forall s, In s students ->
        JsStr.includes (JsStr.toLowerCase term) (JsStr.toLowerCase (Sfms2Ledger.name s))
        = true ->
        In s (sfms2Filtered students term))
  /\ filteredStudentsForDisplay students' term
     = filteredStudents (fun s => Db.s_name (Ledger.row s))
         (fun s => Db.s_roll_no (Ledger.row s)) Ledger.class_name students' term.
Proof.
  repeat split.
  - unfold sfms2Filtered, filteredStudents. apply filter_all. intros s _.
    unfold matchesTerm. simpl. rewrite includes_empty_term. reflexivity.
  - unfold filteredStudentsForDisplay. apply filter_all. intros s _. reflexivity.
  - unfold sfms2Filtered, filteredStudents. apply filter_ext. intros s.
    unfold matchesTerm. rewrite toLowerCase_idem. reflexivity.
  - unfold filteredStudentsForDisplay. apply filter_ext. intros s.
    unfold ledgerMatches. rewrite toLowerCase_idem. reflexivity.
  - intros s Hin Hname. unfold sfms2Filtered, filteredStudents.
    apply filter_In. split; [exact Hin|]. unfold matchesTerm. cbv zeta.
    rewrite Hname. reflexivity.
  - unfold filteredStudentsForDisplay, filteredStudents. apply filter_ext. intros s.
    unfold ledgerMatches, matchesTerm. cbv zeta.
    destruct (Js.isEmpty (JsStr.toLowerCase term)) eqn:E.
    + rewrite !orb_true_r. reflexivity.
    + rewrite orb_false_r.
      destruct (Js.isEmpty (Db.s_roll_no (Ledger.row s))) eqn:Er; [|reflexivity].
      destruct (Db.s_roll_no (Ledger.row s)); [|discriminate].
      simpl JsStr.toLowerCase. rewrite (empty_includes_nothing _ E). reflexivity.
Qed.

(** ** Status, balance and the two copies of the ledger *)

Lemma zeroTolerance_pos : 0 < Ledger.zeroTolerance.
Proof. reflexivity. Qed.

(** X3.  A ledger row is flagged partially paid or unpaid exactly when its basis
    exceeds the threshold of the copy and a positive balance remains; it is
    flagged unpaid exactly when, besides, nothing was paid. *)
Theorem flagged_iff_balance_remains (view : FeeView)
    (s : Sfms2Ledger.StudentWithPayments) (s' : Ledger.StudentWithDetails) :
  ((Sfms2Ledger.getDynamicStatus view s = Partially_paid
    \/ Sfms2Ledger.getDynamicStatus view s = Unpaid)
   <-> 0 < Sfms2Ledger.feesForCalc view s /\ 0 < Sfms2Ledger.balance view s)
  /\ (Sfms2Ledger.getDynamicStatus view s = Unpaid
      <-> 0 < Sfms2Ledger.feesForCalc view s /\ Js.jsOr (Sfms2Ledger.totalPaid s) 0 <= 0)
  /\ ((Ledger.getDynamicStatus view s' = Partially_paid
       \/ Ledger.getDynamicStatus view s' = Unpaid)
      <-> Ledger.zeroTolerance < Ledger.feesForCalc view s' /\ 0 < Ledger.balance view s')
  /\ (Ledger.getDynamicStatus view s' = Unpaid
      <-> Ledger.zeroTolerance < Ledger.feesForCalc view s'
          /\ Js.jsOr (Ledger.totalPaid s') 0 <= 0).
Proof.
  pose proof zeroTolerance_pos as Htol.
  pose proof (sfms2_status_rule view s) as R.
  pose proof (ledger_status_rule view s') as R'.
  unfold Sfms2Ledger.balance, Ledger.balance, Js.sub, Binary64.sub.
  set (tol := Ledger.zeroTolerance) in *.
  set (f := Sfms2Ledger.feesForCalc view s) in *.
  set (p := Js.jsOr (Sfms2Ledger.totalPaid s) 0) in *.
  set (f' := Ledger.feesForCalc view s') in *.
  set (p' := Js.jsOr (Ledger.totalPaid s') 0) in *.
  destruct (round_sign (f - p)) as [[Sg1 Sg2] _].
  destruct (round_sign (f' - p')) as [[Sg1' Sg2'] _].
  assert (Bal : 0 < Binary64.round (f - p) <-> p < f).
  { split; intros H; [apply Sg1 in H|apply Sg2]; lra. }
  assert (Bal' : 0 < Binary64.round (f' - p') <-> p' < f').
  { split; intros H; [apply Sg1' in H|apply Sg2']; lra. }
  clear Sg1 Sg2 Sg1' Sg2'.
  rewrite Bal, Bal'. clear Bal Bal'.
  split; [|split; [|split]]; split.
  - intros [E|E]; rewrite E in R; inversion R; split; lra.
  - intros [Hf Hb]. inversion R; try (exfalso; lra); auto.
  - intros E; rewrite E in R; inversion R; split; lra.
  - intros [Hf Hp]. inversion R; try (exfalso; lra); auto.
  - intros [E|E]; rewrite E in R'; inversion R'; split; lra.
  - intros [Hf Hb]. inversion R'; try (exfalso; lra); auto.
  - intros E; rewrite E in R'; inversion R'; split; lra.
  - intros [Hf Hp]. inversion R'; try (exfalso; lra); auto.
Qed.

(** X4.  The two copies of the ledger give the same status to rows that carry
    the same basis and the same amount paid, unless the basis lies between 0
    and the tolerance 0.009 of the second copy. *)
Theorem ledger_copies_agree (view : FeeView)
    (s : Sfms2Ledger.StudentWithPayments) (s' : Ledger.StudentWithDetails) :
  Sfms2Ledger.feesForCalc view s == Ledger.feesForCalc view s' ->
  Js.jsOr (Sfms2Ledger.totalPaid s) 0 == Js.jsOr (Ledger.totalPaid s') 0 ->
  Sfms2Ledger.feesForCalc view s <= 0
  \/ Ledger.zeroTolerance < Sfms2Ledger.feesForCalc view s ->
  Sfms2Ledger.getDynamicStatus view s = Ledger.getDynamicStatus view s'.
Proof.
  intros Hf Hp Hband.
  pose proof zeroTolerance_pos as Htol.
  pose proof (sfms2_status_rule view s) as R.
  pose proof (ledger_status_rule view s') as R'.
  set (tol := Ledger.zeroTolerance) in *.
  set (f := Sfms2Ledger.feesForCalc view s) in *.
  set (p := Js.jsOr (Sfms2Ledger.totalPaid s) 0) in *.
  set (f' := Ledger.feesForCalc view s') in *.
  set (p' := Js.jsOr (Ledger.totalPaid s') 0) in *.
  inversion R; inversion R'; try reflexivity; exfalso; lra.
Qed.

Lemma ledger_copies_agree_witness :
  Sfms2Ledger.getDynamicStatus ViewTotal (sfms2Row 1000 400)
  = Ledger.getDynamicStatus ViewTotal (ledgerRow 1000 400).
Proof.
  apply (ledger_copies_agree ViewTotal (sfms2Row 1000 400) (ledgerRow 1000 400)).
  - reflexivity.
  - reflexivity.
  - right. reflexivity.
Defined.

(** ** The last payment among payments of the same date *)

Section LastPayment.
Context `{Js.JsDate}.
Import Db.

Lemma sorted_head_member {A} (cmp : A -> A -> Z) (l : list A) (x : A) :
  head (Js.sort cmp l) = Some x -> In x l.
Proof.
  intros Hh. apply (Permutation_in _ (sort_perm cmp l)).
  destruct (Js.sort cmp l); [discriminate|]. injection Hh as ->. left. reflexivity.
Qed.

(** X5.  Among the payments of the latest date, the one listed first is the last
    payment: every payment listed before it is strictly earlier, none after
    it is later. *)
Theorem last_payment_first_of_latest (before after : list PaymentRow)
    (p : PaymentRow) (t : Z) :
  Js.getTime (p_date p) = Some t ->
  (forall q, In q before -> exists tq, Js.getTime (p_date q) = Some tq /\ (tq < t)%Z) ->
  (forall q, In q after -> exists tq, Js.getTime (p_date q) = Some tq /\ (tq <= t)%Z) ->
  lastPayment (before ++ p :: after) = Some p.
Proof.
  intros Hp Hbefore Hafter.
  assert (Hlast : lastPayment (before ++ p :: after)
                  = head (Js.sort byDateDesc (before ++ p :: after)))
    by (destruct before; reflexivity).
  rewrite Hlast. clear Hlast.
  induction before as [|x l IH].
  - change (Js.sort byDateDesc ([] ++ p :: after))
      with (Js.insertSorted byDateDesc p (Js.sort byDateDesc after)).
    rewrite head_insertSorted.
    destruct (head (Js.sort byDateDesc after)) as [y|] eqn:Ey; [|reflexivity].
    apply sorted_head_member in Ey. destruct (Hafter y Ey) as (ty & Hty & Hle).
    destruct (0 <? byDateDesc p y)%Z eqn:E; [|reflexivity].
    apply (byDateDesc_pos p y t ty Hp Hty) in E. lia.
  - change (Js.sort byDateDesc ((x :: l) ++ p :: after))
      with (Js.insertSorted byDateDesc x (Js.sort byDateDesc (l ++ p :: after))).
    rewrite head_insertSorted.
    rewrite IH by (intros q Hq; apply Hbefore; right; exact Hq).
    destruct (Hbefore x (or_introl eq_refl)) as (tx & Htx & Hlt).
    rewrite (proj2 (byDateDesc_pos x p tx t Htx Hp) Hlt). reflexivity.
Qed.
End LastPayment.

Lemma last_payment_first_of_latest_witness :
  @lastPayment Runtime.dates paymentsWithTie = Some (paymentOn "2024-05-01" "R-2" 2000).
Proof.
  apply (@last_payment_first_of_latest Runtime.dates
           [paymentOn "2024-03-01" "R-1" 3000] [paymentOn "2024-05-01" "R-3" 500]
           (paymentOn "2024-05-01" "R-2" 2000) 1714521600000).
  - vm_compute. reflexivity.
  - intros q [<-|[]]. eexists. split; [vm_compute; reflexivity|lia].
  - intros q [<-|[]]. eexists. split; [vm_compute; reflexivity|lia].
Defined.

(** ** The selection and the adjustments of a form *)

Lemma jsOr_idem (x : option Q) : Js.jsOr (Some (Js.jsOr x 0)) 0 = Js.jsOr x 0.
Proof.
  destruct x as [v|]; simpl; [|reflexivity].
  destruct (Qeq_bool v 0) eqn:E; simpl; [reflexivity|]. rewrite E. reflexivity.
Qed.

(** X6.  Ticking a fee type flips its membership in the selection and no other;
    a selection without repetition stays so; ticking twice a fee type that
    was not selected gives the selection back. *)
Theorem toggle_flips_selection (id : string) (prev : list string) :
  Js.includes (toggleFeeTypeSelection id prev) id = negb (Js.includes prev id)
  /\ (forall other, other <> id ->
        Js.includes (toggleFeeTypeSelection id prev) other = Js.includes prev other)
  /\ (List.NoDup prev -> List.NoDup (toggleFeeTypeSelection id prev))
  /\ (~ In id prev ->
      toggleFeeTypeSelection id (toggleFeeTypeSelection id prev) = prev).
Proof.
  assert (Hbool : forall a b : bool, (a = true <-> b = true) -> a = b).
  { intros [] [] [H1 H2]; try reflexivity.
    - symmetry. apply H1. reflexivity.
    - apply H2. reflexivity. }
  unfold toggleFeeTypeSelection at 1 2 3.
  destruct (Js.includes prev id) eqn:E.
  - repeat split.
    + simpl. apply includes_false. intros Hin. apply filter_In in Hin.
      destruct Hin as [_ Hne]. apply negb_true_iff in Hne. apply eqStr_false in Hne.
      apply Hne. reflexivity.
    + intros other Hne. apply Hbool. rewrite !includes_In, filter_In.
      rewrite negb_true_iff, eqStr_false. tauto.
    + intros Hnd. apply List.NoDup_filter. exact Hnd.
    + intros Hnot. apply includes_In in E. contradiction.
  - apply includes_false in E. repeat split.
    + simpl. apply includes_In. apply in_or_app. right. left. reflexivity.
    + intros other Hne. apply Hbool. rewrite !includes_In, in_app_iff. simpl.
      split; [intros [H|[H|[]]]; [exact H|congruence]|tauto].
    + intros Hnd. apply List.NoDup_app.
      * exact Hnd.
      * constructor; [intros []|constructor].
      * intros x Hx [<-|[]]. contradiction.
    + intros _. unfold toggleFeeTypeSelection.
      rewrite (proj2 (includes_false prev id) E).
      rewrite (proj2 (includes_In (prev ++ [id]) id))
        by (apply in_or_app; right; left; reflexivity).
      rewrite List.filter_app. simpl.
      rewrite (proj2 (eqStr_true id id) eq_refl). simpl. rewrite app_nil_r.
      apply filter_all. intros x Hx. apply negb_true_iff, eqStr_false.
      intros ->. contradiction.
Qed.

Section Adjustments.
Context `{JsParse}.

(** X7.  Typing a discount or a note for a fee type changes that field only: the
    other field of the fee type and the adjustments of the other fee types
    stay, and the two edits give the same adjustments in either order. *)
Theorem adjustment_edits_are_local (id val note : string)
    (prev : gmap string FeeAdjustment) :
  discountOf (handleDiscountChange id val prev) id = Js.jsOr (parseFloat val) 0
  /\ descriptionOf (handleDiscountChange id val prev) id = descriptionOf prev id
  /\ discountOf (handleDescChange id note prev) id = discountOf prev id
  /\ descriptionOf (handleDescChange id note prev) id = FeeTypes.orNull note
  /\ (forall other, other <> id ->
        handleDiscountChange id val prev !! other = prev !! other
        /\ handleDescChange id note prev !! other = prev !! other)
  /\ handleDescChange id note (handleDiscountChange id val prev)
     = handleDiscountChange id val (handleDescChange id note prev).
Proof.
  unfold discountOf, descriptionOf, handleDiscountChange, handleDescChange.
  repeat split.
  - rewrite lookup_insert_eq. simpl. apply jsOr_idem.
  - rewrite lookup_insert_eq. simpl.
    destruct (prev !! id) as [[d [|c r]]|]; reflexivity.
  - rewrite lookup_insert_eq. cbn -[Js.jsOr]. apply jsOr_idem.
  - rewrite lookup_insert_eq. simpl. destruct note; reflexivity.
  - rewrite lookup_insert_ne by congruence. reflexivity.
  - rewrite lookup_insert_ne by congruence. reflexivity.
  - rewrite !lookup_insert_eq, !insert_insert_eq. cbn -[Js.jsOr].
    rewrite jsOr_idem. destruct note; reflexivity.
Qed.
End Adjustments.

(** ** Opening the edit modal and saving *)

Section EditModal.
Import Db.

Lemma adjustments_keep (links : list SftJoined) (m : gmap string FeeAdjustment)
    (k : string) :
  ~ In k (List.map (fun j => sft_fee_type_id (sft_row j)) links) ->
  fold_left putAdjustment links m !! k = m !! k.
Proof.
  revert m. induction links as [|x l IH]; intros m Hk; [reflexivity|].
  simpl in *. rewrite IH by tauto. unfold putAdjustment.
  apply lookup_insert_ne. intros Heq. apply Hk. left. exact Heq.
Qed.

Lemma adjustments_lookup (links : list SftJoined) (m : gmap string FeeAdjustment)
    (j : SftJoined) :
  List.NoDup (List.map (fun j => sft_fee_type_id (sft_row j)) links) ->
  In j links ->
  fold_left putAdjustment links m !! sft_fee_type_id (sft_row j)
  = Some {| discount := Js.jsOr (sft_discount (sft_row j)) 0;
            description :=
              Js.strOr (sft_discount_description (sft_row j)) EmptyString |}.
Proof.
  revert m. induction links as [|x l IH]; intros m Hnd Hin; [contradiction|].
  simpl in *. inversion Hnd as [|? ? Hnotin Hnd']; subst.
  destruct Hin as [->|Hin].
  - rewrite adjustments_keep by exact Hnotin. unfold putAdjustment.
    apply lookup_insert_eq.
  - apply IH; assumption.
Qed.

Lemma newFeeLinks_own (st : StudentPage.State) (studentID : string) :
  List.filter (fun r => eqStr (sft_student_id r) studentID)
    (StudentPage.newFeeLinks st studentID)
  = StudentPage.newFeeLinks st studentID.
Proof.
  apply filter_all. intros r Hr. unfold StudentPage.newFeeLinks in Hr.
  apply in_map_iff in Hr. destruct Hr as (i & <- & _). simpl.
  apply eqStr_true. reflexivity.
Qed.

(** X8.  Opening the edit modal on a student whose links name distinct fee types
    and saving without a change: when [handleUpdateStudent] accepts the
    form, the links of the student in the store are afterwards the links
    that were listed, the same fee types in the same order, each with its
    discount (0 for an absent one) and its note (none for an empty one), and
    the links of the other students are as before. *)
Theorem open_edit_keeps_links (student : StudentJoined) (st : StudentPage.State)
    (studentID : string) (db db' : Store) :
  List.NoDup (List.map (fun j => sft_fee_type_id (sft_row j))
                (StudentView.listedLinks student)) ->
  StudentPage.handleUpdateStudent studentID
    (StudentView.handleOpenEditModal student st) db = (Succeeded, db') ->
  List.map (fun r => (sft_fee_type_id r, sft_discount r, sft_discount_description r))
    (List.filter (fun r => eqStr (sft_student_id r) studentID) (student_fee_types db'))
  = List.map resaved (StudentView.listedLinks student)
  /\ List.filter (fun r => negb (eqStr (sft_student_id r) studentID))
       (student_fee_types db')
     = List.filter (fun r => negb (eqStr (sft_student_id r) studentID))
         (student_fee_types db).
Proof.
  intros Hnd Hsave.
  destruct (handleUpdateStudent_inv _ _ _ _ Hsave) as (_ & Hlinks).
  rewrite Hlinks, !List.filter_app.
  rewrite (filter_of_rest (fun r => eqStr (sft_student_id r) studentID)).
  rewrite newFeeLinks_own, filter_idem. cbn [app]. split.
  - unfold StudentPage.newFeeLinks, StudentView.handleOpenEditModal. simpl.
    rewrite !List.map_map. apply map_ext_in. intros j Hj. simpl.
    unfold discountOf, descriptionOf, StudentView.adjustmentsOf.
    change (fold_left _ (StudentView.listedLinks student) ∅)
      with (fold_left putAdjustment (StudentView.listedLinks student) ∅).
    rewrite (adjustments_lookup _ ∅ j Hnd Hj). cbn -[Js.jsOr].
    unfold resaved. rewrite jsOr_idem.
    destruct (sft_discount_description (sft_row j)) as [[|c r]|]; reflexivity.
  - rewrite (filter_none _ (StudentPage.newFeeLinks _ studentID)).
    + apply app_nil_r.
    + intros r Hr. unfold StudentPage.newFeeLinks in Hr. apply in_map_iff in Hr.
      destruct Hr as (i & <- & _). simpl.
      rewrite (proj2 (eqStr_true studentID studentID) eq_refl). reflexivity.
Qed.

(** X9.  Saving the edit form with no fee type selected: when fee types are
    listed for the class the update is refused and nothing is written;
    when none is listed, the student loses every link and its total becomes
    0. *)
Theorem save_without_selection (studentID : string) (st : StudentPage.State)
    (db : Store) :
  StudentPage.editSelectedFeeTypeIds st = [] ->
  fst (StudentPage.handleUpdateStudent studentID st db)
  <> Rejected "Please fill all required fields." ->
  (StudentPage.filteredFeeTypesForEdit st <> [] ->
   StudentPage.handleUpdateStudent studentID st db
   = (Rejected "At least one fee type must be assigned if fee types are available for the class.", db))
  /\ (StudentPage.filteredFeeTypesForEdit st = [] ->
      fst (StudentPage.handleUpdateStudent studentID st db) = Succeeded
      /\ (forall r, In r (student_fee_types
                            (snd (StudentPage.handleUpdateStudent studentID st db))) ->
                    sft_student_id r <> studentID)
      /\ (forall s, In s (students
                            (snd (StudentPage.handleUpdateStudent studentID st db))) ->
                    s_id s = studentID -> s_total_fees s = Some 0)).
Proof.
  intros Hsel Hvalid. unfold StudentPage.handleUpdateStudent in *.
  destruct (_ || _ || _ || _); [exfalso; apply Hvalid; reflexivity|].
  rewrite Hsel. simpl length. split.
  - intros Hne. destruct (StudentPage.filteredFeeTypesForEdit st); [contradiction|].
    reflexivity.
  - intros Hnone. rewrite Hnone. simpl. split; [reflexivity|]. split.
    + intros r Hr. unfold StudentPage.newFeeLinks in Hr. rewrite Hsel in Hr.
      simpl in Hr. rewrite app_nil_r in Hr. apply filter_In in Hr.
      destruct Hr as [_ Hr]. apply negb_true_iff, eqStr_false in Hr. exact Hr.
    + intros s Hs Hid. apply in_map_iff in Hs. destruct Hs as (s0 & Heq & _).
      destruct (eqStr (s_id s0) studentID) eqn:E; subst s.
      * simpl. unfold StudentPage.total_fees, StudentPage.applicableFeeTypes.
        rewrite Hnone. reflexivity.
      * apply eqStr_false in E. contradiction.
Qed.
End EditModal.

Lemma open_edit_keeps_links_witness :
  match openOn assignedAB "s1" with
  | Some st =>
      StudentView.formValid (Db.classes assignedAB) st = true
      /\ List.map
           (fun r => (Db.sft_fee_type_id r, Db.sft_discount r, Db.sft_discount_description r))
           (List.filter (fun r => Db.eqStr (Db.sft_student_id r) "s1")
              (Db.student_fee_types
                 (snd (StudentPage.handleUpdateStudent "s1" st assignedAB))))
         = [("A", Some 500, None); ("B", Some 0, None)]
  | None => False
  end.
Proof.
  destruct (StudentPage.fetchStudentData assignedAB "s1") as [student|] eqn:E;
    [|vm_compute in E; discriminate E].
  unfold openOn. rewrite E. cbn [fmap option_fmap option_map].
  split; [vm_compute in E; injection E as <-; vm_compute; reflexivity|].
  unfold StudentView.openedForm.
  match goal with
  | |- context [StudentView.handleOpenEditModal student ?st0] =>
      destruct (open_edit_keeps_links student st0 "s1" assignedAB
                  (snd (StudentPage.handleUpdateStudent "s1"
                          (StudentView.handleOpenEditModal student st0) assignedAB)))
        as [Hlinks _]
  end.
  - vm_compute in E. injection E as <-. vm_compute.
    repeat (constructor; [simpl; intuition discriminate|]). constructor.
  - vm_compute in E. injection E as <-. vm_compute. reflexivity.
  - rewrite Hlinks. vm_compute in E. injection E as <-. vm_compute. reflexivity.
Defined.

Lemma save_without_selection_witness :
  fst (StudentPage.handleUpdateStudent "s1" (StudentView.changeClass "class-2" editA)
         schoolDb)
  = Rejected "At least one fee type must be assigned if fee types are available for the class.".
Proof.
  refine (f_equal fst
            (proj1 (save_without_selection "s1"
                      (StudentView.changeClass "class-2" editA) schoolDb _ _) _)).
  - reflexivity.
  - vm_compute. discriminate.
  - vm_compute. discriminate.
Defined.

(** ** The status shown on the student page *)

(** X10.  [getPaymentStatus] never falls through to its last line, and it names
    the status that the ledger without tolerance gives to the same basis and
    the same amount paid. *)
Theorem payment_status_matches_ledger (view : FeeView)
    (s : Sfms2Ledger.StudentWithPayments) (fees paid : Q) :
  StudentView.getPaymentStatus fees paid <> "Status Unknown"
  /\ StudentView.getPaymentStatus (Sfms2Ledger.feesForCalc view s)
       (Js.jsOr (Sfms2Ledger.totalPaid s) 0)
     = statusLabel (Sfms2Ledger.getDynamicStatus view s).
Proof.
  assert (Hgen : forall f p st, StatusRule 0 f p st ->
            StudentView.getPaymentStatus f p = statusLabel st).
  { intros f p st R. unfold StudentView.getPaymentStatus.
    destruct (Qle_bool f 0) eqn:E1; destruct (Qle_bool p 0) eqn:E2;
      destruct (Qle_bool f p) eqn:E3; destruct (Js.Qltb 0 p) eqn:E4;
        destruct (Js.Qltb p f) eqn:E5; destruct (Js.Qltb 0 f) eqn:E6;
          repeat match goal with
                 | H : Qle_bool _ _ = true |- _ => apply Qle_bool_iff in H
                 | H : Qle_bool _ _ = false |- _ => apply Qle_bool_gt in H
                 | H : Js.Qltb _ _ = true |- _ => apply Qltb_lt in H
                 | H : Js.Qltb _ _ = false |- _ => apply Qltb_ge in H
                 end;
          simpl; inversion R; subst; simpl; try reflexivity; exfalso; lra. }
  split.
  - unfold StudentView.getPaymentStatus.
    destruct (Qle_bool fees 0) eqn:E1; destruct (Qle_bool paid 0) eqn:E2;
      destruct (Qle_bool fees paid) eqn:E3; destruct (Js.Qltb 0 paid) eqn:E4;
        destruct (Js.Qltb paid fees) eqn:E5; destruct (Js.Qltb 0 fees) eqn:E6;
          simpl; try discriminate;
          repeat match goal with
                 | H : Qle_bool _ _ = true |- _ => apply Qle_bool_iff in H
                 | H : Qle_bool _ _ = false |- _ => apply Qle_bool_gt in H
                 | H : Js.Qltb _ _ = true |- _ => apply Qltb_lt in H
                 | H : Js.Qltb _ _ = false |- _ => apply Qltb_ge in H
                 end;
          exfalso; lra.
  - apply Hgen. apply sfms2_status_rule.
Qed.

(** ** Deleting a student *)

Section Deleting.
Import Db.

(** X11.  Deleting on the student page removes the student with its fee links and
    its payments, keeps every row of the other students and the catalog, and
    is the same done twice; the student cannot be fetched afterwards. *)
Theorem deleting_a_student (studentID : string) (db : Store) :
  let db' := StudentPage.handleDeleteStudent studentID db in
  (forall s, In s (students db') <-> In s (students db) /\ s_id s <> studentID)
  /\ (forall r, In r (student_fee_types db')
                <-> In r (student_fee_types db) /\ sft_student_id r <> studentID)
  /\ (forall p, In p (payments db') <-> In p (payments db) /\ p_student_id p <> studentID)
  /\ classes db' = classes db
  /\ fee_types db' = fee_types db
  /\ fee_type_classes db' = fee_type_classes db
  /\ StudentPage.fetchStudentData db' studentID = None
  /\ StudentPage.handleDeleteStudent studentID db' = db'.
Proof.
  cbv zeta. unfold StudentPage.handleDeleteStudent.
  assert (Hne : forall a b, negb (eqStr a b) = true <-> a <> b).
  { intros a b. rewrite negb_true_iff. apply eqStr_false. }
  split; [|split; [|split; [|split; [|split; [|split; [|split]]]]]];
    try reflexivity.
  - intros s. simpl. rewrite filter_In, Hne. reflexivity.
  - intros r. simpl. rewrite filter_In, Hne. reflexivity.
  - intros p. simpl. rewrite filter_In, Hne. reflexivity.
  - unfold StudentPage.fetchStudentData. simpl.
    rewrite (filter_of_rest (fun s => eqStr (s_id s) studentID)). reflexivity.
  - simpl. rewrite !filter_idem. reflexivity.
Qed.
End Deleting.

(** ** A recorded payment and the ledger *)

Section Recording.
Context `{JsParse} `{Js.JsDate}.
Import Db.

Lemma reduceSum_snoc {A} (f : A -> Q) (l : list A) (x : A) :
  Js.reduceSum f (l ++ [x]) = Js.add (Js.reduceSum f l) (f x).
Proof. unfold Js.reduceSum. rewrite fold_left_app. reflexivity. Qed.

(** X12.  A payment is recorded only for a selected student and an amount that
    [Number] reads as positive.  It adds one row and touches nothing else,
    and in the ledger the total paid of that student becomes the binary64
    sum of its former total and the recorded amount, while the totals of the
    other students stay. *)
Theorem recorded_payment_reaches_ledger (now stamp : string)
    (st : RecordPayment.State) (db db' : Store) :
  RecordPayment.handleSubmit now stamp st db = (Succeeded, db') ->
  exists sid amount n,
    RecordPayment.selectedStudentId st = Some sid
    /\ Js.isEmpty sid = false
    /\ parseFloat (RecordPayment.amountPaid st) = Some amount
    /\ toNumber (RecordPayment.amountPaid st) = Some n /\ 0 < n
    /\ (exists p, payments db' = payments db ++ [p]
                  /\ p_student_id p = sid /\ p_amount_paid p = amount
                  /\ p_date p = now)
    /\ students db' = students db
    /\ student_fee_types db' = student_fee_types db
    /\ (forall (today : Z) (s : StudentRow),
          Js.jsOr (Sfms2Ledger.totalPaid (Sfms2Ledger.enrich today (joinStudent db' s))) 0
          == if eqStr sid (s_id s)
             then Js.add
                    (Js.jsOr (Sfms2Ledger.totalPaid
                                (Sfms2Ledger.enrich today (joinStudent db s))) 0)
                    amount
             else Js.jsOr (Sfms2Ledger.totalPaid
                             (Sfms2Ledger.enrich today (joinStudent db s))) 0).
Proof.
  unfold RecordPayment.handleSubmit.
  destruct (RecordPayment.selectedStudentId st) as [sid|]; [|discriminate].
  destruct sid as [|c sid]; [discriminate|]. cbn [Js.truthyStr negb Js.strOr].
  set (chosen := String c sid).
  destruct (RecordPayment.invalidAmount (RecordPayment.amountPaid st)) eqn:Einv;
    [discriminate|].
  destruct (parseFloat (RecordPayment.amountPaid st)) as [amount|] eqn:Epf;
    [|discriminate].
  intros Heq. injection Heq as <-.
  unfold RecordPayment.invalidAmount in Einv. apply orb_false_iff in Einv.
  destruct Einv as [_ Einv].
  destruct (toNumber (RecordPayment.amountPaid st)) as [n|] eqn:En; [|discriminate].
  apply Qle_bool_gt in Einv.
  exists chosen, amount, n.
  repeat split; try reflexivity; try assumption.
  - eexists. split; [reflexivity|]. repeat split.
  - intros today s.
    assert (Hsome : forall x : Q, Js.jsOr (Some x) 0 == x)
      by (intros x; rewrite jsOr_eq; reflexivity).
    unfold Sfms2Ledger.enrich, joinStudent.
    cbn [Sfms2Ledger.totalPaid j_payments payments].
    rewrite List.filter_app. cbn [List.filter p_student_id].
    destruct (eqStr chosen (s_id s)); [|rewrite app_nil_r; reflexivity].
    rewrite Hsome, totalPaidOf_fold, reduceSum_snoc. cbn [p_amount_paid].
    match goal with |- ?a == ?b => assert (E : a = b); [|rewrite E; reflexivity] end.
    apply add_comp; [|reflexivity].
    rewrite Hsome, totalPaidOf_fold. reflexivity.
Qed.
End Recording.

Lemma recorded_payment_reaches_ledger_witness :
  exists sid amount n,
    RecordPayment.selectedStudentId payS2 = Some sid
    /\ Js.isEmpty sid = false
    /\ @parseFloat Runtime.numbers (RecordPayment.amountPaid payS2) = Some amount
    /\ @toNumber Runtime.numbers (RecordPayment.amountPaid payS2) = Some n /\ 0 < n.
Proof.
  destruct (@recorded_payment_reaches_ledger Runtime.numbers Runtime.dates
              "2025-01-01T00:00:00.000Z" "R-1" payS2 twoSchools _ eq_refl)
    as (sid & amount & n & H1 & H2 & H3 & H4 & H5 & _).
  exists sid, amount, n. repeat split; assumption.
Defined.

(** ** What the registration page writes, and for whom *)

Section Tenant.
Import Db.
Import Registration.

Lemma filter_map_fixed {A} (p : A -> bool) (f : A -> A) (l : list A) :
  (forall x, In x l -> f x = x \/ (p x = false /\ p (f x) = false)) ->
  List.filter p (List.map f l) = List.filter p l.
Proof.
  induction l as [|x l IH]; intros Hf; [reflexivity|]. simpl.
  rewrite IH by (intros y Hy; apply Hf; right; exact Hy).
  destruct (Hf x (or_introl eq_refl)) as [->|[H1 H2]]; [reflexivity|].
  rewrite H1, H2. reflexivity.
Qed.

Lemma filter_filter_weaker {A} (p q : A -> bool) (l : list A) :
  (forall x, In x l -> p x = true -> q x = true) ->
  List.filter p (List.filter q l) = List.filter p l.
Proof.
  induction l as [|x l IH]; intros Hpq; [reflexivity|]. simpl.
  rewrite <- IH by (intros y Hy; apply Hpq; right; exact Hy).
  destruct (q x) eqn:Eq; simpl; [reflexivity|].
  destruct (p x) eqn:Ep; [|reflexivity].
  rewrite (Hpq x (or_introl eq_refl) Ep) in Eq. discriminate.
Qed.

(** X13.  A submission that one of the checks of [handleSubmit] refuses sends no
    request and writes nothing.  A submission whose requests the store
    carries out leaves the classes, the catalog, the class links and the
    payments as they are, and it neither adds, changes nor removes a student
    or a fee link of another school. *)
Theorem submit_stays_in_school (new_id : string) (schoolId : option string)
    (st : State) (db : Store) :
  let out := fst (handleSubmit new_id schoolId st db) in
  let db' := snd (handleSubmit new_id schoolId st db) in
  let school := Js.strOr schoolId EmptyString in
  (forall msg, out = Rejected msg -> db' = db)
  /\ classes db' = classes db
  /\ fee_types db' = fee_types db
  /\ fee_type_classes db' = fee_type_classes db
  /\ payments db' = payments db
  /\ List.filter (foreignStudent school) (students db')
     = List.filter (foreignStudent school) (students db)
  /\ List.filter (foreignLink school) (student_fee_types db')
     = List.filter (foreignLink school) (student_fee_types db).
Proof.
  cbv zeta. unfold handleSubmit.
  destruct (negb (Js.truthyStr schoolId)); [repeat split; reflexivity|].
  destruct (Js.isEmpty (Js.trim (name st))); [repeat split; reflexivity|].
  destruct (Js.isEmpty (Js.trim (rollNo st))); [repeat split; reflexivity|].
  destruct (Js.isEmpty (selectedClassId st)); [repeat split; reflexivity|].
  destruct (Js.isEmpty (academicYear st)); [repeat split; reflexivity|].
  set (school := Js.strOr schoolId EmptyString).
  assert (Hlinks : forall sid, List.filter (foreignLink school) (feeLinks st school sid) = []).
  { intros sid. apply filter_none. intros r Hr. unfold foreignLink.
    apply feeLinks_target in Hr. unfold isTargetLink in Hr.
    apply andb_true_iff in Hr. rewrite (proj2 Hr). reflexivity. }
  destruct (editStudentId st) as [eid|].
  - destruct (single (List.filter (isTarget school eid) (students db))) as [found|];
      [|repeat split; reflexivity].
    cbn [fst snd]. split; [intros msg Hmsg; discriminate Hmsg|].
    unfold insertFeeLinks.
    assert (Hst : List.filter (foreignStudent school)
                    (List.map (fun s => if isTarget school eid s
                                        then coreOver st school s else s) (students db))
                  = List.filter (foreignStudent school) (students db)).
    { apply filter_map_fixed. intros s _.
      destruct (isTarget school eid s) eqn:E; [right|left; reflexivity].
      unfold foreignStudent. unfold isTarget in E. apply andb_true_iff in E.
      rewrite (proj2 E). simpl. rewrite (proj2 (eqStr_true school school) eq_refl).
      split; reflexivity. }
    assert (Hold : List.filter (foreignLink school)
                     (List.filter (fun r => negb (isTargetLink school eid r))
                        (student_fee_types db))
                   = List.filter (foreignLink school) (student_fee_types db)).
    { apply filter_filter_weaker. intros r _ Hr. unfold foreignLink in Hr.
      unfold isTargetLink. apply negb_true_iff in Hr. rewrite Hr, andb_false_r.
      reflexivity. }
    destruct (selectedFeeTypeIds st) eqn:Esel; cbn [classes fee_types fee_type_classes
      payments students student_fee_types]; repeat split; try assumption.
    rewrite List.filter_app, Hold, Hlinks, app_nil_r. reflexivity.
  - cbn [fst snd]. split; [intros msg Hmsg; discriminate Hmsg|].
    unfold insertFeeLinks.
    assert (Hst : List.filter (foreignStudent school)
                    (students db ++ [coreNew st school new_id])
                  = List.filter (foreignStudent school) (students db)).
    { rewrite List.filter_app. simpl. unfold foreignStudent at 2. simpl.
      rewrite (proj2 (eqStr_true school school) eq_refl). simpl.
      apply app_nil_r. }
    destruct (selectedFeeTypeIds st) eqn:Esel; cbn [classes fee_types fee_type_classes
      payments students student_fee_types]; repeat split; try assumption.
    rewrite List.filter_app, Hlinks, app_nil_r. reflexivity.
Qed.

(** X14.  Without a tenant, as under the session context that gives [null] for
    it, the pages that carry the tenant read nothing and write nothing. *)
Theorem no_tenant_no_access `{Js.JsDate} (schoolId : option string)
    (new_id classId : string) (st : State) (victim : StudentRow)
    (view : LedgerView) (today : Z) (db : Store) :
  Js.truthyStr schoolId = false ->
  handleSubmit new_id schoolId st db
  = (Rejected "School information is missing. Cannot proceed.", db)
  /\ confirmDelete schoolId victim db = db
  /\ fetchStudentsForSchool db schoolId = []
  /\ fetchFilteredFeeTypes db schoolId classId = []
  /\ Ledger.fetchStudentsAndDetails db schoolId view classId today = []
  /\ Ledger.fetchClassesForSchool db schoolId = [].
Proof.
  intros Hno.
  unfold handleSubmit, confirmDelete, fetchStudentsForSchool, fetchFilteredFeeTypes,
    Ledger.fetchStudentsAndDetails, Ledger.fetchClassesForSchool.
  rewrite Hno. simpl. rewrite orb_true_r. repeat split; reflexivity.
Qed.
End Tenant.

Lemma no_tenant_no_access_witness :
  Registration.handleSubmit "s1" AuthContext.schoolId regState twoSchools
  = (Rejected "School information is missing. Cannot proceed.", twoSchools).
Proof.
  exact (proj1 (@no_tenant_no_access Runtime.dates AuthContext.schoolId "s1" "class-1"
                  regState (student "s1" "school-1") ViewSchool day_2025_01_01
                  twoSchools eq_refl)).
Defined.

(** ** The list of students of the registration page *)

(** X15.  The select behind the list does not read [school_id], so the guard of
    the edit and delete actions finds every listed student foreign: for a
    student of the list, whatever the tenant, [startEditStudent] opens no
    form and [openDeleteModal] puts up no student for deletion. *)
Theorem listed_students_are_locked (db : Db.Store) (schoolId tenant : option string)
    (student : RegistrationList.StudentType) :
  In student (RegistrationList.studentsData db schoolId) ->
  RegistrationList.startEditStudent tenant student
  = (Rejected "You can only edit students from your own school.", None)
  /\ RegistrationList.openDeleteModal tenant student
     = (Rejected "You can only delete students from your own school.", None).
Proof.
  intros Hin. unfold RegistrationList.studentsData in Hin. apply in_map_iff in Hin.
  destruct Hin as (j & <- & _).
  unfold RegistrationList.startEditStudent, RegistrationList.openDeleteModal. simpl.
  split; reflexivity.
Qed.

Lemma listed_students_are_locked_witness :
  List.map RegistrationList.id (RegistrationList.studentsData twoSchools (Some "school-1"))
  = ["s1"]
  /\ RegistrationList.startEditStudent (Some "school-1")
       (RegistrationList.listed fetchedS1)
     = (Rejected "You can only edit students from your own school.", None).
Proof.
  split; [vm_compute; reflexivity|].
  refine (proj1 (listed_students_are_locked twoSchools (Some "school-1")
                   (Some "school-1") (RegistrationList.listed fetchedS1) _)).
  vm_compute. left. reflexivity.
Defined.

(** ** The fee types offered for a class *)

Section ClassFeeTypes.
Import Db.

Lemma find_some_id (types : list FeeTypeRow) (id : string) (ft : FeeTypeRow) :
  List.find (fun f => eqStr (ft_id f) id) types = Some ft ->
  In ft types /\ ft_id ft = id.
Proof.
  intros Hf. apply find_some in Hf. destruct Hf as [Hin Heq].
  apply eqStr_true in Heq. split; assumption.
Qed.

Lemma omap_find_ids (types : list FeeTypeRow) (links : list FeeTypeClassRow) :
  List.NoDup (List.map ftc_fee_type_id links) ->
  List.NoDup
    (List.map ft_id
       (omap (fun item => List.find (fun f => eqStr (ft_id f) (ftc_fee_type_id item)) types)
          links))
  /\ forall ft,
       In ft (omap (fun item =>
                      List.find (fun f => eqStr (ft_id f) (ftc_fee_type_id item)) types)
                links) ->
       In ft types /\ exists l, In l links /\ ftc_fee_type_id l = ft_id ft.
Proof.
  induction links as [|x l IH]; intros Hnd.
  - split; [constructor|intros ft []].
  - simpl in Hnd. inversion Hnd as [|? ? Hnotin Hnd']; subst.
    destruct (IH Hnd') as [IHnd IHin]. cbn [omap list_omap].
    destruct (List.find (fun f => eqStr (ft_id f) (ftc_fee_type_id x)) types)
      as [ft|] eqn:Ef.
    + apply find_some_id in Ef. destruct Ef as [Hft Hid]. split.
      * simpl. constructor; [|exact IHnd].
        intros Hin. apply in_map_iff in Hin. destruct Hin as (ft' & Heq & Hin').
        apply list_elem_of_In in Hin'.
        destruct (IHin ft' (proj1 (list_elem_of_In _ _) Hin')) as (_ & l0 & Hl0 & Hl0id).
        apply Hnotin. rewrite <- Hid, <- Heq, <- Hl0id. apply in_map. exact Hl0.
      * intros ft' [<-|Hin].
        { split; [exact Hft|]. exists x. split; [left; reflexivity|].
          symmetry. exact Hid. }
        destruct (IHin ft' Hin) as (H1 & l0 & Hl0 & Hl0id).
        split; [exact H1|]. exists l0. split; [right; exact Hl0|exact Hl0id].
    + split; [exact IHnd|]. intros ft Hin.
      destruct (IHin ft Hin) as (H1 & l0 & Hl0 & Hl0id).
      split; [exact H1|]. exists l0. split; [right; exact Hl0|exact Hl0id].
Qed.

(** X16.  When no fee type is linked twice to the class within the school, the
    fee types the registration form offers for the class have distinct ids;
    each of them is in the catalog and is linked to that class in that
    school. *)
Theorem offered_fee_types_are_linked (db : Store) (schoolId : option string)
    (classId : string) :
  List.NoDup (List.map ftc_fee_type_id
                (classLinks db (Js.strOr schoolId EmptyString) classId)) ->
  List.NoDup (List.map ft_id (Registration.fetchFilteredFeeTypes db schoolId classId))
  /\ forall ft,
       In ft (Registration.fetchFilteredFeeTypes db schoolId classId) ->
       In ft (fee_types db)
       /\ exists l,
            In l (fee_type_classes db)
            /\ ftc_fee_type_id l = ft_id ft
            /\ ftc_class_id l = classId
            /\ ftc_school_id l = Some (Js.strOr schoolId EmptyString).
Proof.
  intros Hnd. unfold Registration.fetchFilteredFeeTypes.
  destruct (Js.isEmpty classId || negb (Js.truthyStr schoolId)).
  - split; [constructor|intros ft []].
  - destruct (omap_find_ids (fee_types db) _ Hnd) as [H1 H2].
    split; [exact H1|]. intros ft Hin.
    destruct (H2 ft Hin) as (Hcat & l & Hl & Hid).
    split; [exact Hcat|]. exists l. unfold classLinks in Hl.
    apply filter_In in Hl. destruct Hl as [Hl Hp]. apply andb_true_iff in Hp.
    destruct Hp as [Hc Hs]. apply eqStr_true in Hc.
    repeat split; try assumption.
    destruct (ftc_school_id l) as [x|]; simpl in Hs; [|discriminate].
    apply eqStr_true in Hs. congruence.
Qed.
End ClassFeeTypes.

Lemma offered_fee_types_are_linked_witness :
  List.NoDup (List.map Db.ft_id
                (Registration.fetchFilteredFeeTypes schoolDb (Some "school-1") "class-1")).
Proof.
  refine (proj1 (offered_fee_types_are_linked schoolDb (Some "school-1") "class-1" _)).
  vm_compute. repeat (constructor; [simpl; intuition discriminate|]). constructor.
Defined.

(** ** Editing, creating and deleting a fee type *)

Section Catalog.
Context `{JsParse} `{Js.JsDate}.
Import Db.

(** X17.  A successful update of a fee type replaces its class links by one link
    per chosen class, in the order chosen, and leaves the links of the other
    fee types as they are; it changes no identifier and no scheduled date of
    the catalog, and no row of another fee type. *)
Theorem update_replaces_class_links (editing : FeeTypeRow) (editForm : FeeTypes.Form)
    (classIds : list string) (db db' : Store) :
  FeeTypes.updateFeeType (Some editing) editForm classIds db = (Succeeded, db') ->
  List.map ftc_class_id (linksOfFeeType db' (ft_id editing)) = classIds
  /\ otherLinks db' (ft_id editing) = otherLinks db (ft_id editing)
  /\ List.map ft_id (fee_types db') = List.map ft_id (fee_types db)
  /\ List.map ft_scheduled_date (fee_types db')
     = List.map ft_scheduled_date (fee_types db)
  /\ List.filter (fun f => negb (eqStr (ft_id f) (ft_id editing))) (fee_types db')
     = List.filter (fun f => negb (eqStr (ft_id f) (ft_id editing))) (fee_types db)
  /\ (forall f, In f (fee_types db') -> ft_id f = ft_id editing ->
        ft_name f = Js.trim (FeeTypes.name editForm)
        /\ Js.isEmpty (ft_name f) = false).
Proof.
  unfold FeeTypes.updateFeeType.
  destruct (FeeTypes.validateForm editForm) eqn:Ev; [discriminate|].
  intros Heq. injection Heq as <-.
  unfold linksOfFeeType, otherLinks. cbn [fee_type_classes fee_types].
  assert (Hnew : forall (p : FeeTypeClassRow -> bool) (keep : bool),
            (forall l, ftc_fee_type_id l = ft_id editing -> p l = keep) ->
            List.filter p
              (List.map (fun class_id =>
                           {| ftc_fee_type_id := ft_id editing; ftc_class_id := class_id;
                              ftc_school_id := None |}) classIds)
            = if keep
              then List.map (fun class_id =>
                               {| ftc_fee_type_id := ft_id editing;
                                  ftc_class_id := class_id; ftc_school_id := None |})
                     classIds
              else []).
  { intros p keep Hp. destruct keep.
    - apply filter_all. intros l Hl. apply in_map_iff in Hl.
      destruct Hl as (c & <- & _). apply Hp. reflexivity.
    - apply filter_none. intros l Hl. apply in_map_iff in Hl.
      destruct Hl as (c & <- & _). apply Hp. reflexivity. }
  split; [|split; [|split; [|split; [|split]]]].
  - rewrite List.filter_app.
    rewrite (filter_of_rest (fun l => eqStr (ftc_fee_type_id l) (ft_id editing))).
    rewrite (Hnew _ true) by (intros l ->; apply eqStr_true; reflexivity).
    simpl. rewrite List.map_map. simpl. apply List.map_id.
  - rewrite List.filter_app, filter_idem.
    rewrite (Hnew _ false)
      by (intros l ->; rewrite (proj2 (eqStr_true _ _) eq_refl); reflexivity).
    apply app_nil_r.
  - rewrite List.map_map. apply map_ext. intros f.
    destruct (eqStr (ft_id f) (ft_id editing)); reflexivity.
  - rewrite List.map_map. apply map_ext. intros f.
    destruct (eqStr (ft_id f) (ft_id editing)); reflexivity.
  - apply filter_map_fixed. intros f _.
    destruct (eqStr (ft_id f) (ft_id editing)) eqn:E; [right|left; reflexivity].
    simpl. rewrite E. split; reflexivity.
  - intros f Hf Hid. apply in_map_iff in Hf. destruct Hf as (f0 & Heq & _).
    destruct (eqStr (ft_id f0) (ft_id editing)) eqn:E; subst f.
    + simpl. split; [reflexivity|]. unfold FeeTypes.validateForm in Ev.
      destruct (Js.isEmpty (Js.trim (FeeTypes.name editForm))); [discriminate|].
      reflexivity.
    + apply eqStr_false in E. contradiction.
Qed.

(** X18.  Deleting a fee type that no fee link of a student names: once the
    typed name matches and the store carries out the two requests, the fee
    type is gone from the catalog with its class links, and the other fee
    types, the class links of the other fee types, the students, their fee
    links and the payments are as before. *)
Theorem unused_fee_type_is_deleted (typed : string) (feeType : FeeTypeRow)
    (db db' : Store) :
  (forall r, In r (student_fee_types db) -> sft_fee_type_id r <> ft_id feeType) ->
  FeeTypeAdmin.deleteFeeType (Some typed) feeType db = (Succeeded, db') ->
  typed = ft_name feeType
  /\ (forall f, In f (fee_types db') <-> In f (fee_types db) /\ ft_id f <> ft_id feeType)
  /\ linksOfFeeType db' (ft_id feeType) = []
  /\ otherLinks db' (ft_id feeType) = otherLinks db (ft_id feeType)
  /\ classes db' = classes db
  /\ students db' = students db
  /\ student_fee_types db' = student_fee_types db
  /\ payments db' = payments db
  /\ (forall r, In r (student_fee_types db') ->
        fee_type (joinFeeType db' r) = fee_type (joinFeeType db r)).
Proof.
  intros Hunused. unfold FeeTypeAdmin.deleteFeeType.
  destruct (eqStr typed (ft_name feeType)) eqn:E; [|discriminate].
  intros Heq. injection Heq as <-. apply eqStr_true in E.
  split; [exact E|].
  split; [|split; [|split; [|split; [|split; [|split; [|split]]]]]];
    try reflexivity.
  - intros f. cbn [fee_types]. rewrite filter_In, negb_true_iff, eqStr_false.
    reflexivity.
  - unfold linksOfFeeType. cbn [fee_type_classes]. apply filter_of_rest.
  - unfold otherLinks. cbn [fee_type_classes]. apply filter_idem.
  - cbn [student_fee_types]. intros r Hr. unfold joinFeeType. cbn [fee_type fee_types].
    pose proof (Hunused r Hr) as Hne. clear Hr Hunused.
    induction (fee_types db) as [|f l IH]; [reflexivity|].
    cbn [List.filter List.find].
    destruct (eqStr (ft_id f) (ft_id feeType)) eqn:Ef; cbn [negb List.find].
    + apply eqStr_true in Ef.
      destruct (eqStr (ft_id f) (sft_fee_type_id r)) eqn:Er; [|exact IH].
      apply eqStr_true in Er. congruence.
    + destruct (eqStr (ft_id f) (sft_fee_type_id r)); [reflexivity|exact IH].
Qed.
End Catalog.

Lemma update_replaces_class_links_witness :
  List.map Db.ftc_class_id
    (linksOfFeeType
       (snd (@FeeTypes.updateFeeType Runtime.numbers
               (Some (catalogFee "A" 5000 (Some "2024-01-01"))) raiseA
               ["class-1"; "class-2"] schoolDb)) "A")
  = ["class-1"; "class-2"].
Proof.
  refine (proj1 (@update_replaces_class_links Runtime.numbers
                   (catalogFee "A" 5000 (Some "2024-01-01")) raiseA
                   ["class-1"; "class-2"] schoolDb _ _)).
  vm_compute. reflexivity.
Defined.

Lemma unused_fee_type_is_deleted_witness :
  List.map Db.sft_fee_type_id (Db.student_fee_types onlyA) = ["A"]
  /\ List.map Db.ft_id
       (Db.fee_types
          (snd (FeeTypeAdmin.deleteFeeType (Some "B")
                  (catalogFee "B" 2000 (Some "2099-01-01")) onlyA)))
     = ["A"]
  /\ Db.fee_type_classes
       (snd (FeeTypeAdmin.deleteFeeType (Some "B")
               (catalogFee "B" 2000 (Some "2099-01-01")) onlyA))
     = [linkTo "A"].
Proof.
  split; [reflexivity|].
  assert (Hunused :
            forall r, In r (Db.student_fee_types onlyA) ->
                      Db.sft_fee_type_id r
                      <> Db.ft_id (catalogFee "B" 2000 (Some "2099-01-01"))).
  { intros r Hr. vm_compute in Hr. destruct Hr as [<-|[]]. discriminate. }
  destruct (unused_fee_type_is_deleted "B" (catalogFee "B" 2000 (Some "2099-01-01"))
              onlyA _ Hunused eq_refl)
    as (_ & _ & _).
  split; reflexivity.
Defined.

(** ** What the ledger lists *)

Section Listing.
Context `{Js.JsDate}.
Import Db.

Lemma filter_filter_and {A} (p q : A -> bool) (l : list A) :
  List.filter q (List.filter p l) = List.filter (fun x => p x && q x) l.
Proof.
  induction l as [|x l IH]; [reflexivity|]. simpl.
  destruct (p x); simpl; [|exact IH]. destruct (q x); rewrite IH; reflexivity.
Qed.

(** X19.  The tenant-aware ledger lists each student of the caller's school (of
    the chosen class, in the class view) exactly once, and the other ledger
    each student of the store (of the chosen class, if any) exactly once. *)
Theorem ledger_lists_each_student_once (db : Store) (school : string)
    (view : LedgerView) (selectedClassId : string) (today : Z) :
  Js.isEmpty school = false ->
  Permutation
    (List.map Ledger.row
       (Ledger.fetchStudentsAndDetails db (Some school) view selectedClassId today))
    (List.filter (selectedBy school view selectedClassId) (students db))
  /\ Permutation
       (List.map Sfms2Ledger.id (Sfms2Ledger.fetchStudents db selectedClassId today))
       (List.map s_id
          (List.filter
             (fun s => Js.isEmpty selectedClassId || eqStr (s_class_id s) selectedClassId)
             (students db))).
Proof.
  intros Hschool.
  assert (Htruthy : Js.truthyStr (Some school) = true)
    by (destruct school; [discriminate|reflexivity]).
  assert (Hor : Js.strOr (Some school) EmptyString = school)
    by (destruct school; reflexivity).
  split.
  - unfold Ledger.fetchStudentsAndDetails. rewrite Htruthy, Hor. cbv zeta. simpl negb.
    cbv iota. rewrite List.map_map. simpl. rewrite List.map_id.
    unfold orderBy. rewrite sort_perm.
    destruct view.
    + destruct (Js.isEmpty selectedClassId) eqn:E.
      * rewrite (filter_ext _ (selectedBy school ViewClass selectedClassId));
          [reflexivity|].
        intros s. unfold selectedBy. rewrite E. simpl. symmetry. apply andb_true_r.
      * rewrite filter_filter_and.
        rewrite (filter_ext _ (selectedBy school ViewClass selectedClassId));
          [reflexivity|].
        intros s. unfold selectedBy. rewrite E. reflexivity.
    + rewrite (filter_ext _ (selectedBy school ViewSchool selectedClassId));
        [reflexivity|].
      intros s. unfold selectedBy. symmetry. apply andb_true_r.
  - unfold Sfms2Ledger.fetchStudents. cbv zeta.
    destruct (Js.isEmpty selectedClassId) eqn:E.
    + rewrite List.map_map. simpl.
      rewrite (filter_all _ (students db)) by (intros; reflexivity).
      apply Permutation_map. unfold orderBy. apply sort_perm.
    + simpl.
      assert (Hcomm : forall l : list StudentRow,
                List.map Sfms2Ledger.id
                  (List.filter (fun s => eqStr (Sfms2Ledger.class_id s) selectedClassId)
                     (List.map (fun s => Sfms2Ledger.enrich today (joinStudent db s)) l))
                = List.map s_id
                    (List.filter (fun s => eqStr (s_class_id s) selectedClassId) l)).
      { induction l as [|x l IH]; [reflexivity|]. simpl.
        destruct (eqStr (s_class_id x) selectedClassId); simpl; rewrite IH; reflexivity. }
      rewrite Hcomm. apply Permutation_map.
      unfold orderBy.
      assert (Hfp : forall (p : StudentRow -> bool) l l',
                Permutation l l' -> Permutation (List.filter p l) (List.filter p l')).
      { intros p l l' Hp. induction Hp; simpl.
        - constructor.
        - destruct (p x); [constructor|]; assumption.
        - destruct (p x), (p y); try reflexivity. apply perm_swap.
        - etransitivity; eassumption. }
      apply Hfp. apply sort_perm.
Qed.
End Listing.

Lemma ledger_lists_each_student_once_witness :
  Permutation
    (List.map Ledger.row
       (@Ledger.fetchStudentsAndDetails Runtime.dates twoSchools (Some "school-1")
          ViewSchool EmptyString day_2025_01_01))
    (List.filter (selectedBy "school-1" ViewSchool EmptyString) (Db.students twoSchools)).
Proof.
  exact (proj1 (@ledger_lists_each_student_once Runtime.dates twoSchools "school-1"
                  ViewSchool EmptyString day_2025_01_01 eq_refl)).
Defined.

(** ** Reading the export back *)

Section ReadBack.
Import CsvExport.

Lemma append_cons (x : ascii) (a b : string) :
  String.append (String x a) b = String x (String.append a b).
Proof. reflexivity. Qed.

Lemma append_nil (b : string) : String.append EmptyString b = b.
Proof. reflexivity. Qed.

Lemma append_assoc_str (a b c : string) :
  String.append (String.append a b) c = String.append a (String.append b c).
Proof.
  induction a as [|x a IH]; [reflexivity|]. rewrite !append_cons, IH. reflexivity.
Qed.

Lemma append_empty_r (a : string) : String.append a EmptyString = a.
Proof.
  induction a as [|x a IH]; [reflexivity|]. rewrite append_cons, IH. reflexivity.
Qed.

Lemma revStr_revStr (s a b : string) :
  Js.revStr a (Js.revStr b s) = Js.revStr (String.append s a) b.
Proof.
  revert a b. induction s as [|c r IH]; intros a b; [reflexivity|].
  rewrite append_cons. cbn [Js.revStr]. rewrite IH. reflexivity.
Qed.

Lemma revStr_involutive (s : string) :
  Js.revStr EmptyString (Js.revStr EmptyString s) = s.
Proof. rewrite revStr_revStr. cbn [Js.revStr]. apply append_empty_r. Qed.

Lemma includes_comma (c : ascii) (r : string) :
  JsStr.includes (String comma EmptyString) (String c r)
  = Ascii.eqb comma c || JsStr.includes (String comma EmptyString) r.
Proof.
  simpl. destruct r; simpl; rewrite ?andb_true_r; reflexivity.
Qed.

(** Reading through a stretch without quotes, inside quotes or without
    commas, moves its characters to the current cell. *)
Lemma read_through (c rest : string) (inQuote : bool) (cur : string) :
  plain c = true ->
  inQuote = true \/ JsStr.includes (String comma EmptyString) c = false ->
  readFrom (String.append c rest) inQuote cur = readFrom rest inQuote (Js.revStr cur c).
Proof.
  revert cur. induction c as [|x c IH]; intros cur Hplain Hok; [reflexivity|].
  simpl in Hplain. apply andb_true_iff in Hplain. destruct Hplain as [Hx Hplain].
  apply negb_true_iff in Hx. rewrite append_cons. cbn [readFrom Js.revStr]. rewrite Hx.
  assert (Hstep : negb inQuote && Ascii.eqb x comma = false).
  { destruct Hok as [->|Hno]; [reflexivity|].
    rewrite includes_comma in Hno. apply orb_false_iff in Hno.
    rewrite Ascii.eqb_sym, (proj1 Hno). apply andb_false_r. }
  rewrite Hstep. apply IH; [exact Hplain|].
  destruct Hok as [->|Hno]; [left; reflexivity|right].
  rewrite includes_comma in Hno. apply orb_false_iff in Hno. exact (proj2 Hno).
Qed.

Lemma read_cell (c rest : string) :
  plain c = true ->
  readFrom (String.append (csvCell c) rest) false EmptyString
  = readFrom rest false (Js.revStr EmptyString c).
Proof.
  intros Hplain. unfold csvCell.
  destruct (JsStr.includes (String comma EmptyString) c) eqn:E.
  - rewrite append_cons. cbn [readFrom]. rewrite Ascii.eqb_refl. simpl negb.
    rewrite append_assoc_str.
    rewrite (read_through c _ true EmptyString Hplain (or_introl eq_refl)).
    rewrite append_cons, append_nil. cbn [readFrom]. rewrite Ascii.eqb_refl.
    reflexivity.
  - apply read_through; [exact Hplain|right; exact E].
Qed.

(** X20.  A line of the export whose cells hold no double quote reads back as the
    cells it was made of, commas inside the cells included. *)
Theorem export_line_reads_back (cells : list string) :
  cells <> [] ->
  (forall c, In c cells -> plain c = true) ->
  readLine (csvLine cells) = cells.
Proof.
  intros Hne Hplain. unfold readLine, csvLine.
  induction cells as [|c l IH]; [contradiction|]. clear Hne.
  assert (Hc : plain c = true) by (apply Hplain; left; reflexivity).
  destruct l as [|d l].
  - cbn [List.map String.concat].
    rewrite <- (append_empty_r (csvCell c)), (read_cell c EmptyString Hc).
    cbn [readFrom]. rewrite revStr_involutive. reflexivity.
  - change (String.concat (String comma EmptyString) (List.map csvCell (c :: d :: l)))
      with (String.append (csvCell c)
              (String comma
                 (String.concat (String comma EmptyString) (List.map csvCell (d :: l))))).
    rewrite (read_cell c _ Hc). cbn [readFrom].
    change (Ascii.eqb comma dquote) with false. cbv iota.
    rewrite Ascii.eqb_refl. simpl andb. cbv iota.
    rewrite revStr_involutive. f_equal.
    apply IH; [discriminate|]. intros x Hx. apply Hplain. right. exact Hx.
Qed.
End ReadBack.

Lemma export_line_reads_back_witness :
  CsvExport.readLine (CsvExport.csvLine ["Rao, Asha"; "One"; "12"; "6500.00"])
  = ["Rao, Asha"; "One"; "12"; "6500.00"].
Proof.
  apply export_line_reads_back; [discriminate|].
  intros c [<-|[<-|[<-|[<-|[]]]]]; reflexivity.
Defined.

(** ** A created fee type on the forms and in the ledger *)

Section Created.
Context `{JsParse}.
Import Db.

Lemma In_omap {A B} (f : A -> option B) (l : list A) (y : B) :
  In y (omap f l) <-> exists x, In x l /\ f x = Some y.
Proof.
  induction l as [|a l IH]; cbn [omap list_omap].
  - split; [intros []|intros (x & [] & _)].
  - destruct (f a) as [b|] eqn:E.
    + simpl. rewrite IH. split.
      * intros [<-|(x & Hx & Hfx)].
        { exists a. split; [left; reflexivity|exact E]. }
        exists x. split; [right; exact Hx|exact Hfx].
      * intros (x & [<-|Hx] & Hfx); [left; congruence|].
        right. exists x. split; assumption.
    + rewrite IH. split.
      * intros (x & Hx & Hfx). exists x. split; [right; exact Hx|exact Hfx].
      * intros (x & [<-|Hx] & Hfx); [congruence|]. exists x. split; assumption.
Qed.

Lemma find_fresh_last (types : list FeeTypeRow) (new : FeeTypeRow) :
  (forall f, In f types -> ft_id f <> ft_id new) ->
  List.find (fun f => eqStr (ft_id f) (ft_id new)) (types ++ [new]) = Some new.
Proof.
  induction types as [|x l IH]; intros Hfresh; simpl.
  - rewrite (proj2 (eqStr_true _ _) eq_refl). reflexivity.
  - rewrite (proj2 (eqStr_false _ _) (Hfresh x (or_introl eq_refl))).
    apply IH. intros f Hf. apply Hfresh. right. exact Hf.
Qed.

(** X21.  A fee type created on the fee type page, under an identifier new to the
    catalog, carries the trimmed name and the amount of the form, and from
    then on a fee link that names the identifier resolves to it.  When the
    store holds a class, the edit form of the student page offers it for
    each class it was created for; with no class in the store the form
    offers nothing. *)
Theorem created_fee_type_is_offered (new_id : string) (form : FeeTypes.Form)
    (selectedClassIds : list string) (db db' : Store) :
  (forall f, In f (fee_types db) -> ft_id f <> new_id) ->
  FeeTypeAdmin.submitFeeType new_id form selectedClassIds db = (Succeeded, db') ->
  exists created,
    ft_id created = new_id
    /\ ft_name created = Js.trim (FeeTypes.name form)
    /\ Js.isEmpty (ft_name created) = false
    /\ ft_default_amount created
       = (if Js.isEmpty (FeeTypes.default_amount form) then None
          else parseFloat (FeeTypes.default_amount form))
    /\ In created (fee_types db')
    /\ (forall c, In c selectedClassIds -> Js.isEmpty c = false ->
          classes db <> [] ->
          In created (StudentView.filteredFeeTypesForEditEffect db' (Some c)))
    /\ (classes db = [] ->
        forall c, StudentView.filteredFeeTypesForEditEffect db' c = [])
    /\ (forall r : StudentFeeTypeRow,
          sft_fee_type_id r = new_id ->
          fee_type (joinFeeType db' r) = Some created).
Proof.
  intros Hfresh. unfold FeeTypeAdmin.submitFeeType, FeeTypes.validateForm.
  destruct (Js.isEmpty (Js.trim (FeeTypes.name form))) eqn:Ename; [discriminate|].
  match goal with
  | |- context [if ?b then Some _ else None] => destruct b; [discriminate|]
  end.
  intros Heq. injection Heq as <-.
  set (created :=
         {| ft_id := new_id;
            ft_school_id := None;
            ft_name := Js.trim (FeeTypes.name form);
            ft_description := FeeTypes.orNull (FeeTypes.description form);
            ft_default_amount :=
              if Js.isEmpty (FeeTypes.default_amount form) then None
              else parseFloat (FeeTypes.default_amount form);
            ft_scheduled_date := None;
            ft_applicable_from := FeeTypes.orNull (FeeTypes.applicable_from form) |}).
  assert (Hfind : List.find (fun f => eqStr (ft_id f) new_id) (fee_types db ++ [created])
                  = Some created).
  { apply (find_fresh_last (fee_types db) created). exact Hfresh. }
  exists created. split; [reflexivity|]. split; [reflexivity|].
  split; [exact Ename|]. split; [reflexivity|]. split; [|split; [|split]].
  - cbn [fee_types]. apply in_or_app. right. left. reflexivity.
  - intros c Hc Hne Hclasses. unfold StudentView.filteredFeeTypesForEditEffect.
    cbn [classes fee_types].
    assert (Htruthy : Js.truthyStr (Some c) = true).
    { destruct c; [discriminate Hne|reflexivity]. }
    rewrite Htruthy.
    destruct (classes db) as [|c0 cs] eqn:Ecl; [contradiction|].
    rewrite List.length_app. cbn [length negb orb Nat.eqb].
    rewrite Nat.add_1_r. cbn [Nat.eqb].
    unfold StudentView.fetchFilteredFeeTypesForEdit.
    cbn [fee_types fee_type_classes Js.strOr]. apply In_omap.
    exists {| ftc_fee_type_id := new_id; ftc_class_id := c; ftc_school_id := None |}.
    split.
    + apply filter_In. split.
      * apply in_or_app. right. apply in_map_iff. exists c. split; [reflexivity|].
        replace (Js.strOr (Some c) EmptyString) with c; [exact Hc|].
        destruct c; [discriminate Hne|reflexivity].
      * simpl. apply eqStr_true. destruct c; [discriminate Hne|reflexivity].
    + exact Hfind.
  - intros Hnone c. unfold StudentView.filteredFeeTypesForEditEffect.
    cbn [classes]. rewrite Hnone. cbn [length Nat.eqb].
    rewrite orb_true_r. reflexivity.
  - intros r Hid. unfold joinFeeType. cbn [fee_type fee_types].
    rewrite Hid, Hfind. reflexivity.
Qed.
End Created.

Lemma created_fee_type_is_offered_witness :
  exists created,
    Db.ft_id created = "B"
    /\ In created
         (StudentView.filteredFeeTypesForEditEffect
            (snd (@FeeTypeAdmin.submitFeeType Runtime.numbers "B" raiseA ["class-1"]
                    schoolDb)) (Some "class-1")).
Proof.
  assert (Hfresh : forall f, In f (Db.fee_types schoolDb) -> Db.ft_id f <> "B").
  { intros f [<-|[]]. discriminate. }
  destruct (@created_fee_type_is_offered Runtime.numbers "B" raiseA
              ["class-1"] schoolDb _ Hfresh eq_refl)
    as (created & Hid & _ & _ & _ & _ & Hin & _).
  exists created. split; [exact Hid|].
  apply Hin; [left; reflexivity|reflexivity|discriminate].
Defined.

(** ** The student page and the ledger on the same student *)

Lemma StatusRule_compat (tol f p f' p' : Q) (st : Status) :
  f == f' -> p == p' -> StatusRule tol f p st -> StatusRule tol f' p' st.
Proof.
  intros Hf Hp R. inversion R; subst.
  - apply rule_nothing_due_paid; lra.
  - apply rule_nothing_due; lra.
  - apply rule_paid; lra.
  - apply rule_partially_paid; lra.
  - apply rule_unpaid; lra.
Qed.

Lemma getPaymentStatus_rule (f p : Q) (st : Status) :
  StatusRule 0 f p st -> StudentView.getPaymentStatus f p = statusLabel st.
Proof.
  intros R. unfold StudentView.getPaymentStatus.
  destruct (Qle_bool f 0) eqn:E1; destruct (Qle_bool p 0) eqn:E2;
    destruct (Qle_bool f p) eqn:E3; destruct (Js.Qltb 0 p) eqn:E4;
      destruct (Js.Qltb p f) eqn:E5; destruct (Js.Qltb 0 f) eqn:E6;
        repeat match goal with
               | H : Qle_bool _ _ = true |- _ => apply Qle_bool_iff in H
               | H : Qle_bool _ _ = false |- _ => apply Qle_bool_gt in H
               | H : Js.Qltb _ _ = true |- _ => apply Qltb_lt in H
               | H : Js.Qltb _ _ = false |- _ => apply Qltb_ge in H
               end;
        simpl; inversion R; subst; simpl; try reflexivity; exfalso; lra.
Qed.

Lemma fold_add_ext {A} (f g : A -> Q) (l : list A) (a b : Q) :
  (forall x, f x == g x) -> a == b ->
  fold_left (fun sum x => Js.add sum (f x)) l a
  == fold_left (fun sum x => Js.add sum (g x)) l b.
Proof.
  intros Hfg. revert a b. induction l as [|x l IH]; intros a b Hab; simpl.
  - exact Hab.
  - apply IH. rewrite (add_comp a b (f x) (g x) Hab (Hfg x)). reflexivity.
Qed.

(** X22.  For one and the same fetched student, the student page and the ledger
    without tenant context show the same total paid, the same balance on the
    total fees, and the same status under the labels of the student page. *)
Theorem student_page_agrees_with_ledger `{Js.JsDate} (today : Z) (s : Db.StudentJoined) :
  StudentView.calculatedTotalPaid s
  == Js.jsOr (Sfms2Ledger.totalPaid (Sfms2Ledger.enrich today s)) 0
  /\ StudentView.calculatedBalance s
     == Sfms2Ledger.balance ViewTotal (Sfms2Ledger.enrich today s)
  /\ StudentView.displayStatus s
     = statusLabel (Sfms2Ledger.getDynamicStatus ViewTotal (Sfms2Ledger.enrich today s)).
Proof.
  assert (Hpaid : StudentView.calculatedTotalPaid s
                  == Js.jsOr (Sfms2Ledger.totalPaid (Sfms2Ledger.enrich today s)) 0).
  { unfold StudentView.calculatedTotalPaid, Sfms2Ledger.enrich.
    cbn [Sfms2Ledger.totalPaid].
    rewrite jsOr_eq. cbn [default from_option id]. rewrite totalPaidOf_fold.
    unfold Js.reduceSum. apply fold_add_ext; [|reflexivity].
    intros p. rewrite jsOr_eq. reflexivity. }
  split; [exact Hpaid|]. split.
  - unfold StudentView.calculatedBalance, Sfms2Ledger.balance.
    rewrite (sub_comp _ (Sfms2Ledger.feesForCalc ViewTotal (Sfms2Ledger.enrich today s))
               _ (Js.jsOr (Sfms2Ledger.totalPaid (Sfms2Ledger.enrich today s)) 0)
               (Qeq_refl _) Hpaid).
    reflexivity.
  - unfold StudentView.displayStatus. apply getPaymentStatus_rule.
    apply (StatusRule_compat 0
             (Sfms2Ledger.feesForCalc ViewTotal (Sfms2Ledger.enrich today s))
             (Js.jsOr (Sfms2Ledger.totalPaid (Sfms2Ledger.enrich today s)) 0)).
    + reflexivity.
    + symmetry. exact Hpaid.
    + apply sfms2_status_rule.
Qed.

(** ** The selections the registration form can reach *)

Section Reachable.
Context `{JsParse}.
Import Db.
Import Registration.





End Reachable.


